(** * Verification of the benchmark orchestration script [run.py]

    A shallow embedding of [Project1/scripts/run.py] and the properties
    its specification states about it.

    Conventions of the embedding.
    - A Python [str] is a [string]; a character is a code point below 256
      (the Latin-1 range), with Python's [str.isspace], [str.lower] and
      [str.splitlines] restricted to that range.
    - A file holds text; the UTF-8 codec, which is injective on these code
      points, is left out.
    - A Python exception is a value of [exn]; a function that can raise
      returns [res A]. *)

From Stdlib Require Import ZArith Ascii DecimalString DecimalPos.
From stdpp Require Import gmap strings list.

Local Open Scope Z_scope.

(** ** Exceptions *)

Inductive exn : Type :=
  | ValueError (msg : string)
  | KeyError (msg : string)
  | TypeError (msg : string)
  | RuntimeError (msg : string)
  | StatisticsError (msg : string)
  | TimeoutExpired
  | OSError (msg : string)
  | CsvError (msg : string).

Inductive res (A : Type) : Type :=
  | Ok (a : A)
  | Raise (e : exn).
Arguments Ok {A} a.
Arguments Raise {A} e.

Global Instance res_ret : MRet res := fun _ a => Ok a.
Global Instance res_bind : MBind res := fun _ _ k m =>
  match m with
  | Ok a => k a
  | Raise e => Raise e
  end.

Definition raises {A : Type} (m : res A) : Prop :=
  match m with Ok _ => False | Raise _ => True end.

(** A [for] loop whose body can raise: the first exception leaves the loop. *)
Fixpoint for_each {A S : Type} (body : S → A → res S) (xs : list A) (s : S)
  : res S :=
  match xs with
  | [] => Ok s
  | x :: xs' => s' ← body s x; for_each body xs' s'
  end.

(** ** Python strings *)

Module PyStr.

Definition code (c : ascii) : N := N_of_ascii c.

(** [str.isspace] on one character. *)
Definition is_space (c : ascii) : bool :=
  let n := code c in
  ((9 <=? n) && (n <=? 13) || (28 <=? n) && (n <=? 32)
   || (n =? 133) || (n =? 160))%N.

(** [str.lower] on one character. *)
Definition lower_char (c : ascii) : ascii :=
  let n := code c in
  if ((65 <=? n) && (n <=? 90)
      || (192 <=? n) && (n <=? 222) && negb (n =? 215))%N
  then ascii_of_N (n + 32) else c.

Fixpoint lower (s : string) : string :=
  match s with
  | "" => ""
  | String c s' => String (lower_char c) (lower s')
  end.

Fixpoint lstrip (s : string) : string :=
  match s with
  | "" => ""
  | String c s' => if is_space c then lstrip s' else s
  end.

Fixpoint rstrip (s : string) : string :=
  match s with
  | "" => ""
  | String c s' =>
      match rstrip s' with
      | "" => if is_space c then "" else String c ""
      | r => String c r
      end
  end.

(** [s.strip()] *)
Definition strip (s : string) : string := rstrip (lstrip s).

(** [s.startswith(p)] *)
Fixpoint startswith (s p : string) {struct p} : bool :=
  match p with
  | "" => true
  | String a p' =>
      match s with
      | "" => false
      | String b s' => bool_decide (a = b) && startswith s' p'
      end
  end.

(** [sub in s] *)
Fixpoint contains (sub s : string) : bool :=
  startswith s sub ||
  match s with
  | "" => false
  | String _ s' => contains sub s'
  end.

(** [s.split(sep, 1)] for a separator of one character: the text before
    the first separator and the text after it, or the whole of [s]. *)
Fixpoint split1 (sep : ascii) (s : string) : list string :=
  match s with
  | "" => [""]
  | String c s' =>
      if bool_decide (c = sep) then [""; s']
      else match split1 sep s' with
           | [k; v] => [String c k; v]
           | _ => [s]
           end
  end.

(** [sep.join(parts)] *)
Fixpoint join (sep : string) (parts : list string) : string :=
  match parts with
  | [] => ""
  | [p] => p
  | p :: ps => p +:+ sep +:+ join sep ps
  end.

(** The line boundaries of [str.splitlines]. *)
Definition is_linebreak (c : ascii) : bool :=
  let n := code c in
  ((10 <=? n) && (n <=? 13) || (28 <=? n) && (n <=? 30) || (n =? 133))%N.

(** [s.splitlines()]. A boundary ends the line before it; the text after
    the last boundary is a line only when it is not empty. A carriage
    return followed by a line feed is one boundary. *)
Fixpoint splitlines (s : string) : list string :=
  match s with
  | "" => []
  | String c s' =>
      if is_linebreak c then
        "" :: match s' with
              | String c' s'' =>
                  if bool_decide (c = "013"%char) && bool_decide (c' = "010"%char)
                  then splitlines s''
                  else splitlines s'
              | "" => []
              end
      else match splitlines s' with
           | [] => [String c ""]
           | l :: ls => String c l :: ls
           end
  end.

(** What a file opened for reading in text mode with the default
    [newline=None] hands over: every carriage return, with the line feed
    after it if there is one, has become a line feed. *)
Fixpoint universal_newlines (s : string) : string :=
  match s with
  | "" => ""
  | String c s' =>
      if bool_decide (c = "013"%char) then
        String "010"
          match s' with
          | String c' s'' =>
              if bool_decide (c' = "010"%char) then universal_newlines s''
              else universal_newlines s'
          | "" => ""
          end
      else String c (universal_newlines s')
  end.

(** Some character of [s] is a line boundary. *)
Fixpoint has_linebreak (s : string) : bool :=
  match s with
  | "" => false
  | String c s' => is_linebreak c || has_linebreak s'
  end.

(** Every character of [s] passes [P]. *)
Fixpoint all_chars (P : ascii → bool) (s : string) : bool :=
  match s with
  | "" => true
  | String c s' => P c && all_chars P s'
  end.

(** [str(n)] for an integer. *)
Definition of_Z (n : Z) : string := NilZero.string_of_int (Z.to_int n).

Definition is_digit (c : ascii) : bool :=
  let n := code c in ((48 <=? n) && (n <=? 57))%N.

(** The digits of an integer literal as [int] reads them: an underscore may
    stand between two digits and nowhere else. [prev] tells whether the
    character before was a digit. *)
Fixpoint int_digits (prev : bool) (s : string) : option string :=
  match s with
  | "" => if prev then Some "" else None
  | String c s' =>
      if is_digit c then String c <$> int_digits true s'
      else if bool_decide (c = "_"%char) && prev then
        match s' with
        | String c' _ => if is_digit c' then int_digits false s' else None
        | "" => None
        end
      else None
  end.

(** An integer literal with its sign, nothing around it. *)
Definition int_literal (t : string) : option Z :=
  let '(negative, body) :=
    match t with
    | String "-" r => (true, r)
    | String "+" r => (false, r)
    | _ => (false, t)
    end in
  digits ← int_digits false body;
  d ← NilZero.uint_of_string digits;
  Some (if negative : bool then Z.opp (Z.of_uint d) else Z.of_uint d).

(** [int(s)]: white space around the literal is accepted. *)
Definition to_Z (s : string) : option Z := int_literal (strip s).

(** The lines a text file hands over when it is iterated: each ends with
    its line feed, except a last one that has none. *)
Fixpoint file_lines (s : string) : list string :=
  match s with
  | "" => []
  | String c s' =>
      if bool_decide (c = "010"%char) then String c "" :: file_lines s'
      else match file_lines s' with
           | [] => [String c ""]
           | l :: ls => String c l :: ls
           end
  end.

(** The strings of a list one after the other. *)
Fixpoint concat (parts : list string) : string :=
  match parts with
  | [] => ""
  | p :: ps => p +:+ concat ps
  end.

End PyStr.

(** ** The file system *)

Inductive node : Type :=
  | File (content : string)
  | Dir.

(** Paths are compared as strings; the directories that hold the files are
    taken to exist. *)
Abbreviation filesystem := (gmap string node).

(** [os.path.exists(path)] *)
Definition path_exists (fs : filesystem) (path : string) : bool :=
  bool_decide (is_Some (fs !! path)).

(** [open(path, "r")] followed by [f.read()], before newline translation. *)
Definition read_file (fs : filesystem) (path : string) : res string :=
  match fs !! path with
  | Some (File content) => Ok content
  | Some Dir => Raise (OSError "IsADirectoryError")
  | None => Raise (OSError "FileNotFoundError")
  end.

(** [open(path, "w")] followed by one [f.write(text)]. *)
Definition write_file (fs : filesystem) (path text : string) : res filesystem :=
  match fs !! path with
  | Some Dir => Raise (OSError "IsADirectoryError")
  | _ => Ok (<[path := File text]> fs)
  end.

(** [open(path, "a")]: the file is created when it is absent; a directory
    cannot be opened. *)
Definition open_append (fs : filesystem) (path : string) : res filesystem :=
  match fs !! path with
  | Some Dir => Raise (OSError "IsADirectoryError")
  | Some (File _) => Ok fs
  | None => Ok (<[path := File ""]> fs)
  end.

(** One [f.write(text)] on a file opened for appending: the text goes after
    what the file holds. *)
Definition file_write (fs : filesystem) (path text : string) : filesystem :=
  match fs !! path with
  | Some (File old) => <[path := File (old +:+ text)]> fs
  | _ => fs
  end.

(** What the file at [path] holds, if it is a regular file. *)
Definition content (fs : filesystem) (path : string) : option string :=
  match fs !! path with
  | Some (File text) => Some text
  | _ => None
  end.

(** ** Config files *)

(** [parse_cfg] *)
Definition parse_cfg (fs : filesystem) (path : string) : res (list string) :=
  text ← read_file fs path;
  Ok (PyStr.splitlines (PyStr.universal_newlines text)).

(** The body of the loop of [set_cfg_value]; the state is [(out, found)]. *)
Definition set_cfg_body (key_lower value : string)
    (st : list string * bool) (line : string) : res (list string * bool) :=
  let '(out, found) := st in
  let stripped := PyStr.strip line in
  if bool_decide (stripped = "") || PyStr.startswith stripped "#"
     || negb (PyStr.contains "=" stripped)
  then Ok (out ++ [line], found)
  else
    match PyStr.split1 "=" stripped with
    | [k; v] =>
        if bool_decide (PyStr.lower (PyStr.strip k) = key_lower)
        then Ok (out ++ [PyStr.strip k +:+ "=" +:+ value], true)
        else Ok (out ++ [line], found)
    | _ => Raise (ValueError "not enough values to unpack")
    end.

(** [set_cfg_value] *)
Definition set_cfg_value (lines : list string) (key value : string)
  : res (list string) :=
  let key_lower := PyStr.lower key in
  st ← for_each (set_cfg_body key_lower value) lines ([], false);
  let '(out, found) := st in
  Ok (if found : bool then out else out ++ [key +:+ "=" +:+ value]).

(** [write_cfg] *)
Definition write_cfg (fs : filesystem) (lines : list string) (path : string)
  : res filesystem :=
  write_file fs path (PyStr.join (String "010" "") lines +:+ String "010" "").

(** *** Reading a config line

    What the loop of [set_cfg_value] sees in one line. *)

(** The key of a [key=value] line, stripped; [None] for a blank line, a
    comment and a line without [=]. *)
Definition cfg_line_key (line : string) : option string :=
  let stripped := PyStr.strip line in
  if bool_decide (stripped = "") || PyStr.startswith stripped "#"
     || negb (PyStr.contains "=" stripped)
  then None
  else match PyStr.split1 "=" stripped with
       | [k; _] => Some (PyStr.strip k)
       | _ => None
       end.

(** The line is a [key=value] line whose key is [key] up to case. *)
Definition key_matches (key line : string) : bool :=
  match cfg_line_key line with
  | Some k => bool_decide (PyStr.lower k = PyStr.lower key)
  | None => false
  end.

(** A matching line with its value replaced; any other line as it is. *)
Definition rewrite_line (key value line : string) : string :=
  match cfg_line_key line with
  | Some k =>
      if bool_decide (PyStr.lower k = PyStr.lower key)
      then k +:+ "=" +:+ value else line
  | None => line
  end.

Definition is_comment (line : string) : bool :=
  PyStr.startswith (PyStr.strip line) "#".

(** A key that a line [key=value] made from it is read back as: no white
    space around it, no [=] inside, no [#] in front. *)
Definition cfg_key_ok (key : string) : bool :=
  bool_decide (PyStr.strip key = key) && negb (PyStr.startswith key "#")
  && negb (PyStr.contains "=" key).

(** The rewrite as the words "first match wins" describe it: the first
    matching line is rewritten and the lines after it are left alone. *)
Fixpoint rewrite_first_match (key value : string) (lines : list string)
  : list string :=
  match lines with
  | [] => []
  | line :: rest =>
      if key_matches key line then rewrite_line key value line :: rest
      else line :: rewrite_first_match key value rest
  end.

Definition set_cfg_value_first_match (lines : list string) (key value : string)
  : list string :=
  if existsb (key_matches key) lines then rewrite_first_match key value lines
  else lines ++ [key +:+ "=" +:+ value].

(** ** The [csv] module, in the default dialect *)

Module Csv.

Definition QUOTE : ascii := "034"%char.
Definition CR : ascii := "013"%char.
Definition LF : ascii := "010"%char.
Definition CRLF : string := String CR (String LF "").

(** *** Writer *)

(** The characters that make the writer quote a field. *)
Definition is_special (c : ascii) : bool :=
  bool_decide (c = ","%char) || bool_decide (c = QUOTE)
  || bool_decide (c = CR) || bool_decide (c = LF).

Fixpoint has_special (s : string) : bool :=
  match s with
  | "" => false
  | String c s' => is_special c || has_special s'
  end.

Fixpoint double_quotes (s : string) : string :=
  match s with
  | "" => ""
  | String c s' =>
      if bool_decide (c = QUOTE) then String c (String c (double_quotes s'))
      else String c (double_quotes s')
  end.

(** One field as written; [alone] tells that it is the only one of its row,
    where an empty field is quoted. *)
Definition write_field (alone : bool) (s : string) : string :=
  if has_special s || alone && bool_decide (s = "")
  then String QUOTE (double_quotes s +:+ String QUOTE "")
  else s.

(** The text of [writer.writerow(fields)], the fields already strings. *)
Definition writerow (fields : list string) : string :=
  PyStr.join "," (map (write_field (bool_decide (length fields = 1%nat))) fields)
  +:+ CRLF.

(** *** Reader *)

Inductive state : Type :=
  | START_RECORD
  | START_FIELD
  | IN_FIELD
  | IN_QUOTED_FIELD
  | QUOTE_IN_QUOTED_FIELD
  | EAT_CRNL.

Global Instance state_eq_dec : EqDecision state.
Proof. solve_decision. Defined.

Record parser : Type := Parser {
  st : state;
  field : string;
  fields : list string;
}.

Definition parse_reset : parser :=
  {| st := START_RECORD; field := ""; fields := [] |}.

Definition add_char (p : parser) (c : ascii) (s : state) : parser :=
  {| st := s; field := field p +:+ String c ""; fields := fields p |}.

Definition save_field (p : parser) (s : state) : parser :=
  {| st := s; field := ""; fields := fields p ++ [field p] |}.

Definition goto (p : parser) (s : state) : parser :=
  {| st := s; field := field p; fields := fields p |}.

Definition is_eol (c : ascii) : bool :=
  bool_decide (c = LF) || bool_decide (c = CR).

(** One character of a line, or the end of the line ([None]). *)
Definition process_char (p : parser) (c : option ascii) : res parser :=
  let start_field :=
    match c with
    | None => Ok (save_field p START_RECORD)
    | Some c =>
        if is_eol c then Ok (save_field p EAT_CRNL)
        else if bool_decide (c = QUOTE) then Ok (goto p IN_QUOTED_FIELD)
        else if bool_decide (c = ","%char) then Ok (save_field p START_FIELD)
        else Ok (add_char p c IN_FIELD)
    end in
  match st p with
  | START_RECORD =>
      match c with
      | None => Ok p
      | Some c' => if is_eol c' then Ok (goto p EAT_CRNL) else start_field
      end
  | START_FIELD => start_field
  | IN_FIELD =>
      match c with
      | None => Ok (save_field p START_RECORD)
      | Some c =>
          if is_eol c then Ok (save_field p EAT_CRNL)
          else if bool_decide (c = ","%char) then Ok (save_field p START_FIELD)
          else Ok (add_char p c IN_FIELD)
      end
  | IN_QUOTED_FIELD =>
      match c with
      | None => Ok p
      | Some c =>
          if bool_decide (c = QUOTE) then Ok (goto p QUOTE_IN_QUOTED_FIELD)
          else Ok (add_char p c IN_QUOTED_FIELD)
      end
  | QUOTE_IN_QUOTED_FIELD =>
      match c with
      | None => Ok (save_field p START_RECORD)
      | Some c =>
          if bool_decide (c = QUOTE) then Ok (add_char p c IN_QUOTED_FIELD)
          else if bool_decide (c = ","%char) then Ok (save_field p START_FIELD)
          else if is_eol c then Ok (save_field p EAT_CRNL)
          else Ok (add_char p c IN_FIELD)
      end
  | EAT_CRNL =>
      match c with
      | None => Ok (goto p START_RECORD)
      | Some c =>
          if is_eol c then Ok p
          else Raise (CsvError "new-line character seen in unquoted field")
      end
  end.

(** The characters of one line, then its end. *)
Fixpoint process_line (p : parser) (line : string) : res parser :=
  match line with
  | "" => process_char p None
  | String c line' => p' ← process_char p (Some c); process_line p' line'
  end.

(** The records the reader yields from the lines it is given, in order; an
    error is the last thing it yields. A record is complete when a line
    leaves the parser at the start of a record; at the end of the input an
    open quoted field, or a field begun, is still yielded. *)
Fixpoint records (p : parser) (lines : list string) : list (res (list string)) :=
  match lines with
  | [] =>
      if negb (bool_decide (field p = "")) || bool_decide (st p = IN_QUOTED_FIELD)
      then [Ok (fields p ++ [field p])] else []
  | line :: lines' =>
      match process_line p line with
      | Raise e => [Raise e]
      | Ok p' =>
          if bool_decide (st p' = START_RECORD)
          then Ok (fields p') :: records parse_reset lines'
          else records p' lines'
      end
  end.

(** [csv.reader(f)] for a file opened in text mode with the default newline
    handling. The field size limit is left out. *)
Definition reader (text : string) : list (res (list string)) :=
  records parse_reset (PyStr.file_lines (PyStr.universal_newlines text)).

(** *** DictReader *)

(** The dictionary of one row. A field name that occurs twice keeps the
    later field; a name the row is too short for maps to [None]. The entry
    under the key [None] for the fields beyond the names is left out: no
    string key reads it. *)
Definition dict_row (fieldnames row : list string) : gmap string (option string) :=
  let zipped :=
    foldl (λ d kv, <[kv.1 := Some kv.2]> d) ∅ (zip fieldnames row) in
  foldl (λ d k, <[k := None]> d) zipped (drop (length row) fieldnames).

(** [csv.DictReader(f)], read as far as [reader.fieldnames]: the field
    names, [[]] for an empty file, and the records that follow. *)
Definition dict_reader (text : string)
  : res (list string * list (res (list string))) :=
  match reader text with
  | [] => Ok ([], [])
  | Raise e :: _ => Raise e
  | Ok names :: rest => Ok (names, rest)
  end.

(** [for row in reader: body]. Empty records are skipped. *)
Fixpoint for_rows {S : Type} (body : S → gmap string (option string) → res S)
    (fieldnames : list string) (rows : list (res (list string))) (s : S) : res S :=
  match rows with
  | [] => Ok s
  | Raise e :: _ => Raise e
  | Ok [] :: rows' => for_rows body fieldnames rows' s
  | Ok row :: rows' =>
      s' ← body s (dict_row fieldnames row);
      for_rows body fieldnames rows' s'
  end.

(** [row[key]] *)
Definition getitem (row : gmap string (option string)) (key : string)
  : res (option string) :=
  match row !! key with
  | Some v => Ok v
  | None => Raise (KeyError key)
  end.

End Csv.

(** ** Floats and the [statistics] module

    The floating-point operations the script uses, and the functions of
    [statistics] on a list that is not empty. *)

Class PyFloat : Type := {
  float : Type;
  float_zero : float;                    (* [0.0] *)
  float_of_nat : nat → float;            (* [float(len(values))] *)
  fsub : float → float → float;          (* [a - b] *)
  flt : float → float → bool;            (* [a < b] *)
  float_of_str : string → res float;     (* [float(s)] *)
  str_of_float : float → string;         (* [str(x)] *)
  fmt3 : float → string;                 (* [format(x, ".3f")] *)
  int_of_float : float → res Z;          (* [int(x)] *)
  stat_fmean : list float → res float;
  stat_mean : list float → res float;
  stat_pstdev : list float → res float;
  stat_stdev : list float → res float;
  stat_median : list float → res float;
}.

(** ** The functions of the script *)

Section script.
Context `{PyFloat}.

(** [min(values)] and [max(values)] *)
Definition py_min (values : list float) : res float :=
  match values with
  | [] => Raise (ValueError "min() arg is an empty sequence")
  | x :: rest => Ok (foldl (λ m y, if flt y m then y else m) x rest)
  end.

Definition py_max (values : list float) : res float :=
  match values with
  | [] => Raise (ValueError "max() arg is an empty sequence")
  | x :: rest => Ok (foldl (λ m y, if flt m y then y else m) x rest)
  end.

(** [float(v)] for a field of a row, which is [None] in a short row. *)
Definition float_of_field (v : option string) : res float :=
  match v with
  | Some s => float_of_str s
  | None => Raise (TypeError "float() argument must be a string or a number")
  end.

(** [int(v)] for a field of a row. *)
Definition int_of_field (v : option string) : res Z :=
  match v with
  | Some s =>
      match PyStr.to_Z s with
      | Some n => Ok n
      | None => Raise (ValueError "invalid literal for int()")
      end
  | None => Raise (TypeError "int() argument must be a string or a number")
  end.

(** The body of the loop of [read_fitness_csv]; the state is
    [(fitness_values, eval_time_ms)]. *)
Definition read_fitness_body (st : list float * option float)
    (row : gmap string (option string)) : res (list float * option float) :=
  let '(fitness_values, eval_time_ms) := st in
  match row !! "fitness" with
  | None | Some None => Ok st
  | Some (Some fitness) =>
      if bool_decide (PyStr.strip fitness = "") then Ok st
      else
        x ← float_of_str fitness;
        match eval_time_ms with
        | Some _ => Ok (fitness_values ++ [x], eval_time_ms)
        | None =>
            v ← Csv.getitem row "eval_time_ms";
            t ← float_of_field v;
            Ok (fitness_values ++ [x], Some t)
        end
  end.

(** [read_fitness_csv] *)
Definition read_fitness_csv (fs : filesystem) (csv_path : string)
  : res (list float * float) :=
  text ← read_file fs csv_path;
  hr ← Csv.dict_reader text;
  let '(headers, rows) := hr in
  if negb (bool_decide ("fitness" ∈ headers))
  then Raise (ValueError "Missing 'fitness' column")
  else if negb (bool_decide ("eval_time_ms" ∈ headers))
  then Raise (ValueError "Missing 'eval_time_ms' column")
  else
    st ← Csv.for_rows read_fitness_body headers rows ([], None);
    match st.2 with
    | None => Raise (ValueError "No rows found to read eval_time_ms")
    | Some eval_time_ms => Ok (st.1, eval_time_ms)
    end.

(** The row [append_run_to_master] writes for one fitness value. *)
Definition master_row (run_id : Z) (eval_time_ms : float) (exp_idx : nat)
    (fit : float) : list string :=
  [PyStr.of_Z run_id; PyStr.of_Z (Z.of_nat exp_idx); str_of_float fit;
   str_of_float eval_time_ms].

Definition master_header : list string :=
  ["run"; "experiment"; "fitness"; "eval_time_ms"].

(** [append_run_to_master] *)
Definition append_run_to_master (fs : filesystem) (master_csv : string)
    (run_id : Z) (fitness_values : list float) (eval_time_ms : float)
  : res filesystem :=
  let file_exists := path_exists fs master_csv in
  fs ← open_append fs master_csv;
  let fs :=
    if negb file_exists
    then file_write fs master_csv (Csv.writerow master_header) else fs in
  Ok (foldl (λ fs row, file_write fs master_csv (Csv.writerow row)) fs
        (imap (master_row run_id eval_time_ms) fitness_values)).

(** [analyze] *)
Definition analyze (values : list float) : res (gmap string float) :=
  if bool_decide (values = [])
  then Raise (ValueError "No fitness values to analyze.")
  else
    mean ← stat_fmean values;
    pstdev ← stat_pstdev values;
    stdev ← (if bool_decide (2 ≤ length values)%nat then stat_stdev values
             else Ok float_zero);
    vmin ← py_min values;
    vmax ← py_max values;
    med ← stat_median values;
    Ok (<["count" := float_of_nat (length values)]>
        (<["mean" := mean]>
        (<["pstdev" := pstdev]>
        (<["stdev" := stdev]>
        (<["min" := vmin]>
        (<["max" := vmax]>
        (<["range" := fsub vmax vmin]>
        (<["median" := med]> ∅)))))))).

(** The result of [analyze_times_from_master]. *)
Record time_stats : Type := TimeStats {
  ts_runs : nat;
  ts_avg_ms : float;
  ts_min_ms : float;
  ts_max_ms : float;
}.

(** The body of the loop of [analyze_times_from_master]; [times_by_run] is
    the dictionary, in the order its keys were inserted. *)
Definition times_body (times_by_run : list (Z * float))
    (row : gmap string (option string)) : res (list (Z * float)) :=
  v ← Csv.getitem row "run";
  run_id ← int_of_field v;
  if bool_decide (run_id ∈ times_by_run.*1) then Ok times_by_run
  else
    v ← Csv.getitem row "eval_time_ms";
    t ← float_of_field v;
    Ok (times_by_run ++ [(run_id, t)]).

(** [statistics.mean], which refuses an empty list. *)
Definition py_mean (values : list float) : res float :=
  match values with
  | [] => Raise (StatisticsError "mean requires at least one data point")
  | _ => stat_mean values
  end.

(** [analyze_times_from_master] *)
Definition analyze_times_from_master (fs : filesystem) (master_csv : string)
  : res time_stats :=
  text ← read_file fs master_csv;
  hr ← Csv.dict_reader text;
  let '(headers, rows) := hr in
  if negb (bool_decide ("eval_time_ms" ∈ headers))
  then Raise (KeyError "Master CSV missing 'eval_time_ms'")
  else
    times_by_run ← Csv.for_rows times_body headers rows [];
    let times := times_by_run.*2 in
    avg ← py_mean times;
    lo ← py_min times;
    hi ← py_max times;
    Ok {| ts_runs := length times; ts_avg_ms := avg;
          ts_min_ms := lo; ts_max_ms := hi |}.

End script.

(** ** The world of the script *)

(** How [subprocess.run] ends. *)
Inductive proc_result : Type :=
  | Completed (returncode : Z)
  | TimedOut
  | SpawnFailed (msg : string).

Record world : Type := World {
  w_fs : filesystem;
  w_stdout : list string;           (* lines printed, oldest first *)
  w_stderr : list string;
  w_spawned : list (list string);   (* command lines started, oldest first *)
  w_clock : nat;                    (* readings of the clock so far *)
}.

(** What the script does not decide: the program it starts, the clock and
    the name of the temporary directory. The program sees the command lines
    started before it, its own, and the files; it may change the files. *)
Class Env : Type := {
  subprocess_run :
    list (list string) → list string → Z → filesystem → proc_result * filesystem;
  time_time : nat → Z;              (* [int(time.time())] at the n-th reading *)
  mkdtemp : filesystem → string;
}.

(** A computation on the world that returns or raises. *)
Definition prog (A : Type) : Type := world → res A * world.

Global Instance prog_ret : MRet prog := λ _ a w, (Ok a, w).
Global Instance prog_bind : MBind prog := λ _ _ k m w,
  match m w with
  | (Ok a, w') => k a w'
  | (Raise e, w') => (Raise e, w')
  end.

Definition lift {A : Type} (r : res A) : prog A := λ w, (r, w).

(** A call that reads the files. *)
Definition reading {A : Type} (f : filesystem → res A) : prog A :=
  λ w, (f (w_fs w), w).

(** A call that changes the files, or raises and leaves them. *)
Definition writing (f : filesystem → res filesystem) : prog () :=
  λ w, match f (w_fs w) with
       | Ok fs => (Ok (), World fs (w_stdout w) (w_stderr w) (w_spawned w) (w_clock w))
       | Raise e => (Raise e, w)
       end.

(** [print(line)] and [print(line, file=sys.stderr)] *)
Definition print (line : string) : prog () :=
  λ w, (Ok (), World (w_fs w) (w_stdout w ++ [line]) (w_stderr w)
                     (w_spawned w) (w_clock w)).

Definition eprint (line : string) : prog () :=
  λ w, (Ok (), World (w_fs w) (w_stdout w) (w_stderr w ++ [line])
                     (w_spawned w) (w_clock w)).

(** [for x in xs: body] with the loop's variables in [s]. *)
Fixpoint for_prog {A S : Type} (body : S → A → prog S) (xs : list A) (s : S)
  : prog S :=
  match xs with
  | [] => mret s
  | x :: xs' => s' ← body s x; for_prog body xs' s'
  end.

(** [range(n)] *)
Definition range (n : Z) : list Z := Z.of_nat <$> seq 0 (Z.to_nat n).

Inductive seed_mode : Type := SeedKeep | SeedTime | SeedIncrement.

(** The command line after [argparse]. *)
Record args : Type := Args {
  arg_exe : string;
  arg_config : string;
  arg_runs : Z;
  arg_out : string;
  arg_seed_mode : seed_mode;
  arg_base_seed : option Z;
  arg_timeout : Z;
}.

Section main.
Context `{PyFloat} `{Env}.

(** [int(time.time())] *)
Definition now : prog Z :=
  λ w, (Ok (time_time (w_clock w)),
        World (w_fs w) (w_stdout w) (w_stderr w) (w_spawned w) (S (w_clock w))).

(** [run_program] *)
Definition run_program (exe cfg_path : string) (timeout_sec : Z) : prog () :=
  λ w,
  let '(result, fs) :=
    subprocess_run (w_spawned w) [exe; cfg_path] timeout_sec (w_fs w) in
  let w' := World fs (w_stdout w) (w_stderr w)
                  (w_spawned w ++ [[exe; cfg_path]]) (w_clock w) in
  match result with
  | Completed returncode =>
      if bool_decide (returncode ≠ 0)
      then (Raise (RuntimeError ("Program failed (code "
                                 +:+ PyStr.of_Z returncode +:+ ").")), w')
      else (Ok (), w')
  | TimedOut => (Raise TimeoutExpired, w')
  | SpawnFailed msg => (Raise (OSError msg), w')
  end.

(** A path below [dir]. *)
Definition below (dir path : string) : bool :=
  PyStr.startswith path (dir +:+ "/").

(** [with tempfile.TemporaryDirectory() as tmpdir: body]: the directory is
    made, and removed with all it holds however the body ends. *)
Definition with_tmpdir {A : Type} (body : string → prog A) : prog A :=
  λ w,
  let tmpdir := mkdtemp (w_fs w) in
  let w1 := World (<[tmpdir := Dir]> (w_fs w)) (w_stdout w) (w_stderr w)
                  (w_spawned w) (w_clock w) in
  let '(r, w2) := body tmpdir w1 in
  (r, World (filter (λ kv, kv.1 ≠ tmpdir ∧ below tmpdir kv.1 = false) (w_fs w2))
            (w_stdout w2) (w_stderr w2) (w_spawned w2) (w_clock w2)).

(** [stats[key]] *)
Definition stat (stats : gmap string float) (key : string) : res float :=
  match stats !! key with
  | Some x => Ok x
  | None => Raise (KeyError key)
  end.

(** The first half of a turn of the run loop: the config of the run is
    made and written; the value is [(out_csv, tmp_cfg)]. *)
Definition prepare_run (a : args) (base_lines : list string) (base_seed : Z)
    (tmpdir : string) (run_id : Z) : prog (string * string) :=
  let out_csv := tmpdir +:+ "/" +:+ "run_" +:+ PyStr.of_Z run_id +:+ "_fitness.csv" in
  let lines := base_lines in
  lines ← lift (set_cfg_value lines "output" out_csv);
  lines ← match arg_seed_mode a with
          | SeedTime =>
              t ← now;
              lift (set_cfg_value lines "seed" (PyStr.of_Z t))
          | SeedIncrement =>
              lift (set_cfg_value lines "seed" (PyStr.of_Z (base_seed + run_id)))
          | SeedKeep => mret lines
          end;
  let tmp_cfg := tmpdir +:+ "/" +:+ "run_" +:+ PyStr.of_Z run_id +:+ ".cfg" in
  writing (λ fs, write_cfg fs lines tmp_cfg);;
  mret (out_csv, tmp_cfg).

(** One turn of the run loop of [main]; the state is [all_values]. *)
Definition run_once (a : args) (base_lines : list string) (base_seed : Z)
    (tmpdir : string) (all_values : list float) (run_id : Z)
  : prog (list float) :=
  paths ← prepare_run a base_lines base_seed tmpdir run_id;
  let '(out_csv, tmp_cfg) := paths in
  run_program (arg_exe a) tmp_cfg (arg_timeout a);;
  fe ← reading (λ fs, read_fitness_csv fs out_csv);
  let '(fitness_vals, eval_time_ms) := fe in
  writing (λ fs, append_run_to_master fs (arg_out a) run_id fitness_vals eval_time_ms);;
  let all_values := all_values ++ fitness_vals in
  print ("Run " +:+ PyStr.of_Z (run_id + 1) +:+ "/" +:+ PyStr.of_Z (arg_runs a)
         +:+ ": appended " +:+ PyStr.of_Z (Z.of_nat (length fitness_vals))
         +:+ " fitness values");;
  mret all_values.

(** The run loop of [main], inside its temporary directory. *)
Definition run_loop (a : args) (base_lines : list string) (base_seed : Z)
  : prog (list float) :=
  with_tmpdir (λ tmpdir,
    for_prog (run_once a base_lines base_seed tmpdir) (range (arg_runs a)) []).

(** The report of [main] after the loop. *)
Definition report (a : args) (all_values : list float) : prog () :=
  stats_all ← lift (analyze all_values);
  print "";;
  print "=== Overall Fitness Analytics (across all runs/experiments) ===";;
  count ← lift (c ← stat stats_all "count"; int_of_float c);
  print ("Total values: " +:+ PyStr.of_Z count);;
  x ← lift (stat stats_all "mean");
  print ("Mean:         " +:+ str_of_float x);;
  x ← lift (stat stats_all "pstdev");
  print ("StdDev (pop):  " +:+ str_of_float x);;
  x ← lift (stat stats_all "stdev");
  print ("StdDev (samp): " +:+ str_of_float x);;
  x ← lift (stat stats_all "min");
  print ("Min:          " +:+ str_of_float x);;
  x ← lift (stat stats_all "max");
  print ("Max:          " +:+ str_of_float x);;
  x ← lift (stat stats_all "range");
  print ("Range:        " +:+ str_of_float x);;
  x ← lift (stat stats_all "median");
  print ("Median:       " +:+ str_of_float x);;
  print "";;
  print ("Master CSV written to: " +:+ arg_out a);;
  time_stats ← reading (λ fs, analyze_times_from_master fs (arg_out a));
  print "";;
  print "=== Runtime Analytics (Evaluation Only) ===";;
  print ("Runs:         " +:+ PyStr.of_Z (Z.of_nat (ts_runs time_stats)));;
  print ("Average time: " +:+ fmt3 (ts_avg_ms time_stats) +:+ " ms");;
  print ("Min time:     " +:+ fmt3 (ts_min_ms time_stats) +:+ " ms");;
  print ("Max time:     " +:+ fmt3 (ts_max_ms time_stats) +:+ " ms").

(** [main], from the parsed command line on; the value is the exit code. *)
Definition main (a : args) : prog Z :=
  λ w,
  if negb (path_exists (w_fs w) (arg_exe a))
  then (eprint ("ERROR: exe not found: " +:+ arg_exe a);; mret 2) w
  else if negb (path_exists (w_fs w) (arg_config a))
  then (eprint ("ERROR: config not found: " +:+ arg_config a);; mret 2) w
  else if bool_decide (arg_runs a ≤ 0)
  then (eprint "ERROR: --runs must be > 0";; mret 2) w
  else
    (base_lines ← reading (λ fs, parse_cfg fs (arg_config a));
     base_seed ← match arg_base_seed a with
                 | Some seed => mret seed
                 | None => now
                 end;
     all_values ← run_loop a base_lines base_seed;
     report a all_values;;
     mret 0) w.

End main.

(** ** An instance to run the script on

    Floats that are whole numbers, written [n.0]: an operation gives what
    Python gives on them, or raises where the result is not whole or the
    text is not of that form. The program started is a stand-in that
    writes three fixed rows to the file its config names under [output]. *)

Module Sample.

Definition whole (sum : Z) (n : Z) : res Z :=
  if bool_decide (n ≠ 0 ∧ sum mod n = 0) then Ok (sum / n)
  else Raise (ValueError "not a whole number").

Definition whole_sqrt (x : Z) : res Z :=
  if bool_decide (0 ≤ x ∧ Z.sqrt x * Z.sqrt x = x) then Ok (Z.sqrt x)
  else Raise (ValueError "not a whole number").

Definition total (values : list Z) : Z := foldr Z.add 0 values.

Definition mean (values : list Z) : res Z :=
  whole (total values) (Z.of_nat (length values)).

(** The root of the mean square deviation, over [n - ddof] values. *)
Definition deviation (ddof : Z) (values : list Z) : res Z :=
  m ← mean values;
  v ← whole (total ((λ x, (x - m) * (x - m)) <$> values))
            (Z.of_nat (length values) - ddof);
  whole_sqrt v.

Fixpoint insert_sorted (x : Z) (sorted : list Z) : list Z :=
  match sorted with
  | [] => [x]
  | y :: rest => if x <=? y then x :: sorted else y :: insert_sorted x rest
  end.

Definition median (values : list Z) : res Z :=
  let sorted := foldr insert_sorted [] values in
  let n := length sorted in
  if Nat.even n
  then whole (default 0 (sorted !! (n / 2 - 1)%nat) + default 0 (sorted !! (n / 2)%nat)) 2
  else Ok (default 0 (sorted !! (n / 2)%nat)).

Definition parse (s : string) : res Z :=
  let literal :=
    match PyStr.split1 "." (PyStr.strip s) with
    | [whole_part; "0"] => Some whole_part
    | [whole_part] => Some whole_part
    | _ => None
    end in
  match literal ≫= PyStr.int_literal with
  | Some n => Ok n
  | None => Raise (ValueError "could not convert string to float")
  end.

Global Instance whole_floats : PyFloat := {|
  float := Z;
  float_zero := 0;
  float_of_nat := Z.of_nat;
  fsub := Z.sub;
  flt := Z.ltb;
  float_of_str := parse;
  str_of_float := λ x, PyStr.of_Z x +:+ ".0";
  fmt3 := λ x, PyStr.of_Z x +:+ ".000";
  int_of_float := Ok;
  stat_fmean := mean;
  stat_mean := mean;
  stat_pstdev := deviation 0;
  stat_stdev := deviation 1;
  stat_median := median;
|}.

(** The value of [key] in config lines, as a program reading them finds it. *)
Definition cfg_lookup (key : string) (lines : list string) : option string :=
  line ← head (filter (λ line, key_matches key line) lines);
  match PyStr.split1 "=" (PyStr.strip line) with
  | [_; v] => Some (PyStr.strip v)
  | _ => None
  end.

Definition fixed_rows : string :=
  "experiment,fitness,eval_time_ms" +:+ Csv.CRLF
  +:+ "0,5.0,7.0" +:+ Csv.CRLF
  +:+ "1,5.0,7.0" +:+ Csv.CRLF
  +:+ "2,5.0,7.0" +:+ Csv.CRLF.

(** The stand-in program: exit code 0 after writing [fixed_rows], exit code
    1 when its config cannot be read, names no output or names the master
    file of the sample, which it never writes. *)
Definition program (argv : list string) (fs : filesystem)
  : proc_result * filesystem :=
  match argv with
  | [_; cfg_path] =>
      match parse_cfg fs cfg_path with
      | Ok lines =>
          match cfg_lookup "output" lines with
          | Some out_csv =>
              if bool_decide (out_csv = "fitness_master.csv") then (Completed 1, fs)
              else (Completed 0, <[out_csv := File fixed_rows]> fs)
          | None => (Completed 1, fs)
          end
      | Raise _ => (Completed 1, fs)
      end
  | _ => (SpawnFailed "bad command line", fs)
  end.

Global Instance env : Env := {|
  subprocess_run := λ _ argv _ fs, program argv fs;
  time_time := λ n, 1700000000 + Z.of_nat n;
  mkdtemp := λ _, "/tmp/tmpbench";
|}.

Definition LF : string := String Csv.LF "".

(** A project folder: the program and its config. *)
Definition project : filesystem :=
  <["./project1" := File "ELF"]>
  (<["input.cfg" := File ("# benchmark" +:+ LF +:+ "m = 3" +:+ LF
                          +:+ "output=results.csv" +:+ LF)]> ∅).

Definition start (fs : filesystem) : world :=
  {| w_fs := fs; w_stdout := []; w_stderr := []; w_spawned := []; w_clock := 0 |}.

Definition bench (runs : Z) : args :=
  {| arg_exe := "./project1"; arg_config := "input.cfg"; arg_runs := runs;
     arg_out := "fitness_master.csv"; arg_seed_mode := SeedIncrement;
     arg_base_seed := Some 100; arg_timeout := 60 |}.

(** A program that never ends: every run times out. *)
Definition hanging : Env := {|
  subprocess_run := λ _ _ _ fs, (TimedOut, fs);
  time_time := λ n, 1700000000 + Z.of_nat n;
  mkdtemp := λ _, "/tmp/tmpbench";
|}.

(** [main] on the sample instance, with [--runs n]. *)
Definition main_run (n : Z) (w : world) : res Z * world := main (bench n) w.

(** A program that ends the first time it is started and never after. *)
Definition flaky : Env := {|
  subprocess_run := λ started argv _ fs,
    match started with
    | [] => program argv fs
    | _ => (TimedOut, fs)
    end;
  time_time := λ n, 1700000000 + Z.of_nat n;
  mkdtemp := λ _, "/tmp/tmpbench";
|}.

(** The sample's command line with another master file. *)
Definition bench_to (out : string) (runs : Z) : args :=
  {| arg_exe := "./project1"; arg_config := "input.cfg"; arg_runs := runs;
     arg_out := out; arg_seed_mode := SeedIncrement;
     arg_base_seed := Some 100; arg_timeout := 60 |}.

End Sample.

(** ** The vocabulary of the properties *)

Definition is_ok {A : Type} (m : res A) : Prop :=
  match m with Ok _ => True | Raise _ => False end.

Definition no_lead (s : string) : Prop :=
  match s with "" => True | String c _ => PyStr.is_space c = false end.

Definition plain_key (k : string) : Prop :=
  PyStr.strip k = k ∧ PyStr.startswith k "#" = false ∧ PyStr.contains "=" k = false.

Definition is_int_char (c : ascii) : bool := PyStr.is_digit c || bool_decide (c = "-"%char).

(** A field the writer leaves as it is. *)
Definition plain (f : string) : Prop :=
  PyStr.all_chars (λ c, negb (Csv.is_special c)) f = true.

Definition plain_row (row : list string) : Prop :=
  Forall plain row ∧ (2 ≤ length row)%nat.

(** The line of a row, without its end. *)
Definition row_line (row : list string) : string := PyStr.join "," row.

(** The characters of a text, without the end of the line. *)
Fixpoint process_string (p : Csv.parser) (s : string) : res Csv.parser :=
  match s with
  | "" => Ok p
  | String c s' => p' ← Csv.process_char p (Some c); process_string p' s'
  end.

Definition no_eol (s : string) : Prop :=
  PyStr.all_chars (λ c, negb (Csv.is_eol c)) s = true.

Section vocabulary.
Context `{PyFloat} `{Env}.

(** The text one call appends, the header aside. *)
Definition run_text (run_id : Z) (fitness_values : list float)
    (eval_time_ms : float) : string :=
  PyStr.concat (Csv.writerow <$> imap (master_row run_id eval_time_ms) fitness_values).

(** What one run hands to [append_run_to_master]: its number, its fitness
    values and its evaluation time. *)
Definition run_data : Type := Z * list float * float.

(** The calls of [append_run_to_master] that the run loop makes, one per
    run and in the order of the runs. *)
Definition append_runs (fs : filesystem) (master : string) (runs : list run_data)
  : res filesystem :=
  for_each (λ fs '(run_id, values, t), append_run_to_master fs master run_id values t)
           runs fs.

(** The data rows of a run and of several. *)
Definition run_rows (r : run_data) : list (list string) :=
  imap (master_row r.1.1 r.2) r.1.2.

Definition runs_rows (runs : list run_data) : list (list string) :=
  runs ≫= run_rows.

(** The first evaluation time of each run number, in the order the numbers
    first occur; [seen] are the numbers met before. *)
Fixpoint first_times (seen : list Z) (runs : list run_data) : list (Z * float) :=
  match runs with
  | [] => []
  | (run_id, _, t) :: rest =>
      if bool_decide (run_id ∈ seen) then first_times seen rest
      else (run_id, t) :: first_times (seen ++ [run_id]) rest
  end.

(** What [analyze_times_from_master] makes of the times it collected. *)
Definition times_summary (times : list float) : res time_stats :=
  avg ← py_mean times;
  lo ← py_min times;
  hi ← py_max times;
  Ok {| ts_runs := length times; ts_avg_ms := avg;
        ts_min_ms := lo; ts_max_ms := hi |}.

(** The fitness field of a row that [read_fitness_csv] uses; [None] for a
    row it skips: the field is missing or blank. *)
Definition fitness_field (row : gmap string (option string)) : option string :=
  match row !! "fitness" with
  | Some (Some f) => if bool_decide (PyStr.strip f = "") then None else Some f
  | _ => None
  end.

(** [float(row["eval_time_ms"])] *)
Definition row_time (row : gmap string (option string)) : res float :=
  v ← Csv.getitem row "eval_time_ms"; float_of_field v.

(** The data rows as [DictReader] yields them, and those of them that are
    used. *)
Definition data_rows (names : list string) (recs : list (list string))
  : list (gmap string (option string)) :=
  Csv.dict_row names <$> filter (λ rec, rec ≠ []) recs.

Definition used_rows (names : list string) (recs : list (list string))
  : list (gmap string (option string)) :=
  filter (λ row, is_Some (fitness_field row)) (data_rows names recs).

(** The field names of a CSV text. *)
Definition csv_header (text : string) : list string :=
  match Csv.reader text with
  | Ok names :: _ => names
  | _ => []
  end.

(** The time kept after the rows [used], [tm] being the time kept before. *)
Definition time_after (tm : option float)
    (used : list (gmap string (option string))) (tm' : option float) : Prop :=
  match tm, used with
  | Some _, _ => tm' = tm
  | None, [] => tm' = None
  | None, first :: _ => ∃ t, row_time first = Ok t ∧ tm' = Some t
  end.

(** The value a used row gives. *)
Definition row_fitness (row : gmap string (option string)) (x : float) : Prop :=
  ∃ f, fitness_field row = Some f ∧ float_of_str f = Ok x.

(** The command line is refused: what [main] checks before the first run. *)
Definition refused (a : args) (w : world) : Prop :=
  path_exists (w_fs w) (arg_exe a) = false
  ∨ path_exists (w_fs w) (arg_config a) = false
  ∨ arg_runs a ≤ 0.

(** The world after the temporary directory is removed. *)
Definition cleaned (tmpdir : string) (w : world) : world :=
  {| w_fs := filter (λ kv, kv.1 ≠ tmpdir ∧ below tmpdir kv.1 = false) (w_fs w);
     w_stdout := w_stdout w; w_stderr := w_stderr w;
     w_spawned := w_spawned w; w_clock := w_clock w |}.

(** The world in which the run loop starts, its directory made. *)
Definition entered (w : world) : world :=
  {| w_fs := <[mkdtemp (w_fs w) := Dir]> (w_fs w);
     w_stdout := w_stdout w; w_stderr := w_stderr w;
     w_spawned := w_spawned w; w_clock := w_clock w |}.

(** The base seed of [main] and the world once it is known. *)
Definition seeded (a : args) (w : world) : Z * world :=
  match arg_base_seed a with
  | Some seed => (seed, w)
  | None => (time_time (w_clock w),
             {| w_fs := w_fs w; w_stdout := w_stdout w; w_stderr := w_stderr w;
                w_spawned := w_spawned w; w_clock := S (w_clock w) |})
  end.

(** The program started leaves the file at [master] alone. *)
Definition spares (master : string) : Prop :=
  ∀ started argv timeout_sec (fs : filesystem),
    (subprocess_run started argv timeout_sec fs).2 !! master = fs !! master.

(** The file at [master] is not in a temporary directory of the script. *)
Definition outside_tmp (master : string) : Prop :=
  ∀ fs : filesystem, master ≠ mkdtemp fs ∧ below (mkdtemp fs) master = false.

(** A computation that leaves the files as they are. *)
Definition keeps_fs {A : Type} (m : prog A) : Prop :=
  ∀ w r w', m w = (r, w') → w_fs w' = w_fs w.

(** A computation that leaves what is at [path] as it is, however it ends. *)
Definition leaves {A : Type} (path : string) (m : prog A) : Prop :=
  ∀ w, w_fs (m w).2 !! path = w_fs w !! path.

(** A computation that starts no program, however it ends. *)
Definition starts_nothing {A : Type} (m : prog A) : Prop :=
  ∀ w, w_spawned (m w).2 = w_spawned w.

(** The paths of the run [run_id] in the temporary directory, and its
    command line. *)
Definition run_out_csv (tmpdir : string) (run_id : Z) : string :=
  tmpdir +:+ "/" +:+ "run_" +:+ PyStr.of_Z run_id +:+ "_fitness.csv".

Definition run_cfg_path (tmpdir : string) (run_id : Z) : string :=
  tmpdir +:+ "/" +:+ "run_" +:+ PyStr.of_Z run_id +:+ ".cfg".

Definition run_command (a : args) (tmpdir : string) (run_id : Z) : list string :=
  [arg_exe a; run_cfg_path tmpdir run_id].

(** A computation that prints nothing on standard error, however it ends. *)
Definition keeps_stderr {A : Type} (m : prog A) : Prop :=
  ∀ w, w_stderr (m w).2 = w_stderr w.

(** A computation that, when it returns, has printed [n] lines more. *)
Definition prints_lines {A : Type} (n : nat) (m : prog A) : Prop :=
  ∀ w a w', m w = (Ok a, w') →
    ∃ rest, w_stdout w' = w_stdout w ++ rest ∧ length rest = n.

(** The line [main] prints after a run. *)
Definition progress_line (a : args) (r : run_data) : string :=
  "Run " +:+ PyStr.of_Z (r.1.1 + 1) +:+ "/" +:+ PyStr.of_Z (arg_runs a)
  +:+ ": appended " +:+ PyStr.of_Z (Z.of_nat (length r.1.2))
  +:+ " fitness values".

End vocabulary.

(** * Properties *)

(** ** Loops *)

Lemma for_each_cons {A S : Type} (body : S → A → res S) x xs s :
  for_each body (x :: xs) s
  = match body s x with
    | Ok s' => for_each body xs s'
    | Raise e => Raise e
    end.
Proof. reflexivity. Qed.

(** ** Strings *)

Section str_facts.
Import PyStr.

Lemma app_String a s t : String a s +:+ t = String a (s +:+ t).
Proof. reflexivity. Qed.

Lemma app_empty_l t : "" +:+ t = t.
Proof. reflexivity. Qed.

Lemma app_empty_r (s : string) : s +:+ "" = s.
Proof. induction s as [|c s IH]; [done|]. by rewrite app_String, IH. Qed.

Lemma lstrip_no_lead s : no_lead (lstrip s).
Proof.
  induction s as [|c s IH]; simpl; [done|].
  destruct (is_space c) eqn:E; [done|]. simpl. done.
Qed.

Lemma lstrip_id s : no_lead s → lstrip s = s.
Proof. destruct s as [|c s]; simpl; [done|]. by intros ->. Qed.

Lemma rstrip_unfold c s :
  rstrip (String c s)
  = match rstrip s with
    | "" => if is_space c then "" else String c ""
    | r => String c r
    end.
Proof. reflexivity. Qed.

Lemma rstrip_cons c s :
  is_space c = false → rstrip (String c s) = String c (rstrip s).
Proof. intros E. simpl. rewrite E. by destruct (rstrip s). Qed.

Lemma rstrip_no_lead s : no_lead s → no_lead (rstrip s).
Proof.
  destruct s as [|c s]; [done|]. intros E. simpl in E.
  by rewrite rstrip_cons.
Qed.

Lemma strip_no_lead s : no_lead (strip s).
Proof. apply rstrip_no_lead, lstrip_no_lead. Qed.

Lemma rstrip_idemp s : rstrip (rstrip s) = rstrip s.
Proof.
  induction s as [|c s IH]; [done|]. simpl.
  destruct (rstrip s) as [|d r] eqn:E.
  - destruct (is_space c) eqn:Ec; [done|]. simpl. by rewrite Ec.
  - by rewrite rstrip_unfold, IH.
Qed.

Lemma strip_idemp s : strip (strip s) = strip s.
Proof.
  unfold strip at 1. rewrite lstrip_id by apply strip_no_lead.
  apply rstrip_idemp.
Qed.

(** A character that is not white space stops [rstrip]. *)
Lemma rstrip_app_stop s c t :
  is_space c = false → rstrip (s +:+ String c t) = s +:+ String c (rstrip t).
Proof.
  intros E. induction s as [|a s IH].
  - by rewrite !app_empty_l, rstrip_cons.
  - rewrite !app_String. simpl. rewrite IH.
    by destruct s.
Qed.

Lemma contains1_cons c d s :
  contains (String c "") (String d s)
  = bool_decide (c = d) || contains (String c "") s.
Proof. simpl. by rewrite andb_true_r. Qed.

Lemma contains1_app c s t :
  contains (String c "") (s +:+ t)
  = contains (String c "") s || contains (String c "") t.
Proof.
  induction s as [|a s IH].
  - rewrite app_empty_l. done.
  - rewrite app_String, !contains1_cons, IH. by rewrite orb_assoc.
Qed.

(** [split1] with the separator present: the text before its first
    occurrence and the text after. *)
Lemma split1_found c s :
  contains (String c "") s = true →
  ∃ k v, split1 c s = [k; v] ∧ s = k +:+ String c v
         ∧ contains (String c "") k = false.
Proof.
  induction s as [|a s IH]; [done|].
  rewrite contains1_cons. simpl split1.
  destruct (bool_decide (a = c)) eqn:Ea.
  - apply bool_decide_eq_true in Ea as ->. intros _.
    exists "", s. done.
  - apply bool_decide_eq_false in Ea.
    rewrite bool_decide_eq_false_2 by congruence. simpl.
    intros (k & v & -> & -> & Hk)%IH. exists (String a k), v.
    split_and!; [done|done|].
    rewrite contains1_cons, Hk, bool_decide_eq_false_2 by congruence. done.
Qed.

Lemma split1_app c k v :
  contains (String c "") k = false → split1 c (k +:+ String c v) = [k; v].
Proof.
  induction k as [|a k IH].
  - intros _. rewrite app_empty_l. simpl. by rewrite bool_decide_eq_true_2.
  - rewrite contains1_cons. intros [Ha Hk]%orb_false_iff.
    apply bool_decide_eq_false in Ha.
    rewrite app_String. simpl.
    rewrite bool_decide_eq_false_2 by congruence. by rewrite IH.
Qed.

End str_facts.

(** ** Config lines *)

Section cfg_facts.
Import PyStr.

Lemma cfg_key_ok_plain key : cfg_key_ok key = true ↔ plain_key key.
Proof.
  unfold cfg_key_ok, plain_key.
  rewrite !andb_true_iff, !negb_true_iff, bool_decide_eq_true. tauto.
Qed.

Lemma contains1_lstrip c s :
  contains (String c "") s = false → contains (String c "") (lstrip s) = false.
Proof.
  induction s as [|a s IH]; [done|]. rewrite contains1_cons.
  intros [Ha Hs]%orb_false_iff. simpl lstrip.
  destruct (is_space a); [by apply IH|].
  by rewrite contains1_cons, Ha, Hs.
Qed.

Lemma contains1_rstrip c s :
  contains (String c "") s = false → contains (String c "") (rstrip s) = false.
Proof.
  induction s as [|a s IH]; [done|]. rewrite contains1_cons.
  intros [Ha Hs]%orb_false_iff. rewrite rstrip_unfold.
  specialize (IH Hs). destruct (rstrip s) as [|b r].
  - destruct (is_space a); [done|]. by rewrite contains1_cons, Ha.
  - by rewrite contains1_cons, Ha, IH.
Qed.

(** The head of a text that begins a stripped line survives [strip]. *)
Lemma strip_cons c s :
  is_space c = false → strip (String c s) = String c (rstrip s).
Proof. intros E. unfold strip. simpl lstrip. rewrite E. by apply rstrip_cons. Qed.

Lemma cfg_line_key_plain line k : cfg_line_key line = Some k → plain_key k.
Proof.
  unfold cfg_line_key.
  pose proof (strip_no_lead line) as Hlead.
  destruct (bool_decide (strip line = "")) eqn:E1; [done|].
  destruct (startswith (strip line) "#") eqn:E2; [done|].
  destruct (contains "=" (strip line)) eqn:E3; [|done]. simpl.
  destruct (split1_found _ _ E3) as (k0 & v & -> & Hs & Hk0).
  intros [= <-]. split_and!.
  - apply strip_idemp.
  - destruct k0 as [|a k0]; [done|].
    rewrite Hs, app_String in Hlead, E2. simpl in Hlead.
    rewrite strip_cons by done. simpl in E2 |- *.
    by rewrite andb_true_r in E2 |- *.
  - by apply contains1_rstrip, contains1_lstrip.
Qed.

Lemma plain_key_no_lead k : plain_key k → no_lead k.
Proof. intros [<- _]. apply strip_no_lead. Qed.

(** A line made of a plain key, [=] and a value is read back with that key. *)
Lemma cfg_line_key_made k value :
  plain_key k → cfg_line_key (k +:+ "=" +:+ value) = Some k.
Proof.
  intros Hk. pose proof (plain_key_no_lead _ Hk) as Hlead.
  destruct Hk as (Hstrip & Hhash & Heq).
  assert (strip (k +:+ "=" +:+ value) = k +:+ String "=" (rstrip value)) as Hs.
  { unfold strip. rewrite lstrip_id.
    - by apply rstrip_app_stop.
    - destruct k; [done|]. by rewrite app_String. }
  unfold cfg_line_key. rewrite Hs.
  rewrite bool_decide_eq_false_2 by (by destruct k).
  assert (startswith (k +:+ String "=" (rstrip value)) "#" = false) as ->.
  { destruct k as [|a k]; [done|]. by rewrite app_String. }
  rewrite contains1_app, contains1_cons, bool_decide_eq_true_2 by done.
  rewrite orb_true_r. simpl.
  rewrite split1_app by done. by rewrite Hstrip.
Qed.

Lemma key_matches_made key k value :
  plain_key k → key_matches key (k +:+ "=" +:+ value)
                = bool_decide (lower k = lower key).
Proof. intros Hk. unfold key_matches. by rewrite cfg_line_key_made. Qed.

(** A rewritten line still matches, a line left alone matches as before. *)
Lemma key_matches_rewrite key value line :
  key_matches key (rewrite_line key value line) = key_matches key line.
Proof.
  unfold rewrite_line, key_matches at 2.
  destruct (cfg_line_key line) as [k|] eqn:E.
  - case_bool_decide as Hm.
    + rewrite key_matches_made by eauto using cfg_line_key_plain.
      by rewrite bool_decide_eq_true_2.
    + unfold key_matches. rewrite E. by rewrite bool_decide_eq_false_2.
  - unfold key_matches. by rewrite E.
Qed.

Lemma rewrite_line_no_match key value line :
  key_matches key line = false → rewrite_line key value line = line.
Proof.
  unfold key_matches, rewrite_line.
  destruct (cfg_line_key line); [|done]. by intros ->.
Qed.

Lemma rewrite_line_idemp key value line :
  rewrite_line key value (rewrite_line key value line)
  = rewrite_line key value line.
Proof.
  destruct (key_matches key line) eqn:M.
  - unfold key_matches in M.
    destruct (cfg_line_key line) as [k|] eqn:E; [|done].
    apply bool_decide_eq_true in M.
    assert (rewrite_line key value line = k +:+ "=" +:+ value) as ->.
    { unfold rewrite_line. by rewrite E, bool_decide_eq_true_2. }
    unfold rewrite_line.
    rewrite cfg_line_key_made by eauto using cfg_line_key_plain.
    by rewrite bool_decide_eq_true_2.
  - rewrite (rewrite_line_no_match key value line M).
    by apply rewrite_line_no_match.
Qed.

Lemma rewrite_line_comment key value line :
  is_comment line = true → rewrite_line key value line = line.
Proof.
  unfold is_comment, rewrite_line, cfg_line_key. intros ->.
  by rewrite orb_true_r.
Qed.

(** One turn of the loop. *)
Lemma set_cfg_body_eq key value out found line :
  set_cfg_body (lower key) value (out, found) line
  = Ok (out ++ [rewrite_line key value line], found || key_matches key line).
Proof.
  unfold set_cfg_body, rewrite_line, key_matches, cfg_line_key.
  destruct (bool_decide (strip line = "") || startswith (strip line) "#"
            || negb (contains "=" (strip line))) eqn:E.
  { by rewrite orb_false_r. }
  apply orb_false_iff in E as [_ E]. apply negb_false_iff in E.
  destruct (split1_found _ _ E) as (k & v & -> & _ & _).
  case_bool_decide; [by rewrite orb_true_r | by rewrite orb_false_r].
Qed.

Lemma set_cfg_loop_eq key value lines out found :
  for_each (set_cfg_body (lower key) value) lines (out, found)
  = Ok (out ++ map (rewrite_line key value) lines,
        found || existsb (key_matches key) lines).
Proof.
  revert out found. induction lines as [|line lines IH]; intros out found.
  - simpl. by rewrite app_nil_r, orb_false_r.
  - rewrite for_each_cons, set_cfg_body_eq.
    rewrite IH, <- app_assoc. simpl. by rewrite orb_assoc.
Qed.

(** [set_cfg_value] never raises: every matching line is rewritten, and
    the pair is appended when none matched. *)
Lemma set_cfg_value_eq lines key value :
  set_cfg_value lines key value
  = Ok (map (rewrite_line key value) lines
        ++ if existsb (key_matches key) lines then []
           else [key +:+ "=" +:+ value]).
Proof.
  unfold set_cfg_value. rewrite set_cfg_loop_eq. simpl.
  destruct (existsb (key_matches key) lines); by rewrite ?app_nil_r.
Qed.

Lemma existsb_rewrite key value lines :
  existsb (key_matches key) (map (rewrite_line key value) lines)
  = existsb (key_matches key) lines.
Proof.
  induction lines as [|line lines IH]; [done|]. simpl.
  by rewrite key_matches_rewrite, IH.
Qed.

End cfg_facts.

Lemma bind_Ok {A B : Type} (a : A) (k : A → res B) : (Ok a ≫= k) = k a.
Proof. reflexivity. Qed.

(** C1 (amended). For every list of config lines and every key/value pair,
    [set_cfg_value] returns without raising; it matches the key
    case-insensitively against the stripped key of each [key=value] line,
    rewrites every matching line (not only the first) to [key=value] with
    the line's own stripped key, leaves every other line as it is, and
    appends a new [key=value] line at the end exactly when no line matches. *)
Theorem set_cfg_value_rewrites_every_match (lines : list string) (key value : string) :
  ∃ out : list string,
    set_cfg_value lines key value = Ok out
    ∧ out = map (rewrite_line key value) lines
            ++ (if existsb (key_matches key) lines then []
                else [key +:+ "=" +:+ value])
    ∧ (∀ (i : nat) line, lines !! i = Some line →
         out !! i = Some (match cfg_line_key line with
                          | Some k =>
                              if bool_decide (PyStr.lower k = PyStr.lower key)
                              then k +:+ "=" +:+ value else line
                          | None => line
                          end))
    ∧ (existsb (key_matches key) lines = true → length out = length lines)
    ∧ (existsb (key_matches key) lines = false →
         length out = S (length lines)
         ∧ out !! length lines = Some (key +:+ "=" +:+ value)).
Proof.
  eexists. split; [apply set_cfg_value_eq|]. split; [done|]. split_and!.
  - intros i line Hi. rewrite lookup_app_l.
    + rewrite list_lookup_fmap, Hi. done.
    + rewrite length_map. by eapply lookup_lt_Some.
  - intros ->. by rewrite app_nil_r, length_map.
  - intros ->. rewrite length_app, length_map. split; [simpl; lia|].
    rewrite lookup_app_r by (by rewrite length_map).
    by rewrite length_map, Nat.sub_diag.
Qed.

(** C1, as stated, fails: with two lines for the same key the second one
    is rewritten as well, so the first match does not win. *)
Lemma set_cfg_value_second_match_rewritten :
  set_cfg_value ["a=1"; "a=2"] "a" "9" = Ok ["a=9"; "a=9"]
  ∧ set_cfg_value ["a=1"; "a=2"] "a" "9"
    ≠ Ok (set_cfg_value_first_match ["a=1"; "a=2"] "a" "9").
Proof. split; [reflexivity | discriminate]. Qed.

(** C4 (amended). For every list of config lines, every value and every key
    that either is plain (no white space around it, no [=] in it, no [#] in
    front) or already occurs in the lines, applying [set_cfg_value] twice
    gives what applying it once gives; and when the key already occurs in
    the lines, the output has as many lines as the input and every comment
    line of the input is in the output, unchanged and at its place. *)
Theorem set_cfg_value_idempotent (lines : list string) (key value : string) :
  cfg_key_ok key = true ∨ existsb (key_matches key) lines = true →
  (out ← set_cfg_value lines key value; set_cfg_value out key value)
  = set_cfg_value lines key value
  ∧ (existsb (key_matches key) lines = true →
     ∃ out : list string,
       set_cfg_value lines key value = Ok out
       ∧ length out = length lines
       ∧ ∀ (i : nat) line, lines !! i = Some line → is_comment line = true →
                           out !! i = Some line).
Proof.
  intros Hkey. split.
  - rewrite set_cfg_value_eq, bind_Ok, set_cfg_value_eq. f_equal.
    destruct (existsb (key_matches key) lines) eqn:Hfound.
    + rewrite app_nil_r, existsb_rewrite, Hfound, app_nil_r.
      rewrite map_map. apply map_ext. intros. apply rewrite_line_idemp.
    + destruct Hkey as [Hok%cfg_key_ok_plain|]; [|done].
      rewrite map_app, existsb_app, map_map. simpl.
      rewrite key_matches_made, bool_decide_eq_true_2, orb_true_r by done.
      rewrite app_nil_r. f_equal.
      * apply map_ext. intros. apply rewrite_line_idemp.
      * unfold rewrite_line. rewrite cfg_line_key_made by done.
        by rewrite bool_decide_eq_true_2.
  - intros Hfound. eexists. split; [apply set_cfg_value_eq|].
    rewrite Hfound, app_nil_r, length_map. split; [done|].
    intros i line Hi Hc. rewrite list_lookup_fmap, Hi. simpl.
    by rewrite rewrite_line_comment.
Qed.

Lemma set_cfg_value_idempotent_witness :
  (cfg_key_ok "seed" = true
   ∨ existsb (key_matches "seed") ["# run"; " Seed = 1 "; "m=3"] = true)
  ∧ (out ← set_cfg_value ["# run"; " Seed = 1 "; "m=3"] "seed" "7";
     set_cfg_value out "seed" "7")
    = set_cfg_value ["# run"; " Seed = 1 "; "m=3"] "seed" "7".
Proof.
  split; [left; reflexivity|].
  apply (set_cfg_value_idempotent ["# run"; " Seed = 1 "; "m=3"] "seed" "7").
  left; reflexivity.
Defined.

(** C4, as stated, fails: a key with white space after it matches no line,
    not even the one appended for it, so the second call appends again. *)
Lemma set_cfg_value_not_idempotent :
  (out ← set_cfg_value ["seed=1"] "seed " "5"; set_cfg_value out "seed " "5")
  ≠ set_cfg_value ["seed=1"] "seed " "5".
Proof. discriminate. Qed.

(** ** Writing and reading a config file *)

Section cfg_roundtrip.
Import PyStr.

Lemma app_assoc_str (a b c : string) : (a +:+ b) +:+ c = a +:+ (b +:+ c).
Proof. induction a as [|x a IH]; [done|]. by rewrite !app_String, IH. Qed.

Lemma splitlines_lf s : splitlines (String "010" s) = "" :: splitlines s.
Proof. simpl. by destruct s. Qed.

(** A line without a boundary in it, then a line feed. *)
Lemma splitlines_line l rest :
  has_linebreak l = false →
  splitlines (l +:+ String "010" rest) = l :: splitlines rest.
Proof.
  induction l as [|c l IH].
  - intros _. by rewrite app_empty_l, splitlines_lf.
  - simpl has_linebreak. intros [Hc Hl]%orb_false_iff.
    rewrite app_String. simpl splitlines. rewrite Hc.
    fold (splitlines (l +:+ String "010" rest)). by rewrite IH.
Qed.

Lemma splitlines_join lines :
  lines ≠ [] → Forall (λ l, has_linebreak l = false) lines →
  splitlines (join (String "010" "") lines +:+ String "010" "") = lines.
Proof.
  induction lines as [|l lines IH]; [done|]. intros _ Hall.
  apply Forall_cons in Hall as [Hl Hall].
  destruct lines as [|l' lines].
  - simpl join. by rewrite splitlines_line.
  - change (join (String "010" "") (l :: l' :: lines))
      with (l +:+ String "010" "" +:+ join (String "010" "") (l' :: lines)).
    rewrite !app_assoc_str.
    change (String "010" "" +:+ ?x) with (String "010" x).
    rewrite splitlines_line by done.
    f_equal. by apply IH.
Qed.

Lemma universal_newlines_id s :
  contains (String "013" "") s = false → universal_newlines s = s.
Proof.
  induction s as [|c s IH]; [done|]. rewrite contains1_cons.
  intros [Hc Hs]%orb_false_iff. apply bool_decide_eq_false in Hc.
  simpl. rewrite bool_decide_eq_false_2 by congruence. by rewrite IH.
Qed.

Lemma no_linebreak_no_cr l :
  has_linebreak l = false → contains (String "013" "") l = false.
Proof.
  induction l as [|c l IH]; [done|]. simpl has_linebreak.
  intros [Hc Hl]%orb_false_iff. rewrite contains1_cons, IH by done.
  rewrite orb_false_r. apply bool_decide_eq_false. by intros <-.
Qed.

Lemma join_no_cr lines :
  Forall (λ l, has_linebreak l = false) lines →
  contains (String "013" "") (join (String "010" "") lines +:+ String "010" "")
  = false.
Proof.
  induction 1 as [|l lines Hl _ IH]; [done|].
  destruct lines as [|l' lines].
  - simpl join. by rewrite contains1_app, no_linebreak_no_cr.
  - change (join (String "010" "") (l :: l' :: lines))
      with (l +:+ String "010" "" +:+ join (String "010" "") (l' :: lines)).
    rewrite !app_assoc_str, contains1_app, no_linebreak_no_cr by done.
    rewrite contains1_app, IH. done.
Qed.

(** What [parse_cfg] reads from a file that [write_cfg] wrote. *)
Lemma parse_write_cfg fs lines path :
  fs !! path ≠ Some Dir →
  (fs' ← write_cfg fs lines path; parse_cfg fs' path)
  = Ok (splitlines (universal_newlines
          (join (String "010" "") lines +:+ String "010" ""))).
Proof.
  intros Hp. unfold write_cfg, write_file, parse_cfg, read_file.
  destruct (fs !! path) as [[]|] eqn:E; [|done|];
    by rewrite bind_Ok, lookup_insert_eq.
Qed.

End cfg_roundtrip.




(** ** Statistics *)

Lemma bind_eq_Ok {A B : Type} (m : res A) (k : A → res B) b :
  m ≫= k = Ok b ↔ ∃ a, m = Ok a ∧ k a = Ok b.
Proof.
  destruct m as [a|e]; simpl.
  - split; [eauto|]. by intros (? & [= <-] & ?).
  - split; [done|]. by intros (? & [=] & _).
Qed.


Section analyze_facts.
Context `{PyFloat}.




End analyze_facts.


(** ** Integers as text *)

Section int_text.
Import PyStr.

Lemma all_chars_app P a b : all_chars P (a +:+ b) = all_chars P a && all_chars P b.
Proof.
  induction a as [|x a IH]; [done|].
  rewrite app_String. simpl. by rewrite IH, andb_assoc.
Qed.

Lemma all_chars_impl (P Q : ascii → bool) s :
  (∀ c, P c = true → Q c = true) → all_chars P s = true → all_chars Q s = true.
Proof.
  intros HPQ. induction s as [|c s IH]; [done|]. simpl.
  intros [Hc Hs]%andb_true_iff. by rewrite HPQ, IH.
Qed.

Lemma uint_digits d : all_chars is_digit (NilEmpty.string_of_uint d) = true.
Proof. induction d; simpl; by rewrite ?IHd. Qed.

Lemma uint_digits_nonempty d :
  d ≠ Decimal.Nil → NilEmpty.string_of_uint d ≠ "".
Proof. by destruct d. Qed.

Lemma int_digits_id prev s :
  all_chars is_digit s = true → (s ≠ "" ∨ prev = true) → int_digits prev s = Some s.
Proof.
  revert prev. induction s as [|c s IH]; intros prev.
  - intros _ [? | ->]; done.
  - simpl. intros [Hc Hs]%andb_true_iff _. rewrite Hc.
    rewrite IH by auto. done.
Qed.

(** The text of an integer: its digits, after a minus sign when it is
    negative. *)
Lemma of_Z_digits n :
  ∃ d, d ≠ Decimal.Nil ∧ Z.of_uint d = Z.abs n
       ∧ of_Z n = (if bool_decide (n < 0) then "-" else "")
                  +:+ NilEmpty.string_of_uint d.
Proof.
  unfold of_Z. destruct n as [|p|p].
  - exists (Decimal.D0 Decimal.Nil). done.
  - exists (Pos.to_uint p).
    pose proof (Unsigned.to_uint_nonnil p) as Hnil. split_and!; [done|..].
    + unfold Z.of_uint. by rewrite Unsigned.of_to.
    + rewrite bool_decide_eq_false_2 by lia. simpl.
      by destruct (Pos.to_uint p).
  - exists (Pos.to_uint p).
    pose proof (Unsigned.to_uint_nonnil p) as Hnil. split_and!; [done|..].
    + unfold Z.of_uint. by rewrite Unsigned.of_to.
    + rewrite bool_decide_eq_true_2 by lia. simpl.
      by destruct (Pos.to_uint p).
Qed.

Lemma of_Z_int_chars n : all_chars is_int_char (of_Z n) = true.
Proof.
  destruct (of_Z_digits n) as (d & _ & _ & ->).
  rewrite all_chars_app. apply andb_true_iff. split.
  - by case_bool_decide.
  - eapply all_chars_impl, uint_digits. intros c Hc. unfold is_int_char.
    by rewrite Hc.
Qed.

Lemma int_literal_digits (negative : bool) ds d :
  all_chars is_digit ds = true → ds ≠ "" →
  NilZero.uint_of_string ds = Some d →
  int_literal ((if negative then "-" else "") +:+ ds)
  = Some (if negative then Z.opp (Z.of_uint d) else Z.of_uint d).
Proof.
  intros Hall Hne Hparse.
  assert (int_digits false ds = Some ds) as Hdig by (apply int_digits_id; auto).
  unfold int_literal. destruct negative.
  - change ("-" +:+ ds) with (String "-" ds). cbv beta iota.
    rewrite Hdig. simpl. by rewrite Hparse.
  - rewrite app_empty_l.
    assert (match ds with
            | String "-" r => (true, r)
            | String "+" r => (false, r)
            | _ => (false, ds)
            end = (false, ds)) as ->.
    { destruct ds as [|c r]; [done|]. simpl in Hall.
      apply andb_true_iff in Hall as [Hc _].
      by destruct c as [[] [] [] [] [] [] [] []]. }
    rewrite Hdig. simpl. by rewrite Hparse.
Qed.

Lemma int_literal_of_Z n : int_literal (of_Z n) = Some n.
Proof.
  destruct (of_Z_digits n) as (d & Hd & Habs & ->).
  rewrite (int_literal_digits _ _ d).
  - f_equal. case_bool_decide; lia.
  - apply uint_digits.
  - by apply uint_digits_nonempty.
  - destruct d; [done|..]; exact (NilZero.usu _ Hd).
Qed.

Lemma rstrip_id s : all_chars (λ c, negb (is_space c)) s = true → rstrip s = s.
Proof.
  induction s as [|c s IH]; [done|]. simpl all_chars.
  intros [Hc%negb_true_iff Hs]%andb_true_iff.
  by rewrite rstrip_cons, IH.
Qed.

Lemma strip_id s : all_chars (λ c, negb (is_space c)) s = true → strip s = s.
Proof.
  intros Hs. unfold strip. rewrite lstrip_id; [by apply rstrip_id|].
  destruct s as [|c s]; [done|]. simpl in Hs |- *.
  apply andb_true_iff in Hs as [Hc _]. by apply negb_true_iff.
Qed.

Lemma int_char_no_space c : is_int_char c = true → negb (is_space c) = true.
Proof. by destruct c as [[] [] [] [] [] [] [] []]. Qed.

(** [int(str(n))] is [n]. *)
Lemma to_Z_of_Z n : to_Z (of_Z n) = Some n.
Proof.
  unfold to_Z. rewrite strip_id; [apply int_literal_of_Z|].
  eapply all_chars_impl, of_Z_int_chars. apply int_char_no_space.
Qed.

End int_text.

(** ** Reading back what the writer wrote *)

Section csv_roundtrip.
Import PyStr Csv.

Lemma has_special_plain f : plain f → has_special f = false.
Proof.
  unfold plain. induction f as [|c f IH]; [done|]. simpl.
  intros [Hc%negb_true_iff Hf]%andb_true_iff. by rewrite Hc, IH.
Qed.

Lemma write_field_plain f : plain f → write_field false f = f.
Proof. intros Hf. unfold write_field. by rewrite has_special_plain. Qed.

Lemma writerow_plain row : plain_row row → writerow row = row_line row +:+ CRLF.
Proof.
  intros [Hall Hlen]. unfold writerow, row_line.
  rewrite bool_decide_eq_false_2 by lia. do 2 f_equal.
  clear Hlen. induction Hall as [|f row Hf _ IH]; [done|]. simpl.
  by rewrite write_field_plain, IH.
Qed.

Lemma process_line_app p s1 s2 :
  process_line p (s1 +:+ s2) = p' ← process_string p s1; process_line p' s2.
Proof.
  revert p. induction s1 as [|c s1 IH]; intros p; [done|].
  rewrite app_String. simpl. destruct (process_char p (Some c)); [|done].
  simpl. apply IH.
Qed.

Lemma process_string_app p s1 s2 :
  process_string p (s1 +:+ s2) = p' ← process_string p s1; process_string p' s2.
Proof.
  revert p. induction s1 as [|c s1 IH]; intros p; [done|].
  rewrite app_String. simpl. destruct (process_char p (Some c)); [|done].
  simpl. apply IH.
Qed.

Lemma not_special c :
  is_special c = false →
  is_eol c = false ∧ bool_decide (c = QUOTE) = false
  ∧ bool_decide (c = ","%char) = false.
Proof.
  unfold is_special, is_eol.
  intros [[[H1 H2]%orb_false_iff H3]%orb_false_iff H4]%orb_false_iff.
  by rewrite H1, H2, H3, H4.
Qed.

Lemma in_field_plain p f :
  st p = IN_FIELD → plain f →
  process_string p f
  = Ok {| st := IN_FIELD; field := field p +:+ f; fields := fields p |}.
Proof.
  revert p. induction f as [|c f IH]; intros p Hst Hf.
  - simpl. rewrite app_empty_r. by destruct p; simpl in *; subst.
  - unfold plain in Hf. simpl in Hf.
    apply andb_true_iff in Hf as [Hc%negb_true_iff Hf].
    destruct (not_special c Hc) as (He & Hq & Hd).
    simpl. unfold process_char. rewrite Hst, He, Hd. simpl.
    rewrite IH by done. simpl. by rewrite app_assoc_str.
Qed.

Lemma start_field_plain p c f :
  st p = START_FIELD ∨ st p = START_RECORD → plain (String c f) →
  process_string p (String c f)
  = Ok {| st := IN_FIELD; field := field p +:+ String c f; fields := fields p |}.
Proof.
  intros Hst Hf. unfold plain in Hf. simpl in Hf.
  apply andb_true_iff in Hf as [Hc%negb_true_iff Hf].
  destruct (not_special c Hc) as (He & Hq & Hd).
  simpl. unfold process_char.
  assert (match st p with
          | START_RECORD | START_FIELD => True | _ => False end) as Hs
    by (destruct Hst as [-> | ->]; done).
  destruct (st p); try done; rewrite He, Hq, Hd; simpl;
    rewrite in_field_plain by done; simpl; by rewrite app_assoc_str.
Qed.

(** A plain field and the delimiter after it. *)
Lemma field_then_delimiter p f :
  st p = START_FIELD ∨ st p = START_RECORD → field p = "" → plain f →
  process_string p (f +:+ ",")
  = Ok {| st := START_FIELD; field := ""; fields := fields p ++ [f] |}.
Proof.
  intros Hst Hfield Hf. destruct f as [|c f].
  - rewrite app_empty_l. simpl. unfold process_char, save_field.
    rewrite Hfield. by destruct Hst as [-> | ->].
  - rewrite process_string_app, start_field_plain by done. simpl.
    unfold process_char, save_field. simpl. by rewrite Hfield, app_empty_l.
Qed.

(** The last plain field of a line and the line feed after it. *)
Lemma last_field p f :
  st p = START_FIELD → field p = "" → plain f →
  process_line p (f +:+ String LF "")
  = Ok {| st := START_RECORD; field := ""; fields := fields p ++ [f] |}.
Proof.
  intros Hst Hfield Hf. destruct f as [|c f].
  - rewrite app_empty_l. simpl. unfold process_char, save_field.
    rewrite Hst, Hfield. done.
  - rewrite process_line_app, start_field_plain by auto. simpl.
    unfold process_char, save_field. simpl. by rewrite Hfield, app_empty_l.
Qed.

Lemma fields_line p row :
  st p = START_FIELD → field p = "" → Forall plain row → row ≠ [] →
  process_line p (row_line row +:+ String LF "")
  = Ok {| st := START_RECORD; field := ""; fields := fields p ++ row |}.
Proof.
  intros Hst Hfield Hall. revert p Hst Hfield.
  induction Hall as [|f row Hf Hall IH]; intros p Hst Hfield Hne; [done|].
  destruct row as [|f' row].
  - by apply last_field.
  - change (row_line (f :: f' :: row))
      with (f +:+ "," +:+ row_line (f' :: row)).
    rewrite <- !app_assoc_str, (app_assoc_str _ (row_line _)).
    rewrite process_line_app, field_then_delimiter by auto. simpl.
    rewrite IH by done. simpl. by rewrite <- app_assoc.
Qed.

(** One line of a plain row is one record. *)
Lemma plain_row_line row :
  plain_row row →
  process_line parse_reset (row_line row +:+ String LF "")
  = Ok {| st := START_RECORD; field := ""; fields := row |}.
Proof.
  intros [Hall Hlen]. destruct row as [|f [|f' row]]; simpl in Hlen; [lia..|].
  apply Forall_cons in Hall as [Hf Hall].
  change (row_line (f :: f' :: row)) with (f +:+ "," +:+ row_line (f' :: row)).
  rewrite <- !app_assoc_str, (app_assoc_str _ (row_line _)).
  rewrite process_line_app, field_then_delimiter by auto. simpl.
  by rewrite fields_line.
Qed.

Lemma records_plain rows :
  Forall plain_row rows →
  records parse_reset ((λ row, row_line row +:+ String LF "") <$> rows)
  = Ok <$> rows.
Proof.
  induction 1 as [|row rows Hrow _ IH]; [done|].
  rewrite !fmap_cons. cbn [records]. rewrite plain_row_line by done.
  cbn [st fields]. rewrite bool_decide_eq_true_2 by done. by rewrite IH.
Qed.

Lemma plain_no_eol f : plain f → no_eol f.
Proof.
  apply all_chars_impl. intros c Hc%negb_true_iff.
  by destruct (not_special c Hc) as (-> & _).
Qed.

Lemma row_line_no_eol row : Forall plain row → no_eol (row_line row).
Proof.
  induction 1 as [|f row Hf Hall IH]; [done|].
  destruct row as [|f' row]; [by apply plain_no_eol|].
  change (row_line (f :: f' :: row)) with (f +:+ "," +:+ row_line (f' :: row)).
  unfold no_eol. rewrite !all_chars_app.
  rewrite (plain_no_eol f Hf), IH. done.
Qed.

Lemma universal_newlines_line l rest :
  no_eol l →
  universal_newlines (l +:+ CRLF +:+ rest)
  = l +:+ String LF (universal_newlines rest).
Proof.
  unfold no_eol. induction l as [|c l IH].
  - intros _. rewrite !app_empty_l. simpl. done.
  - simpl all_chars. intros [Hc%negb_true_iff Hl]%andb_true_iff.
    rewrite !app_String. simpl.
    apply orb_false_iff in Hc as [_ Hc]. unfold CR in Hc. rewrite Hc.
    by rewrite IH.
Qed.

Lemma file_lines_line l rest :
  no_eol l →
  file_lines (l +:+ String LF rest) = (l +:+ String LF "") :: file_lines rest.
Proof.
  unfold no_eol. induction l as [|c l IH].
  - intros _. by rewrite !app_empty_l.
  - simpl all_chars. intros [Hc%negb_true_iff Hl]%andb_true_iff.
    rewrite !app_String. simpl.
    apply orb_false_iff in Hc as [Hc _]. unfold LF in Hc. rewrite Hc.
    by rewrite IH.
Qed.

Lemma universal_newlines_rows rows :
  Forall plain_row rows →
  universal_newlines (PyStr.concat ((λ row, row_line row +:+ CRLF) <$> rows))
  = PyStr.concat ((λ row, row_line row +:+ String LF "") <$> rows).
Proof.
  induction 1 as [|row rows [Hrow _] _ IH]; [done|].
  rewrite !fmap_cons. simpl PyStr.concat.
  rewrite !app_assoc_str, universal_newlines_line by by apply row_line_no_eol.
  by rewrite IH.
Qed.

Lemma file_lines_rows rows :
  Forall plain_row rows →
  file_lines (PyStr.concat ((λ row, row_line row +:+ String LF "") <$> rows))
  = (λ row, row_line row +:+ String LF "") <$> rows.
Proof.
  induction 1 as [|row rows [Hrow _] _ IH]; [done|].
  rewrite !fmap_cons. simpl PyStr.concat.
  rewrite app_assoc_str. change (String LF "" +:+ ?x) with (String LF x).
  rewrite file_lines_line by by apply row_line_no_eol.
  by rewrite IH.
Qed.

(** The reader yields the rows the writer wrote, plain rows of two fields
    or more. *)
Lemma reader_writerows rows :
  Forall plain_row rows →
  reader (PyStr.concat (writerow <$> rows)) = Ok <$> rows.
Proof.
  intros Hrows. unfold reader.
  assert (writerow <$> rows = (λ row, row_line row +:+ CRLF) <$> rows) as ->.
  { apply Forall_fmap_ext_1. eapply Forall_impl; [done|].
    intros row Hrow. by apply writerow_plain. }
  by rewrite universal_newlines_rows, file_lines_rows, records_plain.
Qed.

End csv_roundtrip.

(** ** Appending to the master CSV *)

Lemma file_write_eq (fs : filesystem) path old text :
  fs !! path = Some (File old) →
  file_write fs path text = <[path := File (old +:+ text)]> fs.
Proof. unfold file_write. by intros ->. Qed.

(** Writes one after the other come to one write of the texts joined. *)
Lemma foldl_file_write {A : Type} (f : A → string) (fs : filesystem) path old xs :
  fs !! path = Some (File old) →
  foldl (λ fs x, file_write fs path (f x)) fs xs
  = <[path := File (old +:+ PyStr.concat (f <$> xs))]> fs.
Proof.
  revert fs old. induction xs as [|x xs IH]; intros fs old Hold.
  - simpl. rewrite app_empty_r. by rewrite insert_id.
  - simpl. rewrite (file_write_eq _ _ old) by done.
    rewrite (IH _ (old +:+ f x)) by apply lookup_insert_eq.
    by rewrite insert_insert_eq, app_assoc_str.
Qed.

Lemma path_exists_true (fs : filesystem) path x :
  fs !! path = Some x → path_exists fs path = true.
Proof. intros Hx. apply bool_decide_eq_true. by rewrite Hx. Qed.

Lemma path_exists_false (fs : filesystem) path :
  fs !! path = None → path_exists fs path = false.
Proof. intros Hx. apply bool_decide_eq_false. rewrite Hx. by intros [? [=]]. Qed.

Section master_facts.
Context `{PyFloat}.

(** The file a call leaves. *)
Lemma append_run_to_master_eq (fs : filesystem) master run_id values t :
  append_run_to_master fs master run_id values t
  = match fs !! master with
    | Some Dir => Raise (OSError "IsADirectoryError")
    | Some (File old) =>
        Ok (<[master := File (old +:+ run_text run_id values t)]> fs)
    | None =>
        Ok (<[master := File (Csv.writerow master_header
                              +:+ run_text run_id values t)]> fs)
    end.
Proof.
  unfold append_run_to_master, open_append, run_text.
  destruct (fs !! master) as [[old|]|] eqn:E; [| done |].
  - rewrite (path_exists_true _ _ _ E). simpl.
    by rewrite (foldl_file_write _ _ _ old).
  - rewrite (path_exists_false _ _ E). simpl. f_equal.
    rewrite (file_write_eq _ _ "") by apply lookup_insert_eq.
    rewrite insert_insert_eq, app_empty_l.
    rewrite (foldl_file_write _ _ _ (Csv.writerow master_header))
      by apply lookup_insert_eq.
    by rewrite insert_insert_eq.
Qed.


Lemma concat_app (a b : list string) :
  PyStr.concat (a ++ b) = PyStr.concat a +:+ PyStr.concat b.
Proof.
  induction a as [|x a IH]; [done|]. simpl. by rewrite IH, app_assoc_str.
Qed.



(** Runs appended to a master file that holds rows already. *)
Lemma append_runs_existing (fs : filesystem) master rows runs :
  content fs master = Some (PyStr.concat (Csv.writerow <$> rows)) →
  ∃ fs', append_runs fs master runs = Ok fs'
         ∧ content fs' master
           = Some (PyStr.concat (Csv.writerow <$> (rows ++ runs_rows runs)))
         ∧ ∀ path, path ≠ master → fs' !! path = fs !! path.
Proof.
  revert fs rows. induction runs as [|[[run_id values] t] runs IH];
    intros fs rows Hfs.
  - exists fs. unfold runs_rows. change ([] ≫= run_rows) with (@nil (list string)).
    by rewrite app_nil_r.
  - unfold append_runs. rewrite for_each_cons, append_run_to_master_eq.
    unfold content in Hfs. destruct (fs !! master) as [[old|]|]; [|done..].
    injection Hfs as ->.
    edestruct (IH (<[master := File (PyStr.concat (Csv.writerow <$> rows)
                     +:+ run_text run_id values t)]> fs)
                  (rows ++ run_rows (run_id, values, t)))
      as (fs' & Hruns & Hcontent & Hframe).
    { unfold content. rewrite lookup_insert_eq.
      by rewrite fmap_app, concat_app. }
    exists fs'. split; [exact Hruns|]. split.
    + rewrite Hcontent. unfold runs_rows. by rewrite bind_cons, app_assoc.
    + intros path Hp. rewrite Hframe by done. by rewrite lookup_insert_ne.
Qed.

(** Runs appended where no master file is: the first call writes the
    header. *)
Lemma append_runs_fresh (fs : filesystem) master runs :
  fs !! master = None → runs ≠ [] →
  ∃ fs', append_runs fs master runs = Ok fs'
         ∧ content fs' master
           = Some (PyStr.concat (Csv.writerow <$> (master_header :: runs_rows runs)))
         ∧ ∀ path, path ≠ master → fs' !! path = fs !! path.
Proof.
  intros Hfs Hne. destruct runs as [|[[run_id values] t] runs]; [done|].
  unfold append_runs. rewrite for_each_cons, append_run_to_master_eq, Hfs.
  edestruct (append_runs_existing
               (<[master := File (Csv.writerow master_header
                                  +:+ run_text run_id values t)]> fs)
               master (master_header :: run_rows (run_id, values, t)) runs)
    as (fs' & Hruns & Hcontent & Hframe).
  { unfold content. by rewrite lookup_insert_eq. }
  exists fs'. split; [exact Hruns|]. split.
  - rewrite Hcontent. unfold runs_rows. by rewrite bind_cons.
  - intros path Hp. rewrite Hframe by done. by rewrite lookup_insert_ne.
Qed.

(** The rows of the master file are plain when the text of a float is. *)
Lemma of_Z_plain n : plain (PyStr.of_Z n).
Proof.
  eapply all_chars_impl, of_Z_int_chars.
  intros c. by destruct c as [[] [] [] [] [] [] [] []].
Qed.

Lemma master_header_plain : plain_row master_header.
Proof. split; [by repeat constructor | simpl; lia]. Qed.

Lemma runs_rows_plain runs :
  (∀ x, plain (str_of_float x)) → Forall plain_row (runs_rows runs).
Proof.
  intros Hfloat. unfold runs_rows. apply Forall_bind, Forall_forall.
  intros [[run_id values] t] _. unfold run_rows. simpl.
  apply Forall_forall. intros row [i [x [-> _]]]%elem_of_lookup_imap.
  split; [|simpl; lia].
  repeat constructor; auto using of_Z_plain.
Qed.

(** *** The timing values read back *)

Lemma master_row_dict run_id t i x :
  let row := Csv.dict_row master_header (master_row run_id t i x) in
  row !! "run" = Some (Some (PyStr.of_Z run_id))
  ∧ row !! "eval_time_ms" = Some (Some (str_of_float t)).
Proof. split; reflexivity. Qed.

Section times_loop.
Hypothesis float_roundtrip : ∀ x : float, float_of_str (str_of_float x) = Ok x.

(** The loop of [analyze_times_from_master] on one row of the master. *)
Lemma times_body_master_row times_by_run run_id t i x :
  times_body times_by_run (Csv.dict_row master_header (master_row run_id t i x))
  = Ok (if bool_decide (run_id ∈ times_by_run.*1) then times_by_run
        else times_by_run ++ [(run_id, t)]).
Proof.
  destruct (master_row_dict run_id t i x) as [Hrun Htime].
  unfold times_body, Csv.getitem. rewrite Hrun, Htime. simpl.
  rewrite to_Z_of_Z. simpl. case_bool_decide; [done|].
  by rewrite float_roundtrip.
Qed.

Lemma for_rows_master_row {S : Type} body (s : S) run_id t i x rows :
  Csv.for_rows body master_header (Ok (master_row run_id t i x) :: rows) s
  = s' ← body s (Csv.dict_row master_header (master_row run_id t i x));
    Csv.for_rows body master_header rows s'.
Proof. reflexivity. Qed.

(** Rows of a run whose number is in the dictionary change nothing. *)
Lemma times_loop_seen times_by_run run_id t (values : list float) k rows :
  run_id ∈ times_by_run.*1 →
  Csv.for_rows times_body master_header
    ((Ok <$> imap (λ i, master_row run_id t (k + i)) values) ++ rows) times_by_run
  = Csv.for_rows times_body master_header rows times_by_run.
Proof.
  intros Hseen. revert k. induction values as [|x values IH]; intros k; [done|].
  rewrite imap_cons, fmap_cons. simpl app.
  rewrite for_rows_master_row, times_body_master_row.
  rewrite bool_decide_eq_true_2 by done. simpl.
  rewrite <- (IH (S k)). do 3 f_equal. apply imap_ext. intros i y _.
  unfold compose. by replace (k + S i)%nat with (S k + i)%nat by lia.
Qed.

(** The rows of one run. *)
Lemma times_loop_run times_by_run (r : run_data) rows :
  r.1.2 ≠ [] →
  Csv.for_rows times_body master_header ((Ok <$> run_rows r) ++ rows) times_by_run
  = Csv.for_rows times_body master_header rows
      (if bool_decide (r.1.1 ∈ times_by_run.*1) then times_by_run
       else times_by_run ++ [(r.1.1, r.2)]).
Proof.
  destruct r as [[run_id values] t]. simpl. intros Hne. unfold run_rows. simpl.
  case_bool_decide as Hseen.
  - by apply (times_loop_seen _ _ _ _ 0%nat).
  - destruct values as [|x values]; [done|].
    rewrite imap_cons, fmap_cons. simpl app.
    rewrite for_rows_master_row, times_body_master_row.
    rewrite bool_decide_eq_false_2 by done. simpl.
    change (master_row run_id t ∘ S)
      with (λ i, master_row run_id t (1 + i)).
    apply times_loop_seen. rewrite fmap_app. set_solver.
Qed.

Lemma times_loop_runs times_by_run runs :
  Forall (λ r : run_data, r.1.2 ≠ []) runs →
  Csv.for_rows times_body master_header (Ok <$> runs_rows runs) times_by_run
  = Ok (times_by_run ++ first_times times_by_run.*1 runs).
Proof.
  intros Hruns. revert times_by_run.
  induction Hruns as [|r runs Hr _ IH]; intros times_by_run.
  - simpl. by rewrite app_nil_r.
  - unfold runs_rows. rewrite bind_cons, fmap_app, times_loop_run by done.
    fold (runs_rows runs). rewrite IH. destruct r as [[run_id values] t]. simpl.
    case_bool_decide; [done|].
    by rewrite fmap_app, <- app_assoc.
Qed.

End times_loop.

Lemma read_file_content (fs : filesystem) path text :
  content fs path = Some text → read_file fs path = Ok text.
Proof.
  unfold content, read_file. destruct (fs !! path) as [[]|]; naive_solver.
Qed.

(** The analytics of a master file that holds the rows of [runs]. *)
Lemma analyze_times_master_rows (fs : filesystem) master runs :
  (∀ x : float, plain (str_of_float x)) →
  (∀ x : float, float_of_str (str_of_float x) = Ok x) →
  Forall (λ r : run_data, r.1.2 ≠ []) runs →
  content fs master
  = Some (PyStr.concat (Csv.writerow <$> (master_header :: runs_rows runs))) →
  analyze_times_from_master fs master
  = times_summary (first_times [] runs).*2.
Proof.
  intros Hplain Hround Hruns Hcontent. unfold analyze_times_from_master.
  rewrite (read_file_content _ _ _ Hcontent), bind_Ok.
  unfold Csv.dict_reader. rewrite reader_writerows
    by (constructor; [apply master_header_plain | by apply runs_rows_plain]).
  rewrite fmap_cons, bind_Ok.
  rewrite bool_decide_eq_true_2 by (unfold master_header; set_solver).
  cbn [negb]. by rewrite times_loop_runs.
Qed.

(** With run numbers that differ, every run has its time. *)
Lemma first_times_NoDup seen (runs : list run_data) :
  NoDup (seen ++ runs.*1.*1) → first_times seen runs = (λ r : run_data, (r.1.1, r.2)) <$> runs.
Proof.
  revert seen. induction runs as [|[[run_id values] t] runs IH]; intros seen; [done|].
  rewrite !fmap_cons. simpl. intros Hnd.
  rewrite bool_decide_eq_false_2.
  - f_equal. apply IH. by rewrite <- app_assoc.
  - apply NoDup_app in Hnd as (_ & Hnd & _). intros Hin.
    apply (Hnd _ Hin). set_solver.
Qed.

End master_facts.

(** ** The sample instance *)

Section sample_facts.
Import PyStr.

Lemma contains1_all_chars (P : ascii → bool) c s :
  P c = false → all_chars P s = true → contains (String c "") s = false.
Proof.
  intros Hc. induction s as [|x s IH]; [done|]. simpl all_chars.
  intros [Hx Hs]%andb_true_iff. rewrite contains1_cons, IH by done.
  rewrite orb_false_r. apply bool_decide_eq_false. intros <-. congruence.
Qed.

Lemma whole_float_plain (x : Z) : plain (@str_of_float Sample.whole_floats x).
Proof.
  unfold plain. simpl. rewrite all_chars_app. apply andb_true_iff. split.
  - apply of_Z_plain.
  - done.
Qed.

Lemma whole_float_roundtrip (x : Z) :
  @float_of_str Sample.whole_floats (@str_of_float Sample.whole_floats x) = Ok x.
Proof.
  simpl. unfold Sample.parse.
  assert (all_chars (λ c, negb (is_space c)) (of_Z x +:+ ".0") = true) as Hs.
  { rewrite all_chars_app. apply andb_true_iff. split; [|done].
    eapply all_chars_impl, of_Z_int_chars. apply int_char_no_space. }
  rewrite strip_id by done.
  change (of_Z x +:+ ".0") with (of_Z x +:+ String "." "0").
  rewrite split1_app.
  - simpl. by rewrite int_literal_of_Z.
  - eapply contains1_all_chars, of_Z_int_chars. done.
Qed.

End sample_facts.

(** ** Reading the CSV of a run *)

Section read_facts.
Context `{PyFloat}.

Lemma read_fitness_body_skip st row :
  fitness_field row = None → read_fitness_body st row = Ok st.
Proof.
  unfold fitness_field, read_fitness_body. destruct st as [vals tm].
  destruct (row !! "fitness") as [[f|]|]; [|done..].
  by case_bool_decide.
Qed.

Lemma read_fitness_body_use vals tm row f :
  fitness_field row = Some f →
  read_fitness_body (vals, tm) row
  = x ← float_of_str f;
    match tm with
    | Some _ => Ok (vals ++ [x], tm)
    | None => t ← row_time row; Ok (vals ++ [x], Some t)
    end.
Proof.
  unfold fitness_field, read_fitness_body, row_time.
  destruct (row !! "fitness") as [[f'|]|]; [|done..].
  case_bool_decide; [done|]. intros [= ->].
  destruct (float_of_str f); simpl; [|done]. destruct tm; [done|].
  by destruct (Csv.getitem row "eval_time_ms").
Qed.

Lemma for_rows_cons_empty {S : Type} body names rows (s : S) :
  Csv.for_rows body names (Ok [] :: rows) s = Csv.for_rows body names rows s.
Proof. reflexivity. Qed.

Lemma for_rows_cons {S : Type} body names rec rows (s : S) :
  rec ≠ [] →
  Csv.for_rows body names (Ok rec :: rows) s
  = s' ← body s (Csv.dict_row names rec); Csv.for_rows body names rows s'.
Proof. by destruct rec. Qed.

(** The loop of [read_fitness_csv]: the rows it skips leave no trace, each
    row it uses gives one value, and the first of them the time. *)
Lemma read_fitness_loop names recs vals tm vals' tm' :
  Csv.for_rows read_fitness_body names (Ok <$> recs) (vals, tm) = Ok (vals', tm')
  ↔ ∃ new, vals' = vals ++ new
           ∧ Forall2 row_fitness (used_rows names recs) new
           ∧ time_after tm (used_rows names recs) tm'.
Proof.
  revert vals tm. induction recs as [|rec recs IH]; intros vals tm.
  - simpl. split.
    + intros [= <- <-]. exists []. rewrite app_nil_r.
      split_and!; [done|constructor|by destruct tm].
    + intros (new & -> & Hnew & Htm). apply Forall2_nil_inv_l in Hnew as ->.
      rewrite app_nil_r. destruct tm; simpl in Htm; by subst.
  - rewrite fmap_cons. unfold used_rows, data_rows in *.
    destruct (decide (rec = [])) as [-> | Hrec].
    { rewrite for_rows_cons_empty, filter_cons_False by (by intros ?). apply IH. }
    rewrite for_rows_cons, filter_cons_True, fmap_cons by done.
    destruct (fitness_field (Csv.dict_row names rec)) as [f|] eqn:Hf.
    + rewrite filter_cons_True by (by rewrite Hf).
      rewrite (read_fitness_body_use _ _ _ f) by done.
      destruct (float_of_str f) as [x|e] eqn:Hx; simpl.
      * destruct tm as [t0|].
        -- simpl. rewrite IH. split.
           ++ intros (new & -> & Hnew & Htm). exists (x :: new).
              rewrite <- app_assoc. split_and!; [done| |done].
              constructor; [|done]. by exists f.
           ++ intros (new & -> & Hnew & Htm).
              apply Forall2_cons_inv_l in Hnew as (x' & new' & (f' & Hf' & Hx') & Hnew & ->).
              assert (x' = x) as -> by congruence.
              exists new'. by rewrite <- app_assoc.
        -- destruct (row_time (Csv.dict_row names rec)) as [t|e] eqn:Ht; simpl.
           ++ rewrite IH. split.
              ** intros (new & -> & Hnew & Htm). exists (x :: new).
                 rewrite <- app_assoc. split_and!; [done| |].
                 --- constructor; [|done]. by exists f.
                 --- simpl in Htm. subst. by exists t.
              ** intros (new & -> & Hnew & (t' & Ht' & ->)).
                 apply Forall2_cons_inv_l in Hnew as (x' & new' & (f' & Hf' & Hx') & Hnew & ->).
                 assert (x' = x) as -> by congruence.
                 assert (t' = t) as -> by congruence.
                 exists new'. by rewrite <- app_assoc.
           ++ split; [done|].
              intros (new & _ & _ & (t' & Ht' & _)). congruence.
      * split; [done|]. intros (new & _ & Hnew & _).
        apply Forall2_cons_inv_l in Hnew as (x' & new' & (f' & Hf' & Hx') & _).
        congruence.
    + rewrite filter_cons_False by (rewrite Hf; by intros [? [=]]).
      rewrite read_fitness_body_skip by done. simpl. apply IH.
Qed.

(** [read_fitness_csv] on a file whose text reads as the field names
    [names] and the records [recs]. *)
Lemma read_fitness_csv_eq (fs : filesystem) path text names recs :
  read_file fs path = Ok text →
  Csv.reader text = Ok names :: (Ok <$> recs) →
  "fitness" ∈ names → "eval_time_ms" ∈ names →
  read_fitness_csv fs path
  = st ← Csv.for_rows read_fitness_body names (Ok <$> recs) ([], None);
    match st.2 with
    | None => Raise (ValueError "No rows found to read eval_time_ms")
    | Some t => Ok (st.1, t)
    end.
Proof.
  intros Hread Hrecs Hfit Htime. unfold read_fitness_csv, Csv.dict_reader.
  rewrite Hread, bind_Ok, Hrecs, bind_Ok.
  by rewrite !bool_decide_eq_true_2 by done.
Qed.

Lemma used_rows_length names recs :
  (length (used_rows names recs) ≤ length (data_rows names recs))%nat.
Proof. apply length_filter. Qed.

End read_facts.

(** C9. [read_fitness_csv] skips every data row whose [fitness] field is
    missing or blank: the values returned are those of the other rows, one
    each and in order, and the evaluation time returned is that of the
    first row not skipped; so the list returned is as long as the rows
    used, which can be fewer than the data rows of the file. *)
Theorem read_fitness_csv_skips_blank `{PyFloat} (fs : filesystem)
    (path text : string) (names : list string) (recs : list (list string)) :
  read_file fs path = Ok text →
  Csv.reader text = Ok names :: (Ok <$> recs) →
  "fitness" ∈ names → "eval_time_ms" ∈ names →
  ∀ (values : list float) (t : float),
    (read_fitness_csv fs path = Ok (values, t)
     ↔ Forall2 row_fitness (used_rows names recs) values
       ∧ ∃ first rest, used_rows names recs = first :: rest
                       ∧ row_time first = Ok t)
    ∧ (read_fitness_csv fs path = Ok (values, t) →
       length values = length (used_rows names recs)
       ∧ (length values ≤ length (data_rows names recs))%nat).
Proof.
  intros Hread Hrecs Hfit Htime values t.
  rewrite (read_fitness_csv_eq fs path text names recs) by done.
  assert ((st ← Csv.for_rows read_fitness_body names (Ok <$> recs) ([], None);
           match st.2 with
           | None => Raise (ValueError "No rows found to read eval_time_ms")
           | Some t => Ok (st.1, t)
           end) = Ok (values, t)
          ↔ Forall2 row_fitness (used_rows names recs) values
            ∧ ∃ first rest, used_rows names recs = first :: rest
                            ∧ row_time first = Ok t) as Hiff.
  { rewrite bind_eq_Ok. split.
    - intros ([vals' tm'] & Hloop & Hres). simpl in Hres.
      destruct tm' as [t'|]; [|done]. injection Hres as -> ->.
      apply read_fitness_loop in Hloop as (new & -> & Hnew & Htm).
      split; [done|]. simpl in Htm.
      destruct (used_rows names recs) as [|first rest]; [done|].
      destruct Htm as (t' & Ht' & [= ->]). eauto.
    - intros (Hvals & first & rest & Hused & Ht).
      exists (values, Some t). split; [|done].
      apply read_fitness_loop. exists values. split_and!; [done..|].
      rewrite Hused. simpl. eauto. }
  split; [exact Hiff|]. intros (Hvals & _)%Hiff.
  apply Forall2_length in Hvals. split; [done|].
  rewrite <- Hvals. apply used_rows_length.
Qed.

Lemma read_fitness_csv_skips_blank_witness :
  let text := "experiment,fitness,eval_time_ms" +:+ Csv.CRLF
              +:+ "0,,3.0" +:+ Csv.CRLF
              +:+ "1,5.0,7.0" +:+ Csv.CRLF
              +:+ "2,5.0,9.0" +:+ Csv.CRLF in
  let fs : filesystem := {["run_0_fitness.csv" := File text]} in
  let names := ["experiment"; "fitness"; "eval_time_ms"] in
  let recs := [["0"; ""; "3.0"]; ["1"; "5.0"; "7.0"]; ["2"; "5.0"; "9.0"]] in
  read_file fs "run_0_fitness.csv" = Ok text
  ∧ Csv.reader text = Ok names :: (Ok <$> recs)
  ∧ @read_fitness_csv Sample.whole_floats fs "run_0_fitness.csv" = Ok ([5; 5], 7)
  ∧ length (used_rows names recs) = 2%nat
  ∧ length (data_rows names recs) = 3%nat.
Proof.
  intros text fs names recs.
  assert (read_file fs "run_0_fitness.csv" = Ok text) as Hread by reflexivity.
  assert (Csv.reader text = Ok names :: (Ok <$> recs)) as Hrecs by reflexivity.
  assert ("fitness" ∈ names) as Hfit by (apply list_elem_of_lookup; by exists 1%nat).
  assert ("eval_time_ms" ∈ names) as Htime
    by (apply list_elem_of_lookup; by exists 2%nat).
  split; [exact Hread|]. split; [exact Hrecs|].
  destruct (@read_fitness_csv_skips_blank Sample.whole_floats fs
              "run_0_fitness.csv" text names recs Hread Hrecs Hfit Htime [5; 5] 7)
    as [Hiff Hlen].
  assert (@read_fitness_csv Sample.whole_floats fs "run_0_fitness.csv"
          = Ok ([5; 5], 7)) as Hres by reflexivity.
  split; [exact Hres|].
  destruct (Hlen Hres) as [Hused _].
  split; [by rewrite <- Hused | reflexivity].
Defined.


(** ** The script as a whole *)

Lemma prog_bind_Ok {A B : Type} (m : prog A) (k : A → prog B) w b w' :
  (m ≫= k) w = (Ok b, w') →
  ∃ a w1, m w = (Ok a, w1) ∧ k a w1 = (Ok b, w').
Proof.
  unfold mbind, prog_bind. destruct (m w) as [[a|e] w1]; [eauto|done].
Qed.

Lemma prog_bind_Raise {A B : Type} (m : prog A) (k : A → prog B) w e w' :
  m w = (Raise e, w') → (m ≫= k) w = (Raise e, w').
Proof. unfold mbind, prog_bind. by intros ->. Qed.

Lemma prog_bind_step {A B : Type} (m : prog A) (k : A → prog B) w a w1 :
  m w = (Ok a, w1) → (m ≫= k) w = k a w1.
Proof. unfold mbind, prog_bind. by intros ->. Qed.

(** C6. If the exe path does not exist, or the config path does not exist,
    or the run count is not positive, [main] prints one line to standard
    error and returns exit code 2 before any run is started: no subprocess
    has been started, no file written, nothing printed to standard output.
    Otherwise an invocation that returns, returns 0. *)
Theorem main_exit_codes `{PyFloat} `{Env} (a : args) (w : world) :
  (refused a w →
   ∃ msg : string,
     main a w = (Ok 2, {| w_fs := w_fs w; w_stdout := w_stdout w;
                          w_stderr := w_stderr w ++ [msg];
                          w_spawned := w_spawned w; w_clock := w_clock w |}))
  ∧ (¬ refused a w → ∀ code w', main a w = (Ok code, w') → code = 0).
Proof.
  unfold refused, main. split.
  - intros Hbad.
    destruct (path_exists (w_fs w) (arg_exe a)) eqn:Hexe; [|by eexists].
    destruct (path_exists (w_fs w) (arg_config a)) eqn:Hcfg; [|by eexists].
    destruct Hbad as [|[|Hruns]]; [done..|].
    rewrite bool_decide_eq_true_2 by done. by eexists.
  - intros Hok code w'.
    destruct (path_exists (w_fs w) (arg_exe a)); [|tauto].
    destruct (path_exists (w_fs w) (arg_config a)); [|tauto].
    rewrite bool_decide_eq_false_2 by tauto. simpl.
    intros (? & ? & _ & Hmain)%prog_bind_Ok.
    apply prog_bind_Ok in Hmain as (? & ? & _ & Hmain).
    apply prog_bind_Ok in Hmain as (? & ? & _ & Hmain).
    apply prog_bind_Ok in Hmain as (? & ? & _ & Hmain).
    by injection Hmain as <- _.
Qed.

Lemma main_exit_codes_witness :
  (refused (Sample.bench 0) (Sample.start Sample.project)
   ∧ ∃ msg : string,
       Sample.main_run 0 (Sample.start Sample.project)
       = (Ok 2, {| w_fs := Sample.project; w_stdout := [];
                   w_stderr := [] ++ [msg]; w_spawned := []; w_clock := 0 |}))
  ∧ (¬ refused (Sample.bench 2) (Sample.start Sample.project)
     ∧ (Sample.main_run 2 (Sample.start Sample.project)).1 = Ok 0).
Proof.
  split.
  - assert (refused (Sample.bench 0) (Sample.start Sample.project)) as Hbad
      by (right; right; simpl; lia).
    split; [exact Hbad|].
    exact (proj1 (main_exit_codes (Sample.bench 0) (Sample.start Sample.project)) Hbad).
  - assert (¬ refused (Sample.bench 2) (Sample.start Sample.project)) as Hok.
    { intros [Hexe | [Hcfg | Hruns]];
        [vm_compute in Hexe; discriminate
        | vm_compute in Hcfg; discriminate
        | simpl in Hruns; lia]. }
    split; [exact Hok|].
    destruct (Sample.main_run 2 (Sample.start Sample.project)) as [[code|e] w'] eqn:E;
      [|vm_compute in E; discriminate].
    simpl. f_equal.
    exact (proj2 (main_exit_codes (Sample.bench 2) (Sample.start Sample.project))
                 Hok code w' E).
Defined.

(** *** Errors *)

Section error_facts.
Context `{PyFloat} `{Env}.

Lemma read_fitness_csv_missing_column (fs : filesystem) path text :
  read_file fs path = Ok text →
  "fitness" ∉ csv_header text ∨ "eval_time_ms" ∉ csv_header text →
  raises (read_fitness_csv fs path).
Proof.
  intros Hread Hcol. unfold read_fitness_csv, csv_header, Csv.dict_reader in *.
  rewrite Hread, bind_Ok.
  destruct (Csv.reader text) as [|[names|e] rest]; [| |done].
  - rewrite bind_Ok. by rewrite bool_decide_eq_false_2 by set_solver.
  - rewrite bind_Ok. case_bool_decide; [|done]. cbn [negb].
    destruct Hcol as [|Hcol]; [done|].
    by rewrite bool_decide_eq_false_2.
Qed.

Lemma read_fitness_csv_no_rows (fs : filesystem) path text names recs :
  read_file fs path = Ok text →
  Csv.reader text = Ok names :: (Ok <$> recs) →
  "fitness" ∈ names → "eval_time_ms" ∈ names →
  used_rows names recs = [] →
  read_fitness_csv fs path
  = Raise (ValueError "No rows found to read eval_time_ms").
Proof.
  intros Hread Hrecs Hfit Htime Hused.
  rewrite (read_fitness_csv_eq fs path text names recs) by done.
  destruct (Csv.for_rows read_fitness_body names (Ok <$> recs) ([], None))
    as [[vals tm]|e] eqn:Hloop.
  - apply read_fitness_loop in Hloop as (new & _ & _ & Htm).
    rewrite Hused in Htm. simpl in Htm. by subst.
  - exfalso.
    assert (Csv.for_rows read_fitness_body names (Ok <$> recs) ([], None)
            = Ok ([], None)) as Hok; [|congruence].
    apply read_fitness_loop. exists []. rewrite Hused. by repeat constructor.
Qed.

(** What [run_program] returns or raises, by how the program ended. *)
Lemma run_program_result exe cfg_path timeout_sec w :
  (run_program exe cfg_path timeout_sec w).1
  = match (subprocess_run (w_spawned w) [exe; cfg_path] timeout_sec (w_fs w)).1 with
    | Completed returncode =>
        if bool_decide (returncode ≠ 0)
        then Raise (RuntimeError ("Program failed (code "
                                  +:+ PyStr.of_Z returncode +:+ ")."))
        else Ok ()
    | TimedOut => Raise TimeoutExpired
    | SpawnFailed msg => Raise (OSError msg)
    end.
Proof.
  unfold run_program.
  destruct (subprocess_run _ _ _ _) as [[code| |msg] fs]; simpl; [|done..].
  by case_bool_decide.
Qed.

(** A loop ends at the first turn that raises. *)
Lemma for_prog_raise {A S : Type} (body : S → A → prog S) xs1 x xs2 s w s1 w1 e w2 :
  for_prog body xs1 s w = (Ok s1, w1) →
  body s1 x w1 = (Raise e, w2) →
  for_prog body (xs1 ++ x :: xs2) s w = (Raise e, w2).
Proof.
  revert s w. induction xs1 as [|y xs1 IH]; intros s w.
  - simpl. intros [= -> ->] Hx. by apply prog_bind_Raise.
  - simpl. intros (s' & w' & Hy & Hrest)%prog_bind_Ok Hx.
    rewrite (prog_bind_step _ _ _ _ _ Hy). by apply IH.
Qed.

Lemma run_once_run_program_raises a base_lines base_seed tmpdir all_values
    run_id w out_csv tmp_cfg w1 e w2 :
  prepare_run a base_lines base_seed tmpdir run_id w = (Ok (out_csv, tmp_cfg), w1) →
  run_program (arg_exe a) tmp_cfg (arg_timeout a) w1 = (Raise e, w2) →
  run_once a base_lines base_seed tmpdir all_values run_id w = (Raise e, w2).
Proof.
  intros Hprep Hrun. unfold run_once.
  rewrite (prog_bind_step _ _ _ _ _ Hprep). by apply prog_bind_Raise.
Qed.

Lemma run_once_read_raises a base_lines base_seed tmpdir all_values
    run_id w out_csv tmp_cfg w1 w2 e :
  prepare_run a base_lines base_seed tmpdir run_id w = (Ok (out_csv, tmp_cfg), w1) →
  run_program (arg_exe a) tmp_cfg (arg_timeout a) w1 = (Ok (), w2) →
  read_fitness_csv (w_fs w2) out_csv = Raise e →
  run_once a base_lines base_seed tmpdir all_values run_id w = (Raise e, w2).
Proof.
  intros Hprep Hrun Hread. unfold run_once.
  rewrite (prog_bind_step _ _ _ _ _ Hprep).
  rewrite (prog_bind_step _ _ _ _ _ Hrun).
  apply prog_bind_Raise. unfold reading. by rewrite Hread.
Qed.

Lemma run_loop_raises a base_lines base_seed w e w' :
  for_prog (run_once a base_lines base_seed (mkdtemp (w_fs w)))
           (range (arg_runs a)) [] (entered w) = (Raise e, w') →
  run_loop a base_lines base_seed w = (Raise e, cleaned (mkdtemp (w_fs w)) w').
Proof. unfold run_loop, with_tmpdir, entered. by intros ->. Qed.

Lemma main_raises a w base_lines e w' :
  ¬ refused a w →
  parse_cfg (w_fs w) (arg_config a) = Ok base_lines →
  run_loop a base_lines (seeded a w).1 (seeded a w).2 = (Raise e, w') →
  main a w = (Raise e, w').
Proof.
  intros Hok Hparse Hloop. unfold refused, main in *.
  destruct (path_exists (w_fs w) (arg_exe a)); [|tauto].
  destruct (path_exists (w_fs w) (arg_config a)); [|tauto].
  rewrite bool_decide_eq_false_2 by tauto. simpl.
  erewrite prog_bind_step; [|unfold reading; by rewrite Hparse].
  unfold seeded in Hloop. destruct (arg_base_seed a) as [seed|].
  - erewrite prog_bind_step; [|done]. by apply prog_bind_Raise.
  - erewrite prog_bind_step; [|done]. by apply prog_bind_Raise.
Qed.

End error_facts.

(** C5 (amended). Errors are fatal and unrecovered. [read_fitness_csv]
    raises when a required column ([fitness] or [eval_time_ms]) is absent
    from the header and when the file yields no usable data row.
    [run_program] raises exactly when the program does not complete with
    exit code 0: on a non-zero exit code, and also when the timeout elapses
    or the program cannot be started. Nothing in the script catches these:
    a turn of the run loop in which [run_program] or [read_fitness_csv]
    raises, raises; the loop ends at that turn, in the world of the raise;
    and [main] raises what the loop raises. *)
Theorem errors_are_fatal `{PyFloat} `{Env} :
  (∀ (fs : filesystem) path text,
     read_file fs path = Ok text →
     "fitness" ∉ csv_header text ∨ "eval_time_ms" ∉ csv_header text →
     raises (read_fitness_csv fs path))
  ∧ (∀ (fs : filesystem) path text names recs,
       read_file fs path = Ok text →
       Csv.reader text = Ok names :: (Ok <$> recs) →
       "fitness" ∈ names → "eval_time_ms" ∈ names →
       used_rows names recs = [] →
       raises (read_fitness_csv fs path))
  ∧ (∀ exe cfg_path timeout_sec w,
       raises (run_program exe cfg_path timeout_sec w).1
       ↔ (subprocess_run (w_spawned w) [exe; cfg_path] timeout_sec (w_fs w)).1
         ≠ Completed 0)
  ∧ (∀ a base_lines base_seed tmpdir all_values run_id w out_csv tmp_cfg w1 e w2,
       prepare_run a base_lines base_seed tmpdir run_id w
       = (Ok (out_csv, tmp_cfg), w1) →
       run_program (arg_exe a) tmp_cfg (arg_timeout a) w1 = (Raise e, w2)
       ∨ (run_program (arg_exe a) tmp_cfg (arg_timeout a) w1 = (Ok (), w2)
          ∧ read_fitness_csv (w_fs w2) out_csv = Raise e) →
       run_once a base_lines base_seed tmpdir all_values run_id w = (Raise e, w2))
  ∧ (∀ a base_lines base_seed tmpdir ids1 run_id ids2 w all_values w1 e w2,
       for_prog (run_once a base_lines base_seed tmpdir) ids1 [] w
       = (Ok all_values, w1) →
       run_once a base_lines base_seed tmpdir all_values run_id w1 = (Raise e, w2) →
       for_prog (run_once a base_lines base_seed tmpdir)
                (ids1 ++ run_id :: ids2) [] w = (Raise e, w2))
  ∧ (∀ a w base_lines e w',
       ¬ refused a w →
       parse_cfg (w_fs w) (arg_config a) = Ok base_lines →
       for_prog (run_once a base_lines (seeded a w).1 (mkdtemp (w_fs (seeded a w).2)))
                (range (arg_runs a)) [] (entered (seeded a w).2) = (Raise e, w') →
       main a w = (Raise e, cleaned (mkdtemp (w_fs (seeded a w).2)) w')).
Proof.
  split_and!.
  - apply read_fitness_csv_missing_column.
  - intros * Hread Hrecs Hfit Htime Hused.
    by rewrite (read_fitness_csv_no_rows fs path text names recs).
  - intros *. rewrite run_program_result.
    destruct (subprocess_run _ _ _ _) as [[code| |msg] fs]; simpl;
      [|split; done..].
    case_bool_decide as Hcode; simpl; split; try done.
    + intros _ [= ->]. done.
    + intros Hne. apply Hne. f_equal. apply dec_stable. by intros ?.
  - intros * Hprep [Hrun | [Hrun Hread]].
    + by eapply run_once_run_program_raises.
    + by eapply run_once_read_raises.
  - intros *. apply for_prog_raise.
  - intros * Hok Hparse Hloop. apply main_raises with base_lines; [done..|].
    by apply run_loop_raises.
Qed.

(** C5, as stated, fails: a run that times out makes [run_program] raise,
    and there is no exit code to be non-zero. *)
Lemma run_program_raises_on_timeout :
  let w := Sample.start Sample.project in
  (@run_program Sample.hanging "./project1" "run_0.cfg" 60 w).1 = Raise TimeoutExpired
  ∧ ¬ ∃ returncode : Z,
        (@subprocess_run Sample.hanging (w_spawned w) ["./project1"; "run_0.cfg"]
                         60 (w_fs w)).1 = Completed returncode
        ∧ returncode ≠ 0.
Proof. split; [reflexivity|]. intros (returncode & Hrun & _). discriminate. Qed.

(** *** The master file across an invocation *)

Section invocation.
Context `{PyFloat} `{Env}.

Lemma lift_Ok {A : Type} (r : res A) w a w' :
  lift r w = (Ok a, w') → r = Ok a ∧ w' = w.
Proof. unfold lift. by intros [= -> ->]. Qed.

Lemma reading_Ok {A : Type} (f : filesystem → res A) w a w' :
  reading f w = (Ok a, w') → f (w_fs w) = Ok a ∧ w' = w.
Proof. unfold reading. by intros [= -> ->]. Qed.

Lemma writing_Ok (f : filesystem → res filesystem) w u w' :
  writing f w = (Ok u, w') →
  f (w_fs w) = Ok (w_fs w') ∧ w_stdout w' = w_stdout w
  ∧ w_spawned w' = w_spawned w.
Proof.
  unfold writing. destruct (f (w_fs w)) as [fs|e]; [|done].
  by intros [= _ <-].
Qed.

Lemma run_program_Ok exe cfg_path timeout_sec w u w' :
  run_program exe cfg_path timeout_sec w = (Ok u, w') →
  w_fs w' = (subprocess_run (w_spawned w) [exe; cfg_path] timeout_sec (w_fs w)).2.
Proof.
  unfold run_program.
  destruct (subprocess_run _ _ _ _) as [[code| |msg] fs]; [|done..].
  case_bool_decide; [done|]. by intros [= _ <-].
Qed.

Lemma keeps_fs_bind {A B : Type} (m : prog A) (k : A → prog B) :
  keeps_fs m → (∀ a, keeps_fs (k a)) → keeps_fs (m ≫= k).
Proof.
  intros Hm Hk w r w'. unfold mbind, prog_bind.
  destruct (m w) as [[a|e] w1] eqn:E.
  - intros Hka. rewrite (Hk _ _ _ _ Hka). by eapply Hm.
  - intros [= _ <-]. by eapply Hm.
Qed.

Lemma keeps_fs_lift {A : Type} (r : res A) : keeps_fs (lift r).
Proof. by intros w r' w' [= _ <-]. Qed.

Lemma keeps_fs_reading {A : Type} (f : filesystem → res A) : keeps_fs (reading f).
Proof. by intros w r' w' [= _ <-]. Qed.

Lemma keeps_fs_print line : keeps_fs (print line).
Proof. by intros w r' w' [= _ <-]. Qed.

Lemma keeps_fs_report a all_values : keeps_fs (report a all_values).
Proof.
  unfold report.
  repeat first
    [ apply keeps_fs_print | apply keeps_fs_lift | apply keeps_fs_reading
    | apply keeps_fs_bind; [|intros ?] ].
Qed.

(** A run that returns has read at least one fitness value. *)
Lemma read_fitness_body_some st row st' :
  read_fitness_body st row = Ok st' →
  (is_Some st.2 → st.1 ≠ []) → is_Some st'.2 → st'.1 ≠ [].
Proof.
  unfold read_fitness_body. destruct st as [vals tm].
  destruct (row !! "fitness") as [[f|]|]; [|by intros [= <-]..].
  case_bool_decide; [by intros [= <-]|].
  destruct (float_of_str f) as [x|]; simpl; [|done].
  destruct tm as [t0|].
  - intros [= <-] _ _. simpl. by destruct vals.
  - destruct (Csv.getitem row "eval_time_ms") as [v|]; simpl; [|done].
    destruct (float_of_field v); simpl; [|done].
    intros [= <-] _ _. simpl. by destruct vals.
Qed.

Lemma read_fitness_rows_some names rows st st' :
  Csv.for_rows read_fitness_body names rows st = Ok st' →
  (is_Some st.2 → st.1 ≠ []) → is_Some st'.2 → st'.1 ≠ [].
Proof.
  revert st. induction rows as [|[[|f rec]|e] rows IH]; intros st; simpl.
  - by intros [= <-].
  - apply IH.
  - intros (st1 & Hbody & Hrest)%bind_eq_Ok Hst.
    eapply IH; [done|]. by eapply read_fitness_body_some.
  - done.
Qed.

Lemma read_fitness_csv_nonempty (fs : filesystem) path values t :
  read_fitness_csv fs path = Ok (values, t) → values ≠ [].
Proof.
  unfold read_fitness_csv.
  intros (text & _ & Hrest)%bind_eq_Ok.
  apply bind_eq_Ok in Hrest as ([names rows] & _ & Hrest).
  case_bool_decide; [|done]. case_bool_decide; [|done]. simpl in Hrest.
  apply bind_eq_Ok in Hrest as ([vals tm] & Hloop & Hres). simpl in Hres.
  destruct tm as [t'|]; [|done]. injection Hres as -> ->.
  eapply (read_fitness_rows_some _ _ _ (values, Some t)); [done|..].
  - by intros [? [=]].
  - by eexists.
Qed.

Lemma startswith_app s p : PyStr.startswith (p +:+ s) p = true.
Proof.
  induction p as [|c p IH]; [done|]. rewrite app_String. simpl.
  by rewrite bool_decide_eq_true_2, IH.
Qed.

Lemma below_tmp_path tmpdir name : below tmpdir (tmpdir +:+ "/" +:+ name) = true.
Proof. unfold below. rewrite <- app_assoc_str. apply startswith_app. Qed.

(** Making the config of a run leaves the master file alone. *)
Lemma prepare_run_master a base_lines base_seed tmpdir run_id w paths w1 master :
  below tmpdir master = false →
  prepare_run a base_lines base_seed tmpdir run_id w = (Ok paths, w1) →
  w_fs w1 !! master = w_fs w !! master.
Proof.
  intros Hout. unfold prepare_run.
  intros (lines & w2 & [_ ->]%lift_Ok & Hrest)%prog_bind_Ok.
  apply prog_bind_Ok in Hrest as (lines' & w3 & Hseed & Hrest).
  assert (w_fs w3 = w_fs w) as <-.
  { destruct (arg_seed_mode a).
    - by injection Hseed as _ <-.
    - apply prog_bind_Ok in Hseed as (t & w4 & Hnow & [_ ->]%lift_Ok).
      by injection Hnow as _ <-.
    - by apply lift_Ok in Hseed as [_ ->]. }
  apply prog_bind_Ok in Hrest as (u & w4 & (Hwrite & _)%writing_Ok & Hret).
  injection Hret as _ <-.
  unfold write_cfg, write_file in Hwrite.
  destruct (w_fs w3 !! _) as [[]|]; simplify_eq;
    rewrite <- Hwrite; apply lookup_insert_ne; intros <-;
    by rewrite below_tmp_path in Hout.
Qed.

(** What a turn of the run loop does to the master file: one call of
    [append_run_to_master] on the file as it was, with the values read. *)
Lemma run_once_master a base_lines base_seed tmpdir all_values run_id w all_values' w' :
  spares (arg_out a) → below tmpdir (arg_out a) = false →
  run_once a base_lines base_seed tmpdir all_values run_id w = (Ok all_values', w') →
  ∃ values t (fs : filesystem),
    all_values' = all_values ++ values ∧ values ≠ []
    ∧ fs !! arg_out a = w_fs w !! arg_out a
    ∧ append_run_to_master fs (arg_out a) run_id values t = Ok (w_fs w').
Proof.
  intros Hspares Hout. unfold run_once.
  intros ([out_csv tmp_cfg] & w1 & Hprep & Hrest)%prog_bind_Ok.
  apply prog_bind_Ok in Hrest as (u & w2 & Hrun & Hrest).
  apply prog_bind_Ok in Hrest as ([values t] & w3 & [Hread ->]%reading_Ok & Hrest).
  apply prog_bind_Ok in Hrest as (u' & w4 & (Happend & _)%writing_Ok & Hrest).
  apply prog_bind_Ok in Hrest as (u'' & w5 & Hprint & Hret).
  injection Hret as <- <-. injection Hprint as _ <-. simpl.
  exists values, t, (w_fs w2). split_and!; [done| |  |done].
  - by eapply read_fitness_csv_nonempty.
  - rewrite (run_program_Ok _ _ _ _ _ _ Hrun), Hspares.
    by eapply prepare_run_master.
Qed.

(** A call of [append_run_to_master] sees of the files only the master. *)
Lemma append_run_to_master_congr (fs1 fs2 fs1' : filesystem) master run_id values t :
  fs1 !! master = fs2 !! master →
  append_run_to_master fs1 master run_id values t = Ok fs1' →
  ∃ fs2', append_run_to_master fs2 master run_id values t = Ok fs2'
          ∧ fs1' !! master = fs2' !! master.
Proof.
  rewrite !append_run_to_master_eq. intros <-.
  destruct (fs1 !! master) as [[old|]|]; [|done|];
    intros [= <-]; eexists; (split; [done|]); by rewrite !lookup_insert_eq.
Qed.

(** The run loop, seen from the master file: the calls of [append_runs]. *)
Lemma run_loop_master a base_lines base_seed tmpdir ids (fs : filesystem)
    all_values w all_values' w' :
  spares (arg_out a) → below tmpdir (arg_out a) = false →
  fs !! arg_out a = w_fs w !! arg_out a →
  for_prog (run_once a base_lines base_seed tmpdir) ids all_values w
  = (Ok all_values', w') →
  ∃ (runs : list run_data) (fs' : filesystem),
    runs.*1.*1 = ids ∧ Forall (λ r : run_data, r.1.2 ≠ []) runs
    ∧ all_values' = all_values ++ mjoin runs.*1.*2
    ∧ append_runs fs (arg_out a) runs = Ok fs'
    ∧ fs' !! arg_out a = w_fs w' !! arg_out a.
Proof.
  intros Hspares Hout. revert fs all_values w.
  induction ids as [|run_id ids IH]; intros fs all_values w Hfs.
  - intros [= <- <-]. exists [], fs. by rewrite app_nil_r.
  - simpl. intros (all1 & w1 & Hturn & Hrest)%prog_bind_Ok.
    destruct (run_once_master _ _ _ _ _ _ _ _ _ Hspares Hout Hturn)
      as (values & t & fs0 & -> & Hne & Hfs0 & Happend).
    destruct (append_run_to_master_congr fs0 fs (w_fs w1) (arg_out a)
                run_id values t) as (fs1 & Happend1 & Hfs1); [congruence|done|].
    destruct (IH fs1 _ _ (eq_sym Hfs1) Hrest)
      as (runs & fs' & Hids & Hnes & -> & Hruns & Hfs').
    exists ((run_id, values, t) :: runs), fs'. split_and!.
    + rewrite !fmap_cons. simpl. by rewrite Hids.
    + by constructor.
    + rewrite !fmap_cons. simpl. by rewrite app_assoc.
    + unfold append_runs. rewrite for_each_cons, Happend1. exact Hruns.
    + done.
Qed.

(** An invocation that returns, seen from the master file. *)
Lemma main_master a w code w' :
  spares (arg_out a) → outside_tmp (arg_out a) →
  ¬ refused a w → main a w = (Ok code, w') →
  ∃ (runs : list run_data) (fs' : filesystem),
    runs.*1.*1 = range (arg_runs a)
    ∧ Forall (λ r : run_data, r.1.2 ≠ []) runs
    ∧ append_runs (w_fs w) (arg_out a) runs = Ok fs'
    ∧ fs' !! arg_out a = w_fs w' !! arg_out a.
Proof.
  intros Hspares Hout Hok. unfold refused, main in *.
  destruct (path_exists (w_fs w) (arg_exe a)); [|tauto].
  destruct (path_exists (w_fs w) (arg_config a)); [|tauto].
  rewrite bool_decide_eq_false_2 by tauto. simpl.
  intros (base_lines & w1 & [_ ->]%reading_Ok & Hmain)%prog_bind_Ok.
  apply prog_bind_Ok in Hmain as (base_seed & w2 & Hseed & Hmain).
  assert (w_fs w2 = w_fs w) as Hw2.
  { destruct (arg_base_seed a); by injection Hseed as _ <-. }
  apply prog_bind_Ok in Hmain as (all_values & w3 & Hloop & Hmain).
  apply prog_bind_Ok in Hmain as (u & w4 & Hreport & Hret).
  injection Hret as _ <-.
  rewrite (keeps_fs_report _ _ _ _ _ Hreport).
  unfold run_loop, with_tmpdir in Hloop.
  destruct (for_prog _ _ _ _) as [[all'|e] w5] eqn:Hfor in Hloop; [|done].
  injection Hloop as _ <-. simpl.
  destruct (Hout (w_fs w2)) as [Hne Hbelow].
  edestruct (run_loop_master a base_lines base_seed (mkdtemp (w_fs w2))
               (range (arg_runs a)) (w_fs w))
    as (runs & fs' & Hids & Hnes & _ & Hruns & Hfs'); [done|done| |exact Hfor|].
  { simpl. rewrite lookup_insert_ne by done. by rewrite Hw2. }
  exists runs, fs'. split_and!; [done..|].
  rewrite Hfs'. symmetry.
  destruct (w_fs w5 !! arg_out a) as [x|] eqn:E.
  - apply map_lookup_filter_Some_2; [done|]. simpl. by split.
  - apply map_lookup_filter_None_2. by left.
Qed.

End invocation.

Lemma range_NoDup n : NoDup (range n).
Proof.
  unfold range. apply NoDup_fmap_2; [apply Nat2Z.inj'|apply NoDup_seq].
Qed.

Lemma range_length n : length (range n) = Z.to_nat n.
Proof. unfold range. by rewrite length_fmap, length_seq. Qed.

(** The stand-in program of the sample never writes the sample's master. *)
Lemma sample_spares : @spares Sample.env "fitness_master.csv".
Proof.
  intros started argv timeout_sec fs. simpl. unfold Sample.program.
  destruct argv as [|? [|cfg_path [|? ?]]]; try done.
  destruct (parse_cfg fs cfg_path) as [lines|]; [|done].
  destruct (Sample.cfg_lookup "output" lines) as [out_csv|]; [|done].
  case_bool_decide; [done|]. simpl. by rewrite lookup_insert_ne.
Qed.

Lemma sample_outside_tmp : @outside_tmp Sample.env "fitness_master.csv".
Proof. intros fs. done. Qed.



(** C8 (amended). The runtime analytics are recomputed from the master CSV
    as it stands after the runs of the invocation, with the rows of earlier
    invocations in it: exactly one timing value per run number in the file,
    the evaluation time of the first run with that number, the reported
    count being the number of these values and average, minimum and maximum
    taken over them. When no master CSV existed before the invocation, this
    is exactly one timing value per run executed, and the count is the
    number of runs executed. *)
Theorem runtime_analytics_from_master `{PyFloat} `{Env} :
  (∀ x : float, plain (str_of_float x)) →
  (∀ x : float, float_of_str (str_of_float x) = Ok x) →
  (∀ (fs : filesystem) master (earlier runs : list run_data),
     Forall (λ r : run_data, r.1.2 ≠ []) (earlier ++ runs) →
     runs ≠ [] →
     (fs !! master = None ∧ earlier = [])
     ∨ content fs master
       = Some (PyStr.concat (Csv.writerow <$> (master_header :: runs_rows earlier))) →
     ∃ fs' : filesystem,
       append_runs fs master runs = Ok fs'
       ∧ analyze_times_from_master fs' master
         = times_summary (first_times [] (earlier ++ runs)).*2)
  ∧ (∀ (a : args) (w : world) code w',
       spares (arg_out a) → outside_tmp (arg_out a) →
       ¬ refused a w → w_fs w !! arg_out a = None →
       main a w = (Ok code, w') →
       ∃ runs : list run_data,
         runs.*1.*1 = range (arg_runs a)
         ∧ analyze_times_from_master (w_fs w') (arg_out a) = times_summary runs.*2
         ∧ ∀ stats, analyze_times_from_master (w_fs w') (arg_out a) = Ok stats →
                    Z.of_nat (ts_runs stats) = arg_runs a).
Proof.
  intros Hplain Hround. split.
  - intros fs master earlier runs Hne Hruns Hfs.
    assert (∃ fs', append_runs fs master runs = Ok fs'
                   ∧ content fs' master
                     = Some (PyStr.concat (Csv.writerow
                               <$> (master_header :: runs_rows (earlier ++ runs)))))
      as (fs' & Happend & Hcontent).
    { destruct Hfs as [[Hnone ->] | Hold].
      - destruct (append_runs_fresh fs master runs Hnone Hruns)
          as (fs' & ? & ? & _). eauto.
      - destruct (append_runs_existing fs master _ runs Hold)
          as (fs' & ? & Hc & _).
        exists fs'. split; [done|]. rewrite Hc. unfold runs_rows.
        by rewrite bind_app. }
    exists fs'. split; [done|].
    by rewrite (analyze_times_master_rows _ _ _ Hplain Hround Hne Hcontent).
  - intros a w code w' Hspares Hout Hok Hfs Hmain.
    destruct (main_master a w code w' Hspares Hout Hok Hmain)
      as (runs & fs' & Hids & Hnes & Hruns & Hfs').
    assert (runs ≠ []) as Hne.
    { intros ->. unfold refused in Hok.
      assert (length (range (arg_runs a)) = 0%nat) as Hlen by by rewrite <- Hids.
      rewrite range_length in Hlen. apply Hok. right. right. lia. }
    destruct (append_runs_fresh (w_fs w) (arg_out a) runs Hfs Hne)
      as (fs'' & Hruns' & Hcontent & _).
    assert (fs'' = fs') as -> by congruence.
    assert (content (w_fs w') (arg_out a)
            = Some (PyStr.concat (Csv.writerow <$> (master_header :: runs_rows runs))))
      as Hcontent' by (unfold content in *; by rewrite <- Hfs').
    rewrite (analyze_times_master_rows _ _ _ Hplain Hround Hnes Hcontent').
    rewrite first_times_NoDup by (simpl; rewrite Hids; apply range_NoDup).
    assert (((λ r : run_data, (r.1.1, r.2)) <$> runs).*2 = runs.*2) as ->
      by by rewrite <- list_fmap_compose.
    exists runs. split; [done|]. split; [done|].
    intros stats. unfold times_summary.
    destruct (py_mean runs.*2); simpl; [|done].
    destruct (py_min runs.*2); simpl; [|done].
    destruct (py_max runs.*2); simpl; [|done].
    intros [= <-]. simpl.
    assert (length runs = Z.to_nat (arg_runs a)) as Hlen.
    { rewrite <- range_length, <- Hids. by rewrite !length_fmap. }
    rewrite length_fmap. unfold run_data in *. rewrite Hlen.
    unfold refused in Hok. lia.
Qed.

Lemma runtime_analytics_from_master_witness :
  let w' := (Sample.main_run 2 (Sample.start Sample.project)).2 in
  (∀ x : Z, plain (@str_of_float Sample.whole_floats x))
  ∧ (∀ x : Z, @float_of_str Sample.whole_floats (@str_of_float Sample.whole_floats x) = Ok x)
  ∧ ∀ stats, @analyze_times_from_master Sample.whole_floats (w_fs w')
               "fitness_master.csv" = Ok stats →
             Z.of_nat (ts_runs stats) = 2.
Proof.
  intros w'. split; [exact whole_float_plain|].
  split; [exact whole_float_roundtrip|].
  destruct (@runtime_analytics_from_master Sample.whole_floats Sample.env
              whole_float_plain whole_float_roundtrip) as (_ & Hmain).
  assert (¬ refused (Sample.bench 2) (Sample.start Sample.project)) as Hok.
  { intros [Hexe | [Hcfg | Hruns]];
      [vm_compute in Hexe; discriminate
      | vm_compute in Hcfg; discriminate
      | simpl in Hruns; lia]. }
  subst w'.
  destruct (Sample.main_run 2 (Sample.start Sample.project)) as [[code|e] w'] eqn:E;
    [|vm_compute in E; discriminate].
  destruct (Hmain (Sample.bench 2) (Sample.start Sample.project) code w'
              sample_spares sample_outside_tmp Hok eq_refl E)
    as (runs & _ & _ & Hstats).
  exact Hstats.
Defined.

(** C8, as stated, fails: an invocation of one run on the master CSV that
    an invocation of two runs left reports two runs. *)
Lemma runtime_analytics_count_earlier_runs :
  let first := Sample.main_run 2 (Sample.start Sample.project) in
  let second := Sample.main_run 1 (Sample.start (w_fs first.2)) in
  second.1 = Ok 0
  ∧ length (w_spawned second.2) = 1%nat
  ∧ w_stdout second.2 !! 15%nat = Some "Runs:         2"
  ∧ (stats ← analyze_times_from_master (w_fs second.2) "fitness_master.csv";
     Ok (ts_runs stats)) = Ok 2%nat.
Proof. vm_compute. repeat split. Qed.

Lemma errors_are_fatal_witness :
  let w := Sample.start Sample.project in
  let a := Sample.bench 2 in
  ¬ refused a w
  ∧ parse_cfg (w_fs w) (arg_config a) = Ok ["# benchmark"; "m = 3"; "output=results.csv"]
  ∧ (@main Sample.whole_floats Sample.hanging a w).1 = Raise TimeoutExpired
  ∧ w_spawned (@main Sample.whole_floats Sample.hanging a w).2
    = [["./project1"; "/tmp/tmpbench/run_0.cfg"]].
Proof.
  intros w a.
  assert (¬ refused a w) as Hok.
  { intros [Hexe | [Hcfg | Hruns]];
      [vm_compute in Hexe; discriminate
      | vm_compute in Hcfg; discriminate
      | simpl in Hruns; lia]. }
  assert (parse_cfg (w_fs w) (arg_config a)
          = Ok ["# benchmark"; "m = 3"; "output=results.csv"]) as Hparse
    by reflexivity.
  split; [exact Hok|]. split; [exact Hparse|].
  destruct (@errors_are_fatal Sample.whole_floats Sample.hanging)
    as (_ & _ & _ & _ & _ & Hmain).
  destruct (for_prog
              (@run_once Sample.whole_floats Sample.hanging a
                 ["# benchmark"; "m = 3"; "output=results.csv"]
                 (@seeded Sample.hanging a w).1
                 (@mkdtemp Sample.hanging (w_fs (@seeded Sample.hanging a w).2)))
              (range (arg_runs a)) []
              (@entered Sample.hanging (@seeded Sample.hanging a w).2))
    as [[values | e] w'] eqn:Hloop; [vm_compute in Hloop; discriminate|].
  rewrite (Hmain a w _ e w' Hok Hparse Hloop).
  vm_compute in Hloop. injection Hloop as <- <-. split; reflexivity.
Defined.

(** * Further properties of the script *)

(** ** Config lines *)

Section cfg_more.
Import PyStr.

Lemma rewrite_line_matching key value line :
  key_matches key line = true →
  ∃ k, cfg_line_key line = Some k ∧ lower k = lower key
       ∧ rewrite_line key value line = k +:+ "=" +:+ value.
Proof.
  unfold key_matches, rewrite_line.
  destruct (cfg_line_key line) as [k|]; [|done].
  intros Hm. rewrite Hm. apply bool_decide_eq_true in Hm. eauto.
Qed.

(** A line rewritten for one value and then for another is the line
    rewritten for the other. *)
Lemma rewrite_line_twice key v1 v2 line :
  rewrite_line key v2 (rewrite_line key v1 line) = rewrite_line key v2 line.
Proof.
  destruct (key_matches key line) eqn:M.
  - destruct (rewrite_line_matching key v1 line M) as (k & Hk & Hlow & ->).
    destruct (rewrite_line_matching key v2 line M) as (k' & Hk' & _ & ->).
    assert (k' = k) as -> by congruence.
    unfold rewrite_line.
    rewrite cfg_line_key_made by eauto using cfg_line_key_plain.
    by rewrite bool_decide_eq_true_2.
  - by rewrite !(rewrite_line_no_match key _ line M).
Qed.

(** A line made for one key is no line of a key that differs from it in
    more than case. *)
Lemma key_matches_other key other line :
  lower other ≠ lower key → key_matches key line = true →
  key_matches other line = false.
Proof.
  intros Hne. unfold key_matches. destruct (cfg_line_key line) as [k|]; [|done].
  intros Hk%bool_decide_eq_true. apply bool_decide_eq_false. congruence.
Qed.

Lemma key_matches_rewrite_other key other value line :
  lower other ≠ lower key →
  key_matches other (rewrite_line key value line) = key_matches other line.
Proof.
  intros Hne. destruct (key_matches key line) eqn:M.
  - rewrite (key_matches_other key other line Hne M).
    apply (key_matches_other key); [done|]. by rewrite key_matches_rewrite.
  - by rewrite rewrite_line_no_match.
Qed.

Lemma rewrite_line_commute k1 k2 v1 v2 line :
  lower k1 ≠ lower k2 →
  rewrite_line k2 v2 (rewrite_line k1 v1 line)
  = rewrite_line k1 v1 (rewrite_line k2 v2 line).
Proof.
  intros Hne.
  destruct (key_matches k1 line) eqn:M1; destruct (key_matches k2 line) eqn:M2.
  - by rewrite (key_matches_other k1 k2 line) in M2 by done.
  - rewrite (rewrite_line_no_match k2 v2 line M2).
    apply rewrite_line_no_match.
    by rewrite key_matches_rewrite_other by done.
  - rewrite (rewrite_line_no_match k1 v1 line M1). symmetry.
    apply rewrite_line_no_match.
    by rewrite key_matches_rewrite_other by done.
  - by rewrite (rewrite_line_no_match k1 v1 line M1),
      (rewrite_line_no_match k2 v2 line M2), (rewrite_line_no_match k1 v1 line M1).
Qed.

Lemma existsb_rewrite_other key other value lines :
  lower other ≠ lower key →
  existsb (key_matches other) (map (rewrite_line key value) lines)
  = existsb (key_matches other) lines.
Proof.
  intros Hne. induction lines as [|line lines IH]; [done|]. simpl.
  by rewrite key_matches_rewrite_other, IH.
Qed.

Lemma existsb_elem_of (f : string → bool) lines :
  existsb f lines = true ↔ ∃ line, line ∈ lines ∧ f line = true.
Proof.
  rewrite existsb_exists. by setoid_rewrite <- list_elem_of_In.
Qed.

End cfg_more.

(** X1. After [set_cfg_value], every line of the result that is a line of
    the key carries the new value, written after the line's own key; and
    when the key is plain or was in the lines, the result has such a line. *)
Theorem set_cfg_value_sets_key (lines : list string) (key value : string) :
  cfg_key_ok key = true ∨ existsb (key_matches key) lines = true →
  ∃ out : list string,
    set_cfg_value lines key value = Ok out
    ∧ (∃ line, line ∈ out ∧ key_matches key line = true)
    ∧ ∀ line, line ∈ out → key_matches key line = true →
        ∃ k, PyStr.lower k = PyStr.lower key ∧ line = k +:+ "=" +:+ value.
Proof.
  intros Hkey. eexists. split; [apply set_cfg_value_eq|]. split.
  - destruct (existsb (key_matches key) lines) eqn:Hfound.
    + apply existsb_elem_of in Hfound as (line & Hin & Hm).
      exists (rewrite_line key value line). split.
      * rewrite app_nil_r. apply list_elem_of_fmap. eauto.
      * by rewrite key_matches_rewrite.
    + destruct Hkey as [Hok%cfg_key_ok_plain|]; [|done].
      exists (key +:+ "=" +:+ value). split; [set_solver|].
      rewrite key_matches_made by done. by apply bool_decide_eq_true.
  - intros line [Hin | Hin]%elem_of_app Hm.
    + apply list_elem_of_fmap in Hin as (line0 & -> & _).
      rewrite key_matches_rewrite in Hm.
      destruct (rewrite_line_matching key value line0 Hm) as (k & _ & Hlow & ->).
      eauto.
    + destruct (existsb (key_matches key) lines); [set_solver|].
      apply list_elem_of_singleton in Hin as ->. eauto.
Qed.

Lemma set_cfg_value_sets_key_witness :
  (cfg_key_ok "output" = true
   ∨ existsb (key_matches "output") ["# run"; " Output = old.csv "] = true)
  ∧ ∃ out : list string,
      set_cfg_value ["# run"; " Output = old.csv "] "output" "new.csv" = Ok out
      ∧ ∃ line, line ∈ out ∧ key_matches "output" line = true.
Proof.
  assert (cfg_key_ok "output" = true
          ∨ existsb (key_matches "output") ["# run"; " Output = old.csv "] = true)
    as Hkey by (left; reflexivity).
  split; [exact Hkey|].
  destruct (set_cfg_value_sets_key ["# run"; " Output = old.csv "] "output"
              "new.csv" Hkey) as (out & Hout & Hline & _).
  exists out. split; [exact Hout | exact Hline].
Defined.

Lemma filter_rewrite_other key other value lines :
  PyStr.lower other ≠ PyStr.lower key →
  filter (λ line, key_matches other line = true)
         (map (rewrite_line key value) lines)
  = filter (λ line, key_matches other line = true) lines.
Proof.
  intros Hne. induction lines as [|line lines IH]; [done|]. simpl map.
  destruct (key_matches other line) eqn:M.
  - assert (key_matches key line = false) as M'.
    { destruct (key_matches key line) eqn:M'; [|done].
      by rewrite (key_matches_other key other line) in M by done. }
    rewrite (rewrite_line_no_match key value line M').
    rewrite !filter_cons_True by done. by f_equal.
  - rewrite (filter_cons_False _ (rewrite_line key value line)).
    + rewrite (filter_cons_False _ line); [done|]. by rewrite M.
    + rewrite key_matches_rewrite_other by done. by rewrite M.
Qed.

(** X2. Setting a key leaves the lines of every other key as they are:
    when the keys differ in more than case and the key set is plain or was
    in the lines, the lines of the other key are the same before and
    after, in the same order. *)
Theorem set_cfg_value_other_key (lines : list string) (key other value : string) :
  PyStr.lower other ≠ PyStr.lower key →
  cfg_key_ok key = true ∨ existsb (key_matches key) lines = true →
  ∃ out : list string,
    set_cfg_value lines key value = Ok out
    ∧ filter (λ line, key_matches other line = true) out
      = filter (λ line, key_matches other line = true) lines.
Proof.
  intros Hne Hkey. eexists. split; [apply set_cfg_value_eq|].
  rewrite filter_app, filter_rewrite_other by done.
  destruct (existsb (key_matches key) lines) eqn:Hfound.
  - by rewrite filter_nil, app_nil_r.
  - destruct Hkey as [Hok%cfg_key_ok_plain|]; [|done].
    rewrite filter_cons_False, filter_nil, app_nil_r; [done|].
    rewrite key_matches_made by done.
    rewrite bool_decide_eq_false_2 by congruence. done.
Qed.

Lemma set_cfg_value_other_key_witness :
  PyStr.lower "seed" ≠ PyStr.lower "output"
  ∧ (cfg_key_ok "output" = true
     ∨ existsb (key_matches "output") ["seed=1"; "m=3"] = true)
  ∧ ∃ out : list string,
      set_cfg_value ["seed=1"; "m=3"] "output" "run.csv" = Ok out
      ∧ filter (λ line, key_matches "seed" line = true) out
        = filter (λ line, key_matches "seed" line = true) ["seed=1"; "m=3"].
Proof.
  assert (PyStr.lower "seed" ≠ PyStr.lower "output") as Hne by discriminate.
  assert (cfg_key_ok "output" = true
          ∨ existsb (key_matches "output") ["seed=1"; "m=3"] = true) as Hkey
    by (left; reflexivity).
  split; [exact Hne|]. split; [exact Hkey|].
  exact (set_cfg_value_other_key ["seed=1"; "m=3"] "output" "seed" "run.csv" Hne Hkey).
Defined.

(** X3. The last value set wins: setting a key twice, to one value and then
    to another, gives what setting it to the other alone gives, when the
    key is plain or was in the lines. *)
Theorem set_cfg_value_overwrites (lines : list string) (key v1 v2 : string) :
  cfg_key_ok key = true ∨ existsb (key_matches key) lines = true →
  (out ← set_cfg_value lines key v1; set_cfg_value out key v2)
  = set_cfg_value lines key v2.
Proof.
  intros Hkey. rewrite !set_cfg_value_eq, bind_Ok, set_cfg_value_eq. f_equal.
  destruct (existsb (key_matches key) lines) eqn:Hfound.
  - rewrite !app_nil_r, existsb_rewrite, Hfound, app_nil_r, map_map.
    apply map_ext. intros. apply rewrite_line_twice.
  - destruct Hkey as [Hok%cfg_key_ok_plain|]; [|done].
    rewrite map_app, existsb_app, map_map. simpl.
    rewrite key_matches_made, bool_decide_eq_true_2, orb_true_r by done.
    rewrite app_nil_r. f_equal.
    + apply map_ext. intros. apply rewrite_line_twice.
    + unfold rewrite_line. rewrite cfg_line_key_made by done.
      by rewrite bool_decide_eq_true_2.
Qed.

Lemma set_cfg_value_overwrites_witness :
  (cfg_key_ok "seed" = true ∨ existsb (key_matches "seed") ["m=3"] = true)
  ∧ (out ← set_cfg_value ["m=3"] "seed" "1"; set_cfg_value out "seed" "2")
    = set_cfg_value ["m=3"] "seed" "2".
Proof.
  assert (cfg_key_ok "seed" = true ∨ existsb (key_matches "seed") ["m=3"] = true)
    as Hkey by (left; reflexivity).
  split; [exact Hkey|].
  exact (set_cfg_value_overwrites ["m=3"] "seed" "1" "2" Hkey).
Defined.

(** X4. Two keys that are both in the lines and differ in more than case
    can be set in either order. *)
Theorem set_cfg_value_commutes (lines : list string) (k1 k2 v1 v2 : string) :
  PyStr.lower k1 ≠ PyStr.lower k2 →
  existsb (key_matches k1) lines = true →
  existsb (key_matches k2) lines = true →
  (out ← set_cfg_value lines k1 v1; set_cfg_value out k2 v2)
  = (out ← set_cfg_value lines k2 v2; set_cfg_value out k1 v1).
Proof.
  intros Hne H1 H2.
  rewrite !set_cfg_value_eq, !bind_Ok, !set_cfg_value_eq, H1, H2, !app_nil_r.
  rewrite !existsb_rewrite_other, H1, H2, !app_nil_r, !map_map by done.
  f_equal. apply map_ext. intros. by apply rewrite_line_commute.
Qed.

Lemma set_cfg_value_commutes_witness :
  PyStr.lower "output" ≠ PyStr.lower "seed"
  ∧ existsb (key_matches "output") ["output=a.csv"; "SEED = 1"] = true
  ∧ existsb (key_matches "seed") ["output=a.csv"; "SEED = 1"] = true
  ∧ (out ← set_cfg_value ["output=a.csv"; "SEED = 1"] "output" "b.csv";
     set_cfg_value out "seed" "7")
    = (out ← set_cfg_value ["output=a.csv"; "SEED = 1"] "seed" "7";
       set_cfg_value out "output" "b.csv").
Proof.
  assert (PyStr.lower "output" ≠ PyStr.lower "seed") as Hne by discriminate.
  split; [exact Hne|]. split; [reflexivity|]. split; [reflexivity|].
  exact (set_cfg_value_commutes ["output=a.csv"; "SEED = 1"] "output" "seed"
           "b.csv" "7" Hne eq_refl eq_refl).
Defined.

(** X5. The case of the key matters only for the line that is appended:
    for a key that is in the lines, a key that differs from it in case
    alone gives the same result. *)
Theorem set_cfg_value_key_case (lines : list string) (key key' value : string) :
  PyStr.lower key = PyStr.lower key' →
  existsb (key_matches key) lines = true →
  set_cfg_value lines key value = set_cfg_value lines key' value.
Proof.
  intros Hlow Hfound.
  assert (∀ line, key_matches key' line = key_matches key line) as Hm.
  { intros line. unfold key_matches. by rewrite Hlow. }
  assert (∀ line, rewrite_line key' value line = rewrite_line key value line) as Hr.
  { intros line. unfold rewrite_line. by rewrite Hlow. }
  assert (existsb (key_matches key') lines = existsb (key_matches key) lines)
    as Hex
    by (clear - Hm; induction lines as [|line rest IH]; simpl; [done|];
        by rewrite Hm, IH).
  rewrite !set_cfg_value_eq, Hex, Hfound.
  f_equal. f_equal. apply map_ext. intros. by rewrite Hr.
Qed.

Lemma set_cfg_value_key_case_witness :
  PyStr.lower "Seed" = PyStr.lower "SEED"
  ∧ existsb (key_matches "Seed") ["seed=1"] = true
  ∧ set_cfg_value ["seed=1"] "Seed" "7" = set_cfg_value ["seed=1"] "SEED" "7".
Proof.
  split; [reflexivity|]. split; [reflexivity|].
  exact (set_cfg_value_key_case ["seed=1"] "Seed" "SEED" "7" eq_refl eq_refl).
Defined.

(** ** Config files *)

Section cfg_file_more.
Import PyStr.

Lemma splitlines_unfold c s :
  splitlines (String c s)
  = if is_linebreak c then
      "" :: match s with
            | String c' s' =>
                if bool_decide (c = "013"%char) && bool_decide (c' = "010"%char)
                then splitlines s' else splitlines s
            | "" => []
            end
    else match splitlines s with
         | [] => [String c ""]
         | l :: ls => String c l :: ls
         end.
Proof. by destruct s. Qed.

Lemma splitlines_clean_bounded n s :
  (String.length s ≤ n)%nat → Forall (λ l, has_linebreak l = false) (splitlines s).
Proof.
  revert s. induction n as [|n IH]; intros [|c s] Hlen; simpl in Hlen;
    try (by constructor); [lia|].
  rewrite splitlines_unfold. destruct (is_linebreak c) eqn:Hc.
  - constructor; [done|]. destruct s as [|c' s']; [constructor|].
    destruct (bool_decide (c = "013"%char) && bool_decide (c' = "010"%char)).
    + apply IH. simpl in Hlen. lia.
    + apply IH. lia.
  - assert (Forall (λ l, has_linebreak l = false) (splitlines s)) as Hs
      by (apply IH; lia).
    destruct (splitlines s) as [|l ls]; [repeat constructor; simpl; by rewrite Hc|].
    apply Forall_cons in Hs as [Hl Hls]. constructor; [|done].
    simpl. by rewrite Hc, Hl.
Qed.

(** No line that [splitlines] gives holds a line boundary. *)
Lemma splitlines_clean s : Forall (λ l, has_linebreak l = false) (splitlines s).
Proof. by apply (splitlines_clean_bounded (String.length s)). Qed.

End cfg_file_more.

(** X6. The lines [parse_cfg] returns hold no line boundary, so they come
    back as they are when they are written with [write_cfg] to any file
    and parsed again; an empty file, which has no lines, comes back as one
    empty line. *)
Theorem parse_cfg_lines_clean (fs : filesystem) (path : string) (lines : list string) :
  parse_cfg fs path = Ok lines →
  Forall (λ l, PyStr.has_linebreak l = false) lines
  ∧ ∀ (fs2 : filesystem) (path2 : string), fs2 !! path2 ≠ Some Dir →
      (fs' ← write_cfg fs2 lines path2; parse_cfg fs' path2)
      = Ok (match lines with [] => [""] | _ => lines end).
Proof.
  unfold parse_cfg at 1. intros (text & _ & [= <-])%bind_eq_Ok.
  pose proof (splitlines_clean (PyStr.universal_newlines text)) as Hclean.
  split; [done|]. intros fs2 path2 Hdir.
  rewrite parse_write_cfg by done. f_equal.
  rewrite universal_newlines_id by (by apply join_no_cr).
  destruct (PyStr.splitlines (PyStr.universal_newlines text)) as [|l ls] eqn:E;
    [done|].
  by apply splitlines_join.
Qed.

Lemma parse_cfg_lines_clean_witness :
  let text := "m=3" +:+ String "013" (String "010" "# seed") +:+ String "010" "seed=1" in
  let fs : filesystem := {["input.cfg" := File text]} in
  parse_cfg fs "input.cfg" = Ok ["m=3"; "# seed"; "seed=1"]
  ∧ (fs' ← write_cfg fs ["m=3"; "# seed"; "seed=1"] "run_0.cfg";
     parse_cfg fs' "run_0.cfg") = Ok ["m=3"; "# seed"; "seed=1"].
Proof.
  intros text fs.
  assert (parse_cfg fs "input.cfg" = Ok ["m=3"; "# seed"; "seed=1"]) as Hparse
    by reflexivity.
  split; [exact Hparse|].
  destruct (parse_cfg_lines_clean fs "input.cfg" _ Hparse) as [_ Hround].
  apply (Hround fs "run_0.cfg"). discriminate.
Defined.

(** ** The files of an invocation *)

Section files_facts.
Context `{PyFloat} `{Env}.

Lemma leaves_bind {A B : Type} path (m : prog A) (k : A → prog B) :
  leaves path m → (∀ a, leaves path (k a)) → leaves path (m ≫= k).
Proof.
  intros Hm Hk w. unfold mbind, prog_bind. specialize (Hm w).
  destruct (m w) as [[a|e] w1]; simpl in Hm; [|done].
  by rewrite Hk.
Qed.

Lemma leaves_keeps_fs {A : Type} path (m : prog A) : keeps_fs m → leaves path m.
Proof.
  intros Hm w. destruct (m w) as [r w'] eqn:E. simpl. by rewrite (Hm _ _ _ E).
Qed.

Lemma keeps_fs_mret {A : Type} (a : A) : keeps_fs (mret a : prog A).
Proof. by intros w r w' [= _ <-]. Qed.

Lemma keeps_fs_eprint line : keeps_fs (eprint line).
Proof. by intros w r w' [= _ <-]. Qed.

Lemma keeps_fs_now : keeps_fs now.
Proof. by intros w r w' [= _ <-]. Qed.

Lemma leaves_writing path (f : filesystem → res filesystem) :
  (∀ fs fs' : filesystem, f fs = Ok fs' → fs' !! path = fs !! path) →
  leaves path (writing f).
Proof.
  intros Hf w. unfold writing.
  destruct (f (w_fs w)) as [fs'|e] eqn:E; simpl; [by apply Hf|done].
Qed.

Lemma leaves_run_program path exe cfg_path timeout_sec :
  spares path → leaves path (run_program exe cfg_path timeout_sec).
Proof.
  intros Hs w. unfold run_program.
  specialize (Hs (w_spawned w) [exe; cfg_path] timeout_sec (w_fs w)).
  destruct (subprocess_run _ _ _ _) as [[code| |msg] fs]; simpl in *; [|done..].
  by case_bool_decide.
Qed.

Lemma leaves_for_prog {A S : Type} path (body : S → A → prog S) xs s :
  (∀ s x, leaves path (body s x)) → leaves path (for_prog body xs s).
Proof.
  intros Hb. revert s. induction xs as [|x xs IH]; intros s; simpl.
  - apply leaves_keeps_fs, keeps_fs_mret.
  - by apply leaves_bind.
Qed.

Lemma lookup_cleaned (fs : filesystem) tmpdir path :
  path ≠ tmpdir → below tmpdir path = false →
  filter (λ kv : string * node, kv.1 ≠ tmpdir ∧ below tmpdir kv.1 = false) fs !! path
  = fs !! path.
Proof.
  intros Hne Hb. destruct (fs !! path) as [x|] eqn:E.
  - by apply map_lookup_filter_Some_2.
  - apply map_lookup_filter_None_2. by left.
Qed.

Lemma lookup_cleaned_tmp (fs : filesystem) tmpdir path :
  path = tmpdir ∨ below tmpdir path = true →
  filter (λ kv : string * node, kv.1 ≠ tmpdir ∧ below tmpdir kv.1 = false) fs !! path
  = None.
Proof.
  intros Hin. apply map_lookup_filter_None_2. right. intros x _ [Hne Hb].
  simpl in *. destruct Hin; congruence.
Qed.

Lemma leaves_with_tmpdir {A : Type} path (body : string → prog A) :
  outside_tmp path → (∀ d, below d path = false → leaves path (body d)) →
  leaves path (with_tmpdir body).
Proof.
  intros Hout Hb w. unfold with_tmpdir. destruct (Hout (w_fs w)) as [Hne Hbelow].
  specialize (Hb _ Hbelow
    (World (<[mkdtemp (w_fs w) := Dir]> (w_fs w)) (w_stdout w) (w_stderr w)
           (w_spawned w) (w_clock w))).
  destruct (body _ _) as [r w2]. simpl in *.
  rewrite lookup_insert_ne in Hb by done. rewrite <- Hb.
  by apply lookup_cleaned.
Qed.

Lemma write_cfg_other (fs fs' : filesystem) lines p path :
  write_cfg fs lines p = Ok fs' → path ≠ p → fs' !! path = fs !! path.
Proof.
  unfold write_cfg, write_file. intros Hw Hne.
  destruct (fs !! p) as [[]|]; simplify_eq; by rewrite lookup_insert_ne.
Qed.

Lemma append_run_to_master_other (fs fs' : filesystem) master run_id values t path :
  append_run_to_master fs master run_id values t = Ok fs' → path ≠ master →
  fs' !! path = fs !! path.
Proof.
  rewrite append_run_to_master_eq. intros Ha Hne.
  destruct (fs !! master) as [[]|]; simplify_eq; by rewrite lookup_insert_ne.
Qed.

Lemma leaves_prepare_run path a base_lines base_seed tmpdir run_id :
  below tmpdir path = false →
  leaves path (prepare_run a base_lines base_seed tmpdir run_id).
Proof.
  intros Hb. unfold prepare_run.
  apply leaves_bind; [apply leaves_keeps_fs, keeps_fs_lift|intros lines].
  apply leaves_bind.
  { destruct (arg_seed_mode a).
    - apply leaves_keeps_fs, keeps_fs_mret.
    - apply leaves_bind; [apply leaves_keeps_fs, keeps_fs_now|intros t].
      apply leaves_keeps_fs, keeps_fs_lift.
    - apply leaves_keeps_fs, keeps_fs_lift. }
  intros lines'. apply leaves_bind; [|intros; apply leaves_keeps_fs, keeps_fs_mret].
  apply leaves_writing. intros fs fs' Hw. eapply write_cfg_other; [done|].
  intros ->. by rewrite below_tmp_path in Hb.
Qed.

Lemma leaves_run_once path a base_lines base_seed tmpdir all_values run_id :
  path ≠ arg_out a → spares path → below tmpdir path = false →
  leaves path (run_once a base_lines base_seed tmpdir all_values run_id).
Proof.
  intros Hne Hs Hb. unfold run_once.
  apply leaves_bind; [by apply leaves_prepare_run|intros [out_csv tmp_cfg]].
  apply leaves_bind; [by apply leaves_run_program|intros _].
  apply leaves_bind; [apply leaves_keeps_fs, keeps_fs_reading|intros [vals t]].
  apply leaves_bind.
  { apply leaves_writing. intros fs fs' Ha. by eapply append_run_to_master_other. }
  intros _. apply leaves_bind; [apply leaves_keeps_fs, keeps_fs_print|intros _].
  apply leaves_keeps_fs, keeps_fs_mret.
Qed.

Lemma leaves_main path a :
  path ≠ arg_out a → spares path → outside_tmp path → leaves path (main a).
Proof.
  intros Hne Hs Hout w. unfold main.
  destruct (path_exists (w_fs w) (arg_exe a)); [|done].
  destruct (path_exists (w_fs w) (arg_config a)); [|done].
  case_bool_decide; [done|]. cbn [negb].
  revert w. apply leaves_bind; [apply leaves_keeps_fs, keeps_fs_reading|].
  intros base_lines. apply leaves_bind.
  { destruct (arg_base_seed a); apply leaves_keeps_fs;
      [apply keeps_fs_mret|apply keeps_fs_now]. }
  intros base_seed. apply leaves_bind.
  { apply leaves_with_tmpdir; [done|]. intros d Hd.
    apply leaves_for_prog. intros s x. by apply leaves_run_once. }
  intros all_values. apply leaves_bind; [apply leaves_keeps_fs, keeps_fs_report|].
  intros _. apply leaves_keeps_fs, keeps_fs_mret.
Qed.

(** The run loop ends with its directory, and what is below it, gone. *)
Lemma run_loop_removes_tmpdir a base_lines base_seed w path :
  path = mkdtemp (w_fs w) ∨ below (mkdtemp (w_fs w)) path = true →
  w_fs (run_loop a base_lines base_seed w).2 !! path = None.
Proof.
  intros Hin. unfold run_loop, with_tmpdir.
  destruct (for_prog _ _ _ _) as [r w2]. simpl. by apply lookup_cleaned_tmp.
Qed.

End files_facts.

Lemma flaky_spares : @spares Sample.flaky "fitness_master.csv".
Proof.
  intros started argv timeout_sec fs. simpl.
  destruct started; [|done]. exact (sample_spares [] argv timeout_sec fs).
Qed.

(** X7. An invocation of [main], however it ends, leaves every file other
    than the master CSV as it was, the config it was given among them,
    provided the file is not in the temporary directory and the program
    started does not change it. *)
Theorem main_leaves_other_files `{PyFloat} `{Env} (a : args) (path : string)
    (w : world) :
  path ≠ arg_out a → spares path → outside_tmp path →
  w_fs (main a w).2 !! path = w_fs w !! path.
Proof. intros Hne Hs Hout. by apply leaves_main. Qed.

Lemma main_leaves_other_files_witness :
  let fs : filesystem := <["fitness_master.csv" := File "run,experiment"]> Sample.project in
  let r := @main Sample.whole_floats Sample.env (Sample.bench_to "all_fitness.csv" 2)
             (Sample.start fs) in
  r.1 = Ok 0
  ∧ w_fs r.2 !! "fitness_master.csv" = Some (File "run,experiment").
Proof.
  intros fs r. split; [by vm_compute|].
  assert ("fitness_master.csv" ≠ arg_out (Sample.bench_to "all_fitness.csv" 2))
    as Hne by discriminate.
  subst r.
  rewrite (@main_leaves_other_files Sample.whole_floats Sample.env
             (Sample.bench_to "all_fitness.csv" 2) "fitness_master.csv"
             (Sample.start fs) Hne sample_spares sample_outside_tmp).
  reflexivity.
Defined.

(** X8. An invocation of [main] that gets as far as its runs leaves no
    temporary directory behind, however it ends: after it, nothing is at
    the path of the directory or below it, the configs and the result files
    of the runs included. *)
Theorem main_removes_tmpdir `{PyFloat} `{Env} (a : args) (w : world) (path : string) :
  ¬ refused a w → w_fs w !! arg_config a ≠ Some Dir →
  path = mkdtemp (w_fs w) ∨ below (mkdtemp (w_fs w)) path = true →
  w_fs (main a w).2 !! path = None.
Proof.
  intros Hok Hcfg Hin. unfold refused, main in *.
  destruct (path_exists (w_fs w) (arg_exe a)); [|tauto].
  destruct (path_exists (w_fs w) (arg_config a)) eqn:Hex; [|tauto].
  rewrite bool_decide_eq_false_2 by tauto. cbn [negb].
  apply bool_decide_eq_true in Hex as [x Hx].
  destruct x as [text|]; [|done].
  erewrite prog_bind_step;
    [|unfold reading, parse_cfg, read_file; by rewrite Hx].
  set (w2 := (seeded a w).2). set (base_seed := (seeded a w).1).
  assert (w_fs w2 = w_fs w) as Hfs
    by (unfold w2, seeded; by destruct (arg_base_seed a)).
  erewrite (prog_bind_step _ _ w base_seed w2);
    [|unfold base_seed, w2, seeded; by destruct (arg_base_seed a)].
  pose proof (run_loop_removes_tmpdir a
                (PyStr.splitlines (PyStr.universal_newlines text)) base_seed w2 path)
    as Hloop.
  rewrite Hfs in Hloop. specialize (Hloop Hin).
  destruct (run_loop _ _ _ w2) as [[all_values|e] w3] eqn:E.
  - erewrite prog_bind_step by done.
    destruct (report a all_values w3) as [[u|e] w4] eqn:Er.
    + erewrite prog_bind_step by done. simpl.
      by rewrite (keeps_fs_report _ _ _ _ _ Er).
    + erewrite prog_bind_Raise by done. simpl.
      by rewrite (keeps_fs_report _ _ _ _ _ Er).
  - by erewrite prog_bind_Raise by done.
Qed.

Lemma main_removes_tmpdir_witness :
  let w := Sample.start Sample.project in
  ¬ refused (Sample.bench 2) w
  ∧ below (mkdtemp (w_fs w)) "/tmp/tmpbench/run_1_fitness.csv" = true
  ∧ w_fs (Sample.main_run 2 w).2 !! "/tmp/tmpbench/run_1_fitness.csv" = None.
Proof.
  intros w.
  assert (¬ refused (Sample.bench 2) w) as Hok.
  { intros [Hexe | [Hcfg | Hruns]];
      [vm_compute in Hexe; discriminate
      | vm_compute in Hcfg; discriminate
      | simpl in Hruns; lia]. }
  assert (w_fs w !! arg_config (Sample.bench 2) ≠ Some Dir) as Hcfg
    by (vm_compute; discriminate).
  assert (below (mkdtemp (w_fs w)) "/tmp/tmpbench/run_1_fitness.csv" = true)
    as Hbelow by reflexivity.
  split; [exact Hok|]. split; [exact Hbelow|].
  exact (main_removes_tmpdir (Sample.bench 2) w "/tmp/tmpbench/run_1_fitness.csv"
           Hok Hcfg (or_intror Hbelow)).
Defined.

(** ** The programs an invocation starts *)

Section spawn_facts.
Context `{PyFloat} `{Env}.

Lemma starts_nothing_bind {A B : Type} (m : prog A) (k : A → prog B) :
  starts_nothing m → (∀ a, starts_nothing (k a)) → starts_nothing (m ≫= k).
Proof.
  intros Hm Hk w. unfold mbind, prog_bind. specialize (Hm w).
  destruct (m w) as [[a|e] w1]; simpl in Hm; [|done].
  by rewrite Hk.
Qed.

Lemma starts_nothing_mret {A : Type} (a : A) : starts_nothing (mret a : prog A).
Proof. by intros w. Qed.

Lemma starts_nothing_lift {A : Type} (r : res A) : starts_nothing (lift r).
Proof. by intros w. Qed.

Lemma starts_nothing_reading {A : Type} (f : filesystem → res A) :
  starts_nothing (reading f).
Proof. by intros w. Qed.

Lemma starts_nothing_writing f : starts_nothing (writing f).
Proof. intros w. unfold writing. by destruct (f (w_fs w)). Qed.

Lemma starts_nothing_print line : starts_nothing (print line).
Proof. by intros w. Qed.

Lemma starts_nothing_now : starts_nothing now.
Proof. by intros w. Qed.

Lemma starts_nothing_report a all_values : starts_nothing (report a all_values).
Proof.
  unfold report.
  repeat first
    [ apply starts_nothing_print | apply starts_nothing_lift
    | apply starts_nothing_reading
    | apply starts_nothing_bind; [|intros ?] ].
Qed.

Lemma starts_nothing_prepare_run a base_lines base_seed tmpdir run_id :
  starts_nothing (prepare_run a base_lines base_seed tmpdir run_id).
Proof.
  unfold prepare_run.
  apply starts_nothing_bind; [apply starts_nothing_lift|intros lines].
  apply starts_nothing_bind.
  { destruct (arg_seed_mode a).
    - apply starts_nothing_mret.
    - apply starts_nothing_bind; [apply starts_nothing_now|intros t].
      apply starts_nothing_lift.
    - apply starts_nothing_lift. }
  intros lines'.
  apply starts_nothing_bind; [apply starts_nothing_writing|intros _].
  apply starts_nothing_mret.
Qed.

(** The paths of a run are those of its number, whatever the config. *)
Lemma prepare_run_paths a base_lines base_seed tmpdir run_id w paths w1 :
  prepare_run a base_lines base_seed tmpdir run_id w = (Ok paths, w1) →
  paths = (run_out_csv tmpdir run_id, run_cfg_path tmpdir run_id).
Proof.
  unfold prepare_run.
  intros (lines & w2 & _ & Hrest)%prog_bind_Ok.
  apply prog_bind_Ok in Hrest as (lines' & w3 & _ & Hrest).
  apply prog_bind_Ok in Hrest as (u & w4 & _ & Hret).
  by injection Hret as <- _.
Qed.

Lemma bind_spawned {A B : Type} (m : prog A) (k : A → prog B) w :
  (∀ a, starts_nothing (k a)) → w_spawned ((m ≫= k) w).2 = w_spawned (m w).2.
Proof.
  intros Hk. unfold mbind, prog_bind. destruct (m w) as [[a|e] w1]; [|done].
  apply Hk.
Qed.

Lemma run_program_spawned exe cfg_path timeout_sec w :
  w_spawned (run_program exe cfg_path timeout_sec w).2
  = w_spawned w ++ [[exe; cfg_path]].
Proof.
  unfold run_program.
  destruct (subprocess_run _ _ _ _) as [[code| |msg] fs]; [|done..].
  by case_bool_decide.
Qed.

(** A turn of the run loop starts the program once, with the config of the
    run, unless it raises before. *)
Lemma run_once_spawned a base_lines base_seed tmpdir all_values run_id w :
  (w_spawned (run_once a base_lines base_seed tmpdir all_values run_id w).2
   = w_spawned w
   ∧ raises (run_once a base_lines base_seed tmpdir all_values run_id w).1)
  ∨ w_spawned (run_once a base_lines base_seed tmpdir all_values run_id w).2
    = w_spawned w ++ [run_command a tmpdir run_id].
Proof.
  unfold run_once.
  pose proof (starts_nothing_prepare_run a base_lines base_seed tmpdir run_id w)
    as Hprep.
  destruct (prepare_run a base_lines base_seed tmpdir run_id w)
    as [[paths|e] w1] eqn:Hp.
  - right. pose proof (prepare_run_paths _ _ _ _ _ _ _ _ Hp) as ->.
    rewrite (prog_bind_step _ _ _ _ _ Hp). cbv beta iota.
    simpl in Hprep.
    rewrite bind_spawned, run_program_spawned; [by rewrite Hprep|].
    intros _. apply starts_nothing_bind; [apply starts_nothing_reading|].
    intros [vals t]. apply starts_nothing_bind; [apply starts_nothing_writing|].
    intros _. apply starts_nothing_bind; [apply starts_nothing_print|].
    intros _. apply starts_nothing_mret.
  - left. by rewrite (prog_bind_Raise _ _ _ _ _ Hp).
Qed.

Lemma for_prog_spawned a base_lines base_seed tmpdir ids all_values w :
  ∃ n : nat,
    w_spawned (for_prog (run_once a base_lines base_seed tmpdir) ids all_values w).2
    = w_spawned w ++ (run_command a tmpdir <$> take n ids)
    ∧ (is_ok (for_prog (run_once a base_lines base_seed tmpdir) ids all_values w).1 →
       n = length ids).
Proof.
  revert all_values w. induction ids as [|run_id ids IH]; intros all_values w.
  - exists 0%nat. simpl. by rewrite app_nil_r.
  - cbn [for_prog].
    pose proof (run_once_spawned a base_lines base_seed tmpdir all_values run_id w)
      as Hturn.
    destruct (run_once a base_lines base_seed tmpdir all_values run_id w)
      as [[all1|e] w1] eqn:E.
    + rewrite (prog_bind_step _ _ _ _ _ E). simpl in Hturn.
      destruct Hturn as [[_ []] | Hturn].
      destruct (IH all1 w1) as (n & Hn & Hlen).
      exists (S n). rewrite Hn, Hturn, <- app_assoc. split; [done|].
      intros Hok. simpl. by rewrite Hlen.
    + rewrite (prog_bind_Raise _ _ _ _ _ E). simpl in *.
      destruct Hturn as [[-> _] | ->].
      * exists 0%nat. by rewrite app_nil_r.
      * by exists 1%nat.
Qed.

Lemma run_loop_spawned a base_lines base_seed w :
  ∃ n : nat,
    w_spawned (run_loop a base_lines base_seed w).2
    = w_spawned w
      ++ (run_command a (mkdtemp (w_fs w)) <$> take n (range (arg_runs a)))
    ∧ (is_ok (run_loop a base_lines base_seed w).1 → n = Z.to_nat (arg_runs a)).
Proof.
  unfold run_loop, with_tmpdir.
  destruct (for_prog_spawned a base_lines base_seed (mkdtemp (w_fs w))
              (range (arg_runs a)) [] (entered w)) as (n & Hn & Hlen).
  unfold entered in *.
  destruct (for_prog _ _ _ _) as [r w2]. simpl in *.
  exists n. split; [done|]. by rewrite <- range_length.
Qed.

End spawn_facts.

(** X9. An invocation of [main] starts the program once per run and in the
    order of the runs, each time as [exe tmpdir/run_<i>.cfg]: the command
    lines it has started when it ends are those of the first [n] runs, and
    of all the runs when it returns 0. *)
Theorem main_starts_runs_in_order `{PyFloat} `{Env} (a : args) (w : world) :
  ∃ n : nat,
    w_spawned (main a w).2
    = w_spawned w
      ++ (run_command a (mkdtemp (w_fs w)) <$> take n (range (arg_runs a)))
    ∧ ((main a w).1 = Ok 0 → n = Z.to_nat (arg_runs a)).
Proof.
  unfold main.
  destruct (path_exists (w_fs w) (arg_exe a));
    [|exists 0%nat; simpl; by rewrite app_nil_r].
  destruct (path_exists (w_fs w) (arg_config a));
    [|exists 0%nat; simpl; by rewrite app_nil_r].
  case_bool_decide; [exists 0%nat; simpl; by rewrite app_nil_r|]. cbn [negb].
  destruct (parse_cfg (w_fs w) (arg_config a)) as [base_lines|e] eqn:Hparse.
  2: { rewrite (prog_bind_Raise _ _ w e w) by (unfold reading; by rewrite Hparse).
       exists 0%nat. simpl. by rewrite app_nil_r. }
  rewrite (prog_bind_step _ _ w base_lines w) by (unfold reading; by rewrite Hparse).
  set (w2 := (seeded a w).2). set (base_seed := (seeded a w).1).
  assert (w_fs w2 = w_fs w ∧ w_spawned w2 = w_spawned w) as [Hfs Hsp]
    by (unfold w2, seeded; by destruct (arg_base_seed a)).
  rewrite (prog_bind_step _ _ w base_seed w2)
    by (unfold base_seed, w2, seeded; by destruct (arg_base_seed a)).
  destruct (run_loop_spawned a base_lines base_seed w2) as (n & Hn & Hlen).
  rewrite Hfs, Hsp in Hn. exists n.
  destruct (run_loop a base_lines base_seed w2) as [[all_values|e] w3] eqn:E.
  - rewrite (prog_bind_step _ _ _ _ _ E).
    rewrite bind_spawned by (intros; apply starts_nothing_mret).
    rewrite starts_nothing_report. split; [done|]. intros _. by apply Hlen.
  - rewrite (prog_bind_Raise _ _ _ _ _ E). done.
Qed.

Lemma main_starts_runs_in_order_witness :
  let w := Sample.start Sample.project in
  (Sample.main_run 2 w).1 = Ok 0
  ∧ w_spawned (Sample.main_run 2 w).2
    = [["./project1"; "/tmp/tmpbench/run_0.cfg"];
       ["./project1"; "/tmp/tmpbench/run_1.cfg"]].
Proof.
  intros w.
  assert ((Sample.main_run 2 w).1 = Ok 0) as Hret by (by vm_compute).
  split; [exact Hret|].
  destruct (main_starts_runs_in_order (Sample.bench 2) w) as (n & Hn & Hlen).
  unfold Sample.main_run. rewrite Hn, (Hlen Hret). reflexivity.
Defined.

(** ** A failed invocation and the master file *)

Section failure_facts.
Context `{PyFloat} `{Env}.

(** A turn of the run loop that raises leaves the master file as it was:
    the rows of a run are written after all of them are read. *)
Lemma run_once_raise_master a base_lines base_seed tmpdir all_values run_id w e w' :
  spares (arg_out a) → below tmpdir (arg_out a) = false →
  run_once a base_lines base_seed tmpdir all_values run_id w = (Raise e, w') →
  w_fs w' !! arg_out a = w_fs w !! arg_out a.
Proof.
  intros Hs Hb. unfold run_once.
  pose proof (leaves_prepare_run (arg_out a) a base_lines base_seed tmpdir
                run_id Hb w) as Hprep.
  destruct (prepare_run a base_lines base_seed tmpdir run_id w)
    as [[[out_csv tmp_cfg]|e0] w1] eqn:Hp; simpl in Hprep.
  2: { rewrite (prog_bind_Raise _ _ _ _ _ Hp). by intros [= _ <-]. }
  rewrite (prog_bind_step _ _ _ _ _ Hp). cbv beta iota.
  pose proof (leaves_run_program (arg_out a) (arg_exe a) tmp_cfg (arg_timeout a)
                Hs w1) as Hrun.
  destruct (run_program (arg_exe a) tmp_cfg (arg_timeout a) w1)
    as [[u|e1] w2] eqn:Hr; simpl in Hrun.
  2: { rewrite (prog_bind_Raise _ _ _ _ _ Hr). intros [= _ <-]. congruence. }
  rewrite (prog_bind_step _ _ _ _ _ Hr).
  destruct (read_fitness_csv (w_fs w2) out_csv) as [[vals t]|e2] eqn:Hread.
  2: { rewrite (prog_bind_Raise _ _ w2 e2 w2) by (unfold reading; by rewrite Hread).
       intros [= _ <-]. congruence. }
  rewrite (prog_bind_step _ _ w2 (vals, t) w2) by (unfold reading; by rewrite Hread).
  cbv beta iota. unfold mbind, prog_bind, writing.
  destruct (append_run_to_master (w_fs w2) (arg_out a) run_id vals t); [done|].
  intros [= _ <-]. congruence.
Qed.

(** The run loop that raises, seen from the master file: the calls of
    [append_runs] for the runs before the one that raised. *)
Lemma run_loop_raise_master a base_lines base_seed tmpdir ids (fs : filesystem)
    all_values w e w' :
  spares (arg_out a) → below tmpdir (arg_out a) = false →
  fs !! arg_out a = w_fs w !! arg_out a →
  for_prog (run_once a base_lines base_seed tmpdir) ids all_values w
  = (Raise e, w') →
  ∃ (runs : list run_data) (fs' : filesystem),
    runs.*1.*1 `prefix_of` ids ∧ (length runs < length ids)%nat
    ∧ Forall (λ r : run_data, r.1.2 ≠ []) runs
    ∧ append_runs fs (arg_out a) runs = Ok fs'
    ∧ fs' !! arg_out a = w_fs w' !! arg_out a.
Proof.
  intros Hspares Hout. revert fs all_values w.
  induction ids as [|run_id ids IH]; intros fs all_values w Hfs; [done|].
  cbn [for_prog].
  destruct (run_once a base_lines base_seed tmpdir all_values run_id w)
    as [[all1|e1] w1] eqn:Hturn.
  - rewrite (prog_bind_step _ _ _ _ _ Hturn). intros Hrest.
    destruct (run_once_master _ _ _ _ _ _ _ _ _ Hspares Hout Hturn)
      as (values & t & fs0 & -> & Hne & Hfs0 & Happend).
    destruct (append_run_to_master_congr fs0 fs (w_fs w1) (arg_out a)
                run_id values t) as (fs1 & Happend1 & Hfs1); [congruence|done|].
    destruct (IH fs1 _ _ (eq_sym Hfs1) Hrest)
      as (runs & fs' & Hids & Hlen & Hnes & Hruns & Hfs').
    exists ((run_id, values, t) :: runs), fs'. split_and!.
    + rewrite !fmap_cons. simpl. by apply prefix_cons.
    + simpl. lia.
    + by constructor.
    + unfold append_runs. rewrite for_each_cons, Happend1. exact Hruns.
    + done.
  - rewrite (prog_bind_Raise _ _ _ _ _ Hturn). intros [= <- <-].
    exists [], fs. split_and!; [apply prefix_nil|simpl; lia|done|done|].
    rewrite Hfs. symmetry. by eapply run_once_raise_master.
Qed.

End failure_facts.

(** X10. An invocation of [main] that raises leaves in the master CSV the
    rows of the runs that ended before, complete, and nothing of a run that
    did not: the file is as the calls of [append_run_to_master] for a
    prefix of the runs leave it, each with at least one value. The program
    started is taken to leave the master file alone. *)
Theorem main_failure_keeps_finished_runs `{PyFloat} `{Env} (a : args) (w : world)
    (e : exn) (w' : world) :
  spares (arg_out a) → outside_tmp (arg_out a) →
  main a w = (Raise e, w') →
  ∃ (runs : list run_data) (fs' : filesystem),
    runs.*1.*1 `prefix_of` range (arg_runs a)
    ∧ Forall (λ r : run_data, r.1.2 ≠ []) runs
    ∧ append_runs (w_fs w) (arg_out a) runs = Ok fs'
    ∧ fs' !! arg_out a = w_fs w' !! arg_out a.
Proof.
  intros Hspares Hout. unfold main.
  destruct (path_exists (w_fs w) (arg_exe a)); [|done].
  destruct (path_exists (w_fs w) (arg_config a)); [|done].
  case_bool_decide; [done|]. cbn [negb].
  destruct (parse_cfg (w_fs w) (arg_config a)) as [base_lines|e0] eqn:Hparse.
  2: { rewrite (prog_bind_Raise _ _ w e0 w) by (unfold reading; by rewrite Hparse).
       intros [= _ <-]. exists [], (w_fs w). split_and!; [apply prefix_nil|done..]. }
  rewrite (prog_bind_step _ _ w base_lines w) by (unfold reading; by rewrite Hparse).
  set (w2 := (seeded a w).2). set (base_seed := (seeded a w).1).
  assert (w_fs w2 = w_fs w) as Hfs
    by (unfold w2, seeded; by destruct (arg_base_seed a)).
  rewrite (prog_bind_step _ _ w base_seed w2)
    by (unfold base_seed, w2, seeded; by destruct (arg_base_seed a)).
  destruct (Hout (w_fs w2)) as [Hne Hbelow].
  assert (w_fs w !! arg_out a = w_fs (entered w2) !! arg_out a) as Hstart.
  { unfold entered. simpl. rewrite lookup_insert_ne by done. by rewrite Hfs. }
  destruct (run_loop a base_lines base_seed w2) as [[all_values|e1] w3] eqn:Hloop.
  - rewrite (prog_bind_step _ _ _ _ _ Hloop).
    destruct (report a all_values w3) as [[u|e2] w4] eqn:Hreport;
      [by rewrite (prog_bind_step _ _ _ _ _ Hreport)|].
    rewrite (prog_bind_Raise _ _ _ _ _ Hreport). intros [= _ <-].
    rewrite (keeps_fs_report _ _ _ _ _ Hreport).
    unfold run_loop, with_tmpdir in Hloop. fold (entered w2) in Hloop.
    destruct (for_prog (run_once a base_lines base_seed (mkdtemp (w_fs w2)))
                (range (arg_runs a)) [] (entered w2)) as [r w5] eqn:Hfor.
    injection Hloop as -> <-.
    destruct (run_loop_master a base_lines base_seed (mkdtemp (w_fs w2))
                (range (arg_runs a)) (w_fs w) [] (entered w2) all_values w5
                Hspares Hbelow Hstart Hfor)
      as (runs & fs' & Hids & Hnes & _ & Hruns & Hfs').
    exists runs, fs'. split_and!; [by rewrite Hids|done..|].
    simpl. by rewrite lookup_cleaned.
  - rewrite (prog_bind_Raise _ _ _ _ _ Hloop). intros [= _ <-].
    unfold run_loop, with_tmpdir in Hloop. fold (entered w2) in Hloop.
    destruct (for_prog (run_once a base_lines base_seed (mkdtemp (w_fs w2)))
                (range (arg_runs a)) [] (entered w2)) as [r w5] eqn:Hfor.
    injection Hloop as -> <-.
    destruct (run_loop_raise_master a base_lines base_seed (mkdtemp (w_fs w2))
                (range (arg_runs a)) (w_fs w) [] (entered w2) e1 w5
                Hspares Hbelow Hstart Hfor)
      as (runs & fs' & Hids & _ & Hnes & Hruns & Hfs').
    exists runs, fs'. split_and!; [done..|]. simpl. by rewrite lookup_cleaned.
Qed.

Lemma main_failure_keeps_finished_runs_witness :
  let r := @main Sample.whole_floats Sample.flaky (Sample.bench 3)
             (Sample.start Sample.project) in
  r.1 = Raise TimeoutExpired
  ∧ length (w_spawned r.2) = 2%nat
  ∧ ∃ (runs : list (@run_data Sample.whole_floats)) (fs' : filesystem),
      runs.*1.*1 `prefix_of` range 3
      ∧ append_runs Sample.project "fitness_master.csv" runs = Ok fs'
      ∧ fs' !! "fitness_master.csv" = w_fs r.2 !! "fitness_master.csv".
Proof.
  intros r. subst r.
  destruct (@main Sample.whole_floats Sample.flaky (Sample.bench 3)
              (Sample.start Sample.project)) as [[code|e] w'] eqn:E;
    [vm_compute in E; discriminate|].
  destruct (@main_failure_keeps_finished_runs Sample.whole_floats Sample.flaky
              (Sample.bench 3) (Sample.start Sample.project) e w'
              flaky_spares sample_outside_tmp E)
    as (runs & fs' & Hids & _ & Hruns & Hfs').
  vm_compute in E. injection E as <- <-.
  split; [reflexivity|]. split; [reflexivity|].
  exists runs, fs'. split_and!; [exact Hids|exact Hruns|exact Hfs'].
Defined.

(** ** When the readers raise *)

Section read_errors.
Context `{PyFloat}.

(** What [read_fitness_csv] returns, on a file whose text reads as the
    field names [names] and the records [recs]. *)
Lemma read_fitness_csv_Ok_iff (fs : filesystem) path text names recs values t :
  read_file fs path = Ok text →
  Csv.reader text = Ok names :: (Ok <$> recs) →
  "fitness" ∈ names → "eval_time_ms" ∈ names →
  read_fitness_csv fs path = Ok (values, t)
  ↔ Forall2 row_fitness (used_rows names recs) values
    ∧ ∃ first rest, used_rows names recs = first :: rest ∧ row_time first = Ok t.
Proof.
  intros Hread Hrecs Hfit Htime.
  rewrite (read_fitness_csv_eq fs path text names recs) by done.
  rewrite bind_eq_Ok. split.
  - intros ([vals' tm'] & Hloop & Hres). simpl in Hres.
    destruct tm' as [t'|]; [|done]. injection Hres as -> ->.
    apply read_fitness_loop in Hloop as (new & -> & Hnew & Htm).
    split; [done|]. simpl in Htm.
    destruct (used_rows names recs) as [|first rest]; [done|].
    destruct Htm as (t' & Ht' & [= ->]). eauto.
  - intros (Hvals & first & rest & Hused & Ht).
    exists (values, Some t). split; [|done].
    apply read_fitness_loop. exists values. split_and!; [done..|].
    rewrite Hused. simpl. eauto.
Qed.

(** Either every row gives a value or the fitness of one is no float. *)
Lemma rows_values (rows : list (gmap string (option string))) :
  Forall (λ row, is_Some (fitness_field row)) rows →
  (∃ values, Forall2 row_fitness rows values)
  ∨ ∃ row f, row ∈ rows ∧ fitness_field row = Some f ∧ raises (float_of_str f).
Proof.
  induction 1 as [|row rows [f Hf] _ IH].
  - left. exists []. constructor.
  - destruct (float_of_str f) as [x|e] eqn:Hx.
    + destruct IH as [[values Hv] | (row' & f' & Hin & Hf' & Hr)].
      * left. exists (x :: values). constructor; [by exists f|done].
      * right. exists row', f'. split_and!; [by apply elem_of_cons; right|done..].
    + right. exists row, f.
      split_and!; [by apply elem_of_cons; left|done|by rewrite Hx].
Qed.

Lemma used_rows_used names recs :
  Forall (λ row, is_Some (fitness_field row)) (used_rows names recs).
Proof.
  apply Forall_forall. intros row Hin. unfold used_rows in Hin.
  by apply list_elem_of_filter in Hin as [? _].
Qed.

(** A name that is no field name is no key of a row. *)
Lemma dict_row_lookup_None names row key :
  key ∉ names → Csv.dict_row names row !! key = None.
Proof.
  intros Hkey. unfold Csv.dict_row.
  assert (∀ (pad : list string) (d : gmap string (option string)),
            key ∉ pad →
            foldl (λ d k, <[k := None]> d) d pad !! key = d !! key) as Hpad.
  { induction pad as [|k pad IH]; intros d Hk; [done|]. simpl.
    rewrite IH by set_solver. apply lookup_insert_ne. set_solver. }
  rewrite Hpad by (pose proof (subseteq_drop (length row) names); set_solver).
  assert (∀ (d : gmap string (option string)),
            foldl (λ d (kv : string * string), <[kv.1 := Some kv.2]> d) d
                  (zip names row) !! key = d !! key) as Hzip.
  { revert row. induction names as [|k names IH]; intros row d; [done|].
    destruct row as [|f row]; [done|]. simpl.
    rewrite IH by set_solver. apply lookup_insert_ne. set_solver. }
  by rewrite Hzip.
Qed.

Lemma for_rows_no_data {S : Type} (body : S → gmap string (option string) → res S)
    names recs (s : S) :
  data_rows names recs = [] → Csv.for_rows body names (Ok <$> recs) s = Ok s.
Proof.
  unfold data_rows. induction recs as [|rec recs IH]; [done|].
  destruct (decide (rec = [])) as [-> | Hrec].
  - rewrite filter_cons_False by (by intros ?). intros Hrest.
    rewrite fmap_cons, for_rows_cons_empty. by apply IH.
  - by rewrite filter_cons_True.
Qed.

Lemma times_loop_no_run names recs times_by_run :
  "run" ∉ names → data_rows names recs ≠ [] →
  Csv.for_rows times_body names (Ok <$> recs) times_by_run
  = Raise (KeyError "run").
Proof.
  intros Hrun. unfold data_rows. induction recs as [|rec recs IH]; [done|].
  destruct (decide (rec = [])) as [-> | Hrec].
  - rewrite filter_cons_False by (by intros ?). intros Hrest.
    rewrite fmap_cons, for_rows_cons_empty. by apply IH.
  - intros _. rewrite fmap_cons, for_rows_cons by done.
    unfold times_body, Csv.getitem. rewrite (dict_row_lookup_None names rec "run") by done.
    reflexivity.
Qed.

End read_errors.

(** X11. On a file whose header has both columns, [read_fitness_csv]
    raises exactly in three cases: no row is used; the fitness of a row
    that is used is no float; the evaluation time of the first row used is
    no float. The evaluation time of a later row is never looked at. *)
Theorem read_fitness_csv_raises_iff `{PyFloat} (fs : filesystem)
    (path text : string) (names : list string) (recs : list (list string)) :
  read_file fs path = Ok text →
  Csv.reader text = Ok names :: (Ok <$> recs) →
  "fitness" ∈ names → "eval_time_ms" ∈ names →
  raises (read_fitness_csv fs path)
  ↔ used_rows names recs = []
    ∨ (∃ row f, row ∈ used_rows names recs ∧ fitness_field row = Some f
                ∧ raises (float_of_str f))
    ∨ (∃ first rest, used_rows names recs = first :: rest
                     ∧ raises (row_time first)).
Proof.
  intros Hread Hrecs Hfit Htime.
  pose proof (read_fitness_csv_Ok_iff fs path text names recs) as Hiff.
  destruct (read_fitness_csv fs path) as [[values t]|e] eqn:E; simpl.
  - split; [done|].
    destruct (proj1 (Hiff values t Hread Hrecs Hfit Htime) eq_refl)
      as (Hvals & first & rest & Hused & Ht).
    intros [Hnone | [(row & f & Hin & Hf & Hraise) | (first' & rest' & Hused' & Hraise)]].
    + congruence.
    + apply list_elem_of_lookup in Hin as [i Hi].
      destruct (Forall2_lookup_l _ _ _ _ _ Hvals Hi) as (x & _ & f' & Hf' & Hx).
      assert (f' = f) as -> by congruence. by rewrite Hx in Hraise.
    + assert (first' = first) as -> by congruence. by rewrite Ht in Hraise.
  - split; [|done]. intros _.
    destruct (used_rows names recs) as [|first rest] eqn:Hused; [by left|].
    right. destruct (row_time first) as [t|e'] eqn:Ht; [|right; exists first, rest; by rewrite Ht].
    left. destruct (rows_values (used_rows names recs) (used_rows_used names recs))
      as [[values Hvals] | Hbad]; [|by rewrite <- Hused].
    rewrite Hused in Hvals.
    assert (Raise e = Ok (values, t)) as Hno; [|done].
    apply (Hiff values t Hread Hrecs Hfit Htime). eauto.
Qed.

Lemma read_fitness_csv_raises_iff_witness :
  let text := "experiment,fitness,eval_time_ms" +:+ Csv.CRLF
              +:+ "0,5.0,7.0" +:+ Csv.CRLF
              +:+ "1,n/a,7.0" +:+ Csv.CRLF in
  let fs : filesystem := {["run_0_fitness.csv" := File text]} in
  let names := ["experiment"; "fitness"; "eval_time_ms"] in
  let recs := [["0"; "5.0"; "7.0"]; ["1"; "n/a"; "7.0"]] in
  read_file fs "run_0_fitness.csv" = Ok text
  ∧ Csv.reader text = Ok names :: (Ok <$> recs)
  ∧ raises (@read_fitness_csv Sample.whole_floats fs "run_0_fitness.csv").
Proof.
  intros text fs names recs.
  assert (read_file fs "run_0_fitness.csv" = Ok text) as Hread by reflexivity.
  assert (Csv.reader text = Ok names :: (Ok <$> recs)) as Hrecs by reflexivity.
  assert ("fitness" ∈ names) as Hfit by (apply list_elem_of_lookup; by exists 1%nat).
  assert ("eval_time_ms" ∈ names) as Htime
    by (apply list_elem_of_lookup; by exists 2%nat).
  split; [exact Hread|]. split; [exact Hrecs|].
  apply (@read_fitness_csv_raises_iff Sample.whole_floats fs "run_0_fitness.csv"
           text names recs Hread Hrecs Hfit Htime).
  right. left. exists (Csv.dict_row names ["1"; "n/a"; "7.0"]), "n/a".
  split_and!; [|reflexivity|exact I].
  apply list_elem_of_lookup. by exists 1%nat.
Defined.

(** X12. [analyze_times_from_master] on a master file that does not read
    as run rows: a header without [eval_time_ms] is a [KeyError]; a file
    with no data row is the [StatisticsError] of the mean of no value; a
    header without [run], with a data row, is the [KeyError] of the first
    row's [run]. *)
Theorem analyze_times_from_master_errors `{PyFloat} (fs : filesystem)
    (master text : string) (names : list string) (recs : list (list string)) :
  read_file fs master = Ok text →
  Csv.reader text = Ok names :: (Ok <$> recs) →
  ("eval_time_ms" ∉ names →
   analyze_times_from_master fs master
   = Raise (KeyError "Master CSV missing 'eval_time_ms'"))
  ∧ ("eval_time_ms" ∈ names → data_rows names recs = [] →
     analyze_times_from_master fs master
     = Raise (StatisticsError "mean requires at least one data point"))
  ∧ ("eval_time_ms" ∈ names → "run" ∉ names → data_rows names recs ≠ [] →
     analyze_times_from_master fs master = Raise (KeyError "run")).
Proof.
  intros Hread Hrecs. unfold analyze_times_from_master, Csv.dict_reader.
  rewrite Hread, bind_Ok, Hrecs, bind_Ok. split_and!.
  - intros Htime. by rewrite bool_decide_eq_false_2.
  - intros Htime Hnone. rewrite bool_decide_eq_true_2 by done. cbn [negb].
    by rewrite for_rows_no_data.
  - intros Htime Hrun Hsome. rewrite bool_decide_eq_true_2 by done. cbn [negb].
    by rewrite times_loop_no_run.
Qed.

Lemma analyze_times_from_master_errors_witness :
  let text := "run,experiment,fitness,eval_time_ms" +:+ Csv.CRLF in
  let fs : filesystem := {["fitness_master.csv" := File text]} in
  read_file fs "fitness_master.csv" = Ok text
  ∧ Csv.reader text = [Ok master_header]
  ∧ raises (@analyze_times_from_master Sample.whole_floats fs "fitness_master.csv").
Proof.
  intros text fs.
  assert (read_file fs "fitness_master.csv" = Ok text) as Hread by reflexivity.
  assert (Csv.reader text = Ok master_header :: (Ok <$> [])) as Hrecs by reflexivity.
  assert ("eval_time_ms" ∈ master_header) as Htime
    by (apply list_elem_of_lookup; by exists 3%nat).
  split; [exact Hread|]. split; [exact Hrecs|].
  destruct (@analyze_times_from_master_errors Sample.whole_floats fs
              "fitness_master.csv" text master_header [] Hread Hrecs)
    as (_ & Hnone & _).
  rewrite (Hnone Htime eq_refl). exact I.
Defined.

(** ** The values an invocation analyzes *)

Section values_facts.
Context `{PyFloat} `{Env}.



End values_facts.



(** ** The config of a run *)

Section run_cfg_facts.
Import PyStr.

Lemma has_linebreak_app a b :
  has_linebreak (a +:+ b) = has_linebreak a || has_linebreak b.
Proof.
  induction a as [|c a IH]; [done|]. rewrite app_String. simpl.
  by rewrite IH, orb_assoc.
Qed.

Lemma has_linebreak_lstrip s :
  has_linebreak s = false → has_linebreak (lstrip s) = false.
Proof.
  induction s as [|c s IH]; [done|]. simpl.
  intros [Hc Hs]%orb_false_iff. destruct (is_space c); [by apply IH|].
  simpl. by rewrite Hc, Hs.
Qed.

Lemma has_linebreak_rstrip s :
  has_linebreak s = false → has_linebreak (rstrip s) = false.
Proof.
  induction s as [|c s IH]; [done|]. intros Hcs. simpl in Hcs.
  apply orb_false_iff in Hcs as [Hc Hs]. rewrite rstrip_unfold. specialize (IH Hs).
  destruct (rstrip s) as [|b r].
  - destruct (is_space c); [done|]. simpl. by rewrite Hc.
  - simpl in *. by rewrite Hc, IH.
Qed.

Lemma has_linebreak_strip s :
  has_linebreak s = false → has_linebreak (strip s) = false.
Proof. intros Hs. by apply has_linebreak_rstrip, has_linebreak_lstrip. Qed.

Lemma has_linebreak_of_Z n : has_linebreak (of_Z n) = false.
Proof.
  pose proof (of_Z_int_chars n) as Hn.
  induction (of_Z n) as [|c s IH]; [done|]. simpl in *.
  apply andb_true_iff in Hn as [Hc Hs]. rewrite IH by done.
  rewrite orb_false_r. clear -Hc.
  by destruct c as [[] [] [] [] [] [] [] []].
Qed.

(** The key of a line without a line boundary has none. *)
Lemma cfg_line_key_clean line k :
  cfg_line_key line = Some k → has_linebreak line = false →
  has_linebreak k = false.
Proof.
  unfold cfg_line_key. intros Hk Hline%has_linebreak_strip.
  destruct (bool_decide (strip line = "")); [done|].
  destruct (startswith (strip line) "#"); [done|].
  destruct (contains "=" (strip line)) eqn:E3; [|done]. simpl in Hk.
  destruct (split1_found _ _ E3) as (k0 & v & Hsplit & Hs & _).
  rewrite Hsplit in Hk. injection Hk as <-.
  rewrite Hs, has_linebreak_app in Hline.
  apply orb_false_iff in Hline as [Hk0 _]. by apply has_linebreak_strip.
Qed.

Lemma rewrite_line_clean key value line :
  has_linebreak line = false → has_linebreak value = false →
  has_linebreak (rewrite_line key value line) = false.
Proof.
  intros Hline Hvalue. unfold rewrite_line.
  destruct (cfg_line_key line) as [k|] eqn:E; [|done].
  case_bool_decide; [|done].
  rewrite !has_linebreak_app, (cfg_line_key_clean line k E Hline), Hvalue.
  done.
Qed.

(** The lines that [set_cfg_value] gives have no line boundary when the
    lines, the key and the value have none. *)
Lemma set_cfg_value_clean lines key value out :
  Forall (λ l, has_linebreak l = false) lines →
  has_linebreak key = false → has_linebreak value = false →
  set_cfg_value lines key value = Ok out →
  Forall (λ l, has_linebreak l = false) out.
Proof.
  intros Hlines Hkey Hvalue. rewrite set_cfg_value_eq. intros [= <-].
  apply Forall_app. split.
  - induction Hlines as [|line lines Hline _ IH]; [done|]. simpl.
    constructor; [by apply rewrite_line_clean|done].
  - destruct (existsb (key_matches key) lines); [done|].
    repeat constructor. by rewrite !has_linebreak_app, Hkey, Hvalue.
Qed.

(** What [set_cfg_value] with a plain key leaves of the key: a line at
    least, and in its lines the value. *)
Lemma set_cfg_value_lines_of_key lines key value out :
  cfg_key_ok key = true → set_cfg_value lines key value = Ok out →
  (∃ line, line ∈ out ∧ key_matches key line = true)
  ∧ ∀ line, line ∈ out → key_matches key line = true →
      ∃ k, lower k = lower key ∧ line = k +:+ "=" +:+ value.
Proof.
  intros Hok%cfg_key_ok_plain. rewrite set_cfg_value_eq. intros [= <-]. split.
  - destruct (existsb (key_matches key) lines) eqn:Hfound.
    + apply existsb_elem_of in Hfound as (line & Hin & Hm).
      exists (rewrite_line key value line). split.
      * rewrite app_nil_r. apply list_elem_of_fmap. eauto.
      * by rewrite key_matches_rewrite.
    + exists (key +:+ "=" +:+ value). split; [set_solver|].
      rewrite key_matches_made by done. by apply bool_decide_eq_true.
  - intros line [Hin | Hin]%elem_of_app Hm.
    + apply list_elem_of_fmap in Hin as (line0 & -> & _).
      rewrite key_matches_rewrite in Hm.
      destruct (rewrite_line_matching key value line0 Hm) as (k & _ & Hlow & ->).
      eauto.
    + destruct (existsb (key_matches key) lines); [set_solver|].
      apply list_elem_of_singleton in Hin as ->. eauto.
Qed.

(** And of another key: its lines as they were. *)
Lemma set_cfg_value_lines_of_other lines key other value out :
  lower other ≠ lower key → cfg_key_ok key = true →
  set_cfg_value lines key value = Ok out →
  filter (λ line, key_matches other line = true) out
  = filter (λ line, key_matches other line = true) lines.
Proof.
  intros Hne Hok%cfg_key_ok_plain. rewrite set_cfg_value_eq. intros [= <-].
  rewrite filter_app, filter_rewrite_other by done.
  destruct (existsb (key_matches key) lines) eqn:Hfound.
  - by rewrite filter_nil, app_nil_r.
  - rewrite filter_cons_False, filter_nil, app_nil_r; [done|].
    rewrite key_matches_made by done.
    rewrite bool_decide_eq_false_2 by congruence. done.
Qed.

Lemma filter_key_elem_of key (lines1 lines2 : list string) :
  filter (λ line, key_matches key line = true) lines1
  = filter (λ line, key_matches key line = true) lines2 →
  ∀ line, key_matches key line = true → line ∈ lines1 ↔ line ∈ lines2.
Proof.
  intros Heq line Hm.
  assert (∀ lines : list string,
            line ∈ lines
            ↔ line ∈ filter (λ line, key_matches key line = true) lines) as Hin.
  { intros lines. rewrite list_elem_of_filter. tauto. }
  by rewrite (Hin lines1), (Hin lines2), Heq.
Qed.

Context `{Env}.

(** The lines of the config of a run, and the file they are written to. *)
Lemma prepare_run_lines a base_lines base_seed tmpdir run_id w paths w1 :
  prepare_run a base_lines base_seed tmpdir run_id w = (Ok paths, w1) →
  ∃ lines1 lines2,
    set_cfg_value base_lines "output" (run_out_csv tmpdir run_id) = Ok lines1
    ∧ match arg_seed_mode a with
      | SeedKeep => lines2 = lines1
      | SeedTime =>
          ∃ t, set_cfg_value lines1 "seed" (of_Z t) = Ok lines2
      | SeedIncrement =>
          set_cfg_value lines1 "seed" (of_Z (base_seed + run_id)) = Ok lines2
      end
    ∧ write_cfg (w_fs w) lines2 (run_cfg_path tmpdir run_id) = Ok (w_fs w1).
Proof.
  unfold prepare_run.
  intros (lines1 & w2 & [Hout ->]%lift_Ok & Hrest)%prog_bind_Ok.
  apply prog_bind_Ok in Hrest as (lines2 & w3 & Hseed & Hrest).
  apply prog_bind_Ok in Hrest as (u & w4 & (Hwrite & _)%writing_Ok & Hret).
  injection Hret as _ <-.
  exists lines1, lines2. split; [done|].
  destruct (arg_seed_mode a).
  - injection Hseed as -> ->. done.
  - apply prog_bind_Ok in Hseed as (t & w5 & Hnow & [Hset ->]%lift_Ok).
    injection Hnow as _ <-. split; [by exists t|done].
  - apply lift_Ok in Hseed as [Hset ->]. done.
Qed.

End run_cfg_facts.

(** X14. The config that [main] writes for a run is read back by
    [parse_cfg], at [tmpdir/run_<i>.cfg], with a line of the key [output],
    every such line naming the result file of the run,
    [tmpdir/run_<i>_fitness.csv]; in the mode [increment] it has a line of
    the key [seed], every such line carrying the base seed plus the number
    of the run; in the mode [keep] its [seed] lines are those of the base
    config. The base lines and the name of the directory are taken to hold
    no line boundary. *)
Theorem prepare_run_config `{Env} (a : args) (base_lines : list string)
    (base_seed : Z) (tmpdir : string) (run_id : Z) (w : world)
    (paths : string * string) (w1 : world) :
  Forall (λ l, PyStr.has_linebreak l = false) base_lines →
  PyStr.has_linebreak tmpdir = false →
  prepare_run a base_lines base_seed tmpdir run_id w = (Ok paths, w1) →
  ∃ lines : list string,
    parse_cfg (w_fs w1) (run_cfg_path tmpdir run_id) = Ok lines
    ∧ (∃ line, line ∈ lines ∧ key_matches "output" line = true)
    ∧ (∀ line, line ∈ lines → key_matches "output" line = true →
         ∃ k, line = k +:+ "=" +:+ run_out_csv tmpdir run_id)
    ∧ (arg_seed_mode a = SeedIncrement →
       (∃ line, line ∈ lines ∧ key_matches "seed" line = true)
       ∧ ∀ line, line ∈ lines → key_matches "seed" line = true →
           ∃ k, line = k +:+ "=" +:+ PyStr.of_Z (base_seed + run_id))
    ∧ (arg_seed_mode a = SeedKeep →
       filter (λ line, key_matches "seed" line = true) lines
       = filter (λ line, key_matches "seed" line = true) base_lines).
Proof.
  intros Hbase Htmp Hprep.
  destruct (prepare_run_lines _ _ _ _ _ _ _ _ Hprep)
    as (lines1 & lines2 & Hout & Hseed & Hwrite).
  assert (PyStr.has_linebreak (run_out_csv tmpdir run_id) = false) as Hcsv.
  { unfold run_out_csv.
    by rewrite !has_linebreak_app, Htmp, has_linebreak_of_Z. }
  pose proof (set_cfg_value_clean base_lines "output" _ lines1 Hbase eq_refl
                Hcsv Hout) as Hclean1.
  destruct (set_cfg_value_lines_of_key base_lines "output" _ lines1 eq_refl Hout)
    as [(line1 & Hin1 & Hm1) Hall1].
  assert (PyStr.lower "output" ≠ PyStr.lower "seed") as Hne by discriminate.
  assert (PyStr.lower "seed" ≠ PyStr.lower "output") as Hne' by discriminate.
  assert (Forall (λ l, PyStr.has_linebreak l = false) lines2
          ∧ filter (λ line, key_matches "output" line = true) lines2
            = filter (λ line, key_matches "output" line = true) lines1)
    as [Hclean2 Hsame].
  { destruct (arg_seed_mode a).
    - by subst.
    - destruct Hseed as [t Hseed]. split.
      + exact (set_cfg_value_clean lines1 "seed" _ lines2 Hclean1 eq_refl
                 (has_linebreak_of_Z t) Hseed).
      + exact (set_cfg_value_lines_of_other lines1 "seed" "output" _ lines2
                 Hne eq_refl Hseed).
    - split.
      + exact (set_cfg_value_clean lines1 "seed" _ lines2 Hclean1 eq_refl
                 (has_linebreak_of_Z _) Hseed).
      + exact (set_cfg_value_lines_of_other lines1 "seed" "output" _ lines2
                 Hne eq_refl Hseed). }
  pose proof (filter_key_elem_of _ _ _ Hsame) as Hiff.
  assert (lines2 ≠ []) as Hne2.
  { intros ->. apply (Hiff line1 Hm1) in Hin1. by apply elem_of_nil in Hin1. }
  exists lines2. split_and!.
  - assert (w_fs w !! run_cfg_path tmpdir run_id ≠ Some Dir) as Hdir.
    { intros Hd. unfold write_cfg, write_file in Hwrite. by rewrite Hd in Hwrite. }
    pose proof (parse_write_cfg (w_fs w) lines2 _ Hdir) as Hround.
    rewrite Hwrite, bind_Ok in Hround. rewrite Hround. f_equal.
    rewrite universal_newlines_id by (by apply join_no_cr).
    by apply splitlines_join.
  - exists line1. split; [by apply Hiff|done].
  - intros line Hin Hm. apply (Hiff line Hm) in Hin.
    destruct (Hall1 line Hin Hm) as (k & _ & ->). by exists k.
  - intros Hmode. rewrite Hmode in Hseed.
    destruct (set_cfg_value_lines_of_key lines1 "seed" _ lines2 eq_refl Hseed)
      as [Hsome Hall]. split; [done|].
    intros line Hin Hm. destruct (Hall line Hin Hm) as (k & _ & ->). by exists k.
  - intros Hmode. rewrite Hmode in Hseed. subst lines2.
    exact (set_cfg_value_lines_of_other base_lines "output" "seed" _ lines1
             Hne' eq_refl Hout).
Qed.

Lemma prepare_run_config_witness :
  let base_lines := ["# benchmark"; "m = 3"; "output=results.csv"] in
  let r := @prepare_run Sample.env (Sample.bench 2) base_lines 100 "/tmp/tmpbench" 1
             (Sample.start Sample.project) in
  r.1 = Ok ("/tmp/tmpbench/run_1_fitness.csv", "/tmp/tmpbench/run_1.cfg")
  ∧ ∃ lines : list string,
      parse_cfg (w_fs r.2) "/tmp/tmpbench/run_1.cfg" = Ok lines
      ∧ (∀ line, line ∈ lines → key_matches "output" line = true →
           ∃ k, line = k +:+ "=" +:+ "/tmp/tmpbench/run_1_fitness.csv")
      ∧ ∃ line, line ∈ lines ∧ key_matches "seed" line = true.
Proof.
  intros base_lines r. subst r.
  destruct (@prepare_run Sample.env (Sample.bench 2) base_lines 100 "/tmp/tmpbench" 1
              (Sample.start Sample.project)) as [[paths|e] w1] eqn:E;
    [|vm_compute in E; discriminate].
  assert (Forall (λ l, PyStr.has_linebreak l = false) base_lines) as Hbase
    by (repeat constructor).
  destruct (@prepare_run_config Sample.env (Sample.bench 2) base_lines 100
              "/tmp/tmpbench" 1 (Sample.start Sample.project) paths w1
              Hbase eq_refl E) as (lines & Hparse & _ & Hout & Hseed & _).
  vm_compute in E. injection E as <- <-.
  split; [reflexivity|]. exists lines.
  split_and!; [exact Hparse|exact Hout|exact (proj1 (Hseed eq_refl))].
Defined.

(** ** What an invocation prints *)

Section output_facts.
Context `{PyFloat} `{Env}.

Lemma run_program_stdout exe cfg_path timeout_sec w :
  w_stdout (run_program exe cfg_path timeout_sec w).2 = w_stdout w.
Proof.
  unfold run_program.
  destruct (subprocess_run _ _ _ _) as [[code| |msg] fs]; [|done..].
  by case_bool_decide.
Qed.

Lemma prepare_run_stdout a base_lines base_seed tmpdir run_id w paths w1 :
  prepare_run a base_lines base_seed tmpdir run_id w = (Ok paths, w1) →
  w_stdout w1 = w_stdout w.
Proof.
  unfold prepare_run.
  intros (lines & w2 & [_ ->]%lift_Ok & Hrest)%prog_bind_Ok.
  apply prog_bind_Ok in Hrest as (lines' & w3 & Hseed & Hrest).
  assert (w_stdout w3 = w_stdout w) as <-.
  { destruct (arg_seed_mode a).
    - by injection Hseed as _ <-.
    - apply prog_bind_Ok in Hseed as (t & w4 & Hnow & [_ ->]%lift_Ok).
      by injection Hnow as _ <-.
    - by apply lift_Ok in Hseed as [_ ->]. }
  apply prog_bind_Ok in Hrest as (u & w4 & (_ & Hout & _)%writing_Ok & Hret).
  by injection Hret as _ <-.
Qed.

(** A turn of the run loop that returns: one call of
    [append_run_to_master] and one line printed, for the values read. *)
Lemma run_once_prints a base_lines base_seed tmpdir all_values run_id w
    all_values' w' :
  spares (arg_out a) → below tmpdir (arg_out a) = false →
  run_once a base_lines base_seed tmpdir all_values run_id w = (Ok all_values', w') →
  ∃ values t (fs : filesystem),
    all_values' = all_values ++ values
    ∧ fs !! arg_out a = w_fs w !! arg_out a
    ∧ append_run_to_master fs (arg_out a) run_id values t = Ok (w_fs w')
    ∧ w_stdout w' = w_stdout w ++ [progress_line a (run_id, values, t)].
Proof.
  intros Hspares Hout. unfold run_once.
  intros ([out_csv tmp_cfg] & w1 & Hprep & Hrest)%prog_bind_Ok.
  apply prog_bind_Ok in Hrest as (u & w2 & Hrun & Hrest).
  apply prog_bind_Ok in Hrest as ([values t] & w3 & [Hread ->]%reading_Ok & Hrest).
  apply prog_bind_Ok in Hrest as (u' & w4 & (Happend & Hstdout & _)%writing_Ok & Hrest).
  apply prog_bind_Ok in Hrest as (u'' & w5 & Hprint & Hret).
  injection Hret as <- <-. injection Hprint as _ <-. simpl.
  exists values, t, (w_fs w2). split_and!; [done| |done|].
  - rewrite (run_program_Ok _ _ _ _ _ _ Hrun), Hspares.
    by eapply prepare_run_master.
  - rewrite Hstdout. pose proof (run_program_stdout (arg_exe a) tmp_cfg
                                   (arg_timeout a) w1) as Hsame.
    rewrite Hrun in Hsame. simpl in Hsame.
    by rewrite Hsame, (prepare_run_stdout _ _ _ _ _ _ _ _ Hprep).
Qed.

Lemma run_loop_prints a base_lines base_seed tmpdir ids (fs : filesystem)
    all_values w all_values' w' :
  spares (arg_out a) → below tmpdir (arg_out a) = false →
  fs !! arg_out a = w_fs w !! arg_out a →
  for_prog (run_once a base_lines base_seed tmpdir) ids all_values w
  = (Ok all_values', w') →
  ∃ (runs : list run_data) (fs' : filesystem),
    runs.*1.*1 = ids
    ∧ append_runs fs (arg_out a) runs = Ok fs'
    ∧ fs' !! arg_out a = w_fs w' !! arg_out a
    ∧ w_stdout w' = w_stdout w ++ (progress_line a <$> runs).
Proof.
  intros Hspares Hout. revert fs all_values w.
  induction ids as [|run_id ids IH]; intros fs all_values w Hfs.
  - intros [= <- <-]. exists [], fs. by rewrite app_nil_r.
  - simpl. intros (all1 & w1 & Hturn & Hrest)%prog_bind_Ok.
    destruct (run_once_prints _ _ _ _ _ _ _ _ _ Hspares Hout Hturn)
      as (values & t & fs0 & -> & Hfs0 & Happend & Hline).
    destruct (append_run_to_master_congr fs0 fs (w_fs w1) (arg_out a)
                run_id values t) as (fs1 & Happend1 & Hfs1); [congruence|done|].
    destruct (IH fs1 _ _ (eq_sym Hfs1) Hrest)
      as (runs & fs' & Hids & Hruns & Hfs' & Hlines).
    exists ((run_id, values, t) :: runs), fs'. split_and!.
    + rewrite !fmap_cons. simpl. by rewrite Hids.
    + unfold append_runs. rewrite for_each_cons, Happend1. exact Hruns.
    + done.
    + rewrite Hlines, Hline, fmap_cons, <- app_assoc. done.
Qed.

Lemma prints_print line : prints_lines 1 (print line).
Proof. intros w u w' [= _ <-]. by exists [line]. Qed.

Lemma prints_print_then {A : Type} line (k : prog A) n :
  prints_lines n k → prints_lines (S n) (print line ≫= λ _, k).
Proof.
  intros Hk w a w' (u & w1 & Hprint & Hrest)%prog_bind_Ok.
  injection Hprint as _ <-. apply Hk in Hrest as (rest & -> & <-). simpl.
  exists (line :: rest). by rewrite <- app_assoc.
Qed.

Lemma prints_lift_then {A B : Type} (r : res A) (k : A → prog B) n :
  (∀ a, prints_lines n (k a)) → prints_lines n (lift r ≫= k).
Proof.
  intros Hk w b w' (a & w1 & [_ ->]%lift_Ok & Hrest)%prog_bind_Ok.
  by apply Hk in Hrest.
Qed.

Lemma prints_reading_then {A B : Type} (f : filesystem → res A) (k : A → prog B) n :
  (∀ a, prints_lines n (k a)) → prints_lines n (reading f ≫= k).
Proof.
  intros Hk w b w' (a & w1 & [_ ->]%reading_Ok & Hrest)%prog_bind_Ok.
  by apply Hk in Hrest.
Qed.

(** The report is 18 lines. *)
Lemma report_prints a all_values : prints_lines 18 (report a all_values).
Proof.
  unfold report.
  repeat first
    [ apply prints_print
    | apply prints_print_then
    | apply prints_lift_then; intros ?
    | apply prints_reading_then; intros ? ].
Qed.

End output_facts.

(** X15. An invocation of [main] that returns prints, on standard output,
    one line for each of its runs and in their order,
    [Run <i+1>/<runs>: appended <k> fitness values] with [k] the number of
    values that the run appended to the master CSV, and after them the 18
    lines of the report. *)
Theorem main_prints_progress `{PyFloat} `{Env} (a : args) (w : world)
    (code : Z) (w' : world) :
  spares (arg_out a) → outside_tmp (arg_out a) →
  ¬ refused a w → main a w = (Ok code, w') →
  ∃ (runs : list run_data) (fs' : filesystem) (rest : list string),
    runs.*1.*1 = range (arg_runs a)
    ∧ append_runs (w_fs w) (arg_out a) runs = Ok fs'
    ∧ fs' !! arg_out a = w_fs w' !! arg_out a
    ∧ w_stdout w' = w_stdout w ++ (progress_line a <$> runs) ++ rest
    ∧ length rest = 18%nat.
Proof.
  intros Hspares Hout Hok. unfold refused, main in *.
  destruct (path_exists (w_fs w) (arg_exe a)); [|tauto].
  destruct (path_exists (w_fs w) (arg_config a)); [|tauto].
  rewrite bool_decide_eq_false_2 by tauto. simpl.
  intros (base_lines & w1 & [_ ->]%reading_Ok & Hmain)%prog_bind_Ok.
  apply prog_bind_Ok in Hmain as (base_seed & w2 & Hseed & Hmain).
  assert (w_fs w2 = w_fs w ∧ w_stdout w2 = w_stdout w) as [Hw2 Hout2].
  { destruct (arg_base_seed a); by injection Hseed as _ <-. }
  apply prog_bind_Ok in Hmain as (all_values & w3 & Hloop & Hmain).
  apply prog_bind_Ok in Hmain as (u & w4 & Hreport & Hret).
  injection Hret as _ <-.
  rewrite (keeps_fs_report _ _ _ _ _ Hreport).
  destruct (report_prints _ _ _ _ _ Hreport) as (rest & -> & Hrest).
  unfold run_loop, with_tmpdir in Hloop.
  destruct (for_prog _ _ _ _) as [[all'|e] w6] eqn:Hfor in Hloop; [|done].
  injection Hloop as -> <-. simpl.
  destruct (Hout (w_fs w2)) as [Hne Hbelow].
  edestruct (run_loop_prints a base_lines base_seed (mkdtemp (w_fs w2))
               (range (arg_runs a)) (w_fs w))
    as (runs & fs' & Hids & Hruns & Hfs' & Hlines); [done|done| |exact Hfor|].
  { simpl. rewrite lookup_insert_ne by done. by rewrite Hw2. }
  simpl in Hlines.
  exists runs, fs', rest. split_and!; [done|done| | |done].
  - rewrite Hfs'. symmetry.
    destruct (w_fs w6 !! arg_out a) as [x|] eqn:E.
    + apply map_lookup_filter_Some_2; [done|]. simpl. by split.
    + apply map_lookup_filter_None_2. by left.
  - by rewrite Hlines, Hout2, <- app_assoc.
Qed.

Lemma main_prints_progress_witness :
  let w' := (Sample.main_run 2 (Sample.start Sample.project)).2 in
  take 2 (w_stdout w') = ["Run 1/2: appended 3 fitness values";
                          "Run 2/2: appended 3 fitness values"]
  ∧ ∃ (runs : list (@run_data Sample.whole_floats)) (rest : list string),
      runs.*1.*1 = [0; 1]
      ∧ w_stdout w' = [] ++ (progress_line (Sample.bench 2) <$> runs) ++ rest
      ∧ length rest = 18%nat.
Proof.
  intros w'.
  assert (¬ refused (Sample.bench 2) (Sample.start Sample.project)) as Hok.
  { intros [Hexe | [Hcfg | Hruns]];
      [vm_compute in Hexe; discriminate
      | vm_compute in Hcfg; discriminate
      | simpl in Hruns; lia]. }
  split; [by vm_compute|]. subst w'.
  destruct (Sample.main_run 2 (Sample.start Sample.project)) as [[code|e] w'] eqn:E;
    [|vm_compute in E; discriminate].
  destruct (main_prints_progress (Sample.bench 2) (Sample.start Sample.project)
              code w' sample_spares sample_outside_tmp Hok E)
    as (runs & fs' & rest & Hids & _ & _ & Hlines & Hrest).
  exists runs, rest. split_and!; [exact Hids|exact Hlines|exact Hrest].
Defined.

(** ** Standard error *)

Section stderr_facts.
Context `{PyFloat} `{Env}.

Lemma keeps_stderr_bind {A B : Type} (m : prog A) (k : A → prog B) :
  keeps_stderr m → (∀ a, keeps_stderr (k a)) → keeps_stderr (m ≫= k).
Proof.
  intros Hm Hk w. unfold mbind, prog_bind. specialize (Hm w).
  destruct (m w) as [[a|e] w1]; simpl in Hm; [|done].
  by rewrite Hk.
Qed.

Lemma keeps_stderr_mret {A : Type} (a : A) : keeps_stderr (mret a : prog A).
Proof. by intros w. Qed.

Lemma keeps_stderr_lift {A : Type} (r : res A) : keeps_stderr (lift r).
Proof. by intros w. Qed.

Lemma keeps_stderr_reading {A : Type} (f : filesystem → res A) :
  keeps_stderr (reading f).
Proof. by intros w. Qed.

Lemma keeps_stderr_writing f : keeps_stderr (writing f).
Proof. intros w. unfold writing. by destruct (f (w_fs w)). Qed.

Lemma keeps_stderr_print line : keeps_stderr (print line).
Proof. by intros w. Qed.

Lemma keeps_stderr_now : keeps_stderr now.
Proof. by intros w. Qed.

Lemma keeps_stderr_run_program exe cfg_path timeout_sec :
  keeps_stderr (run_program exe cfg_path timeout_sec).
Proof.
  intros w. unfold run_program.
  destruct (subprocess_run _ _ _ _) as [[code| |msg] fs]; [|done..].
  by case_bool_decide.
Qed.

Lemma keeps_stderr_for_prog {A S : Type} (body : S → A → prog S) xs s :
  (∀ s x, keeps_stderr (body s x)) → keeps_stderr (for_prog body xs s).
Proof.
  intros Hb. revert s. induction xs as [|x xs IH]; intros s; simpl.
  - apply keeps_stderr_mret.
  - by apply keeps_stderr_bind.
Qed.

Lemma keeps_stderr_with_tmpdir {A : Type} (body : string → prog A) :
  (∀ d, keeps_stderr (body d)) → keeps_stderr (with_tmpdir body).
Proof.
  intros Hb w. unfold with_tmpdir.
  specialize (Hb (mkdtemp (w_fs w))
    (World (<[mkdtemp (w_fs w) := Dir]> (w_fs w)) (w_stdout w) (w_stderr w)
           (w_spawned w) (w_clock w))).
  by destruct (body _ _) as [r w2].
Qed.

Lemma keeps_stderr_report a all_values : keeps_stderr (report a all_values).
Proof.
  unfold report.
  repeat first
    [ apply keeps_stderr_print | apply keeps_stderr_lift
    | apply keeps_stderr_reading
    | apply keeps_stderr_bind; [|intros ?] ].
Qed.

Lemma keeps_stderr_run_once a base_lines base_seed tmpdir all_values run_id :
  keeps_stderr (run_once a base_lines base_seed tmpdir all_values run_id).
Proof.
  unfold run_once, prepare_run.
  apply keeps_stderr_bind.
  { apply keeps_stderr_bind; [apply keeps_stderr_lift|intros lines].
    apply keeps_stderr_bind.
    { destruct (arg_seed_mode a).
      - apply keeps_stderr_mret.
      - apply keeps_stderr_bind; [apply keeps_stderr_now|intros t].
        apply keeps_stderr_lift.
      - apply keeps_stderr_lift. }
    intros lines'.
    apply keeps_stderr_bind; [apply keeps_stderr_writing|intros _].
    apply keeps_stderr_mret. }
  intros [out_csv tmp_cfg].
  apply keeps_stderr_bind; [apply keeps_stderr_run_program|intros _].
  apply keeps_stderr_bind; [apply keeps_stderr_reading|intros [vals t]].
  apply keeps_stderr_bind; [apply keeps_stderr_writing|intros _].
  apply keeps_stderr_bind; [apply keeps_stderr_print|intros _].
  apply keeps_stderr_mret.
Qed.

End stderr_facts.

(** X16. [main] prints on standard error only to refuse its command line:
    an invocation that gets past the three checks adds nothing to standard
    error, however it ends; what goes wrong in a run is raised, not
    reported. *)
Theorem main_stderr_only_refusal `{PyFloat} `{Env} (a : args) (w : world) :
  ¬ refused a w → w_stderr (main a w).2 = w_stderr w.
Proof.
  intros Hok. unfold refused, main in *.
  destruct (path_exists (w_fs w) (arg_exe a)); [|tauto].
  destruct (path_exists (w_fs w) (arg_config a)); [|tauto].
  rewrite bool_decide_eq_false_2 by tauto. cbn [negb].
  clear Hok. revert w.
  apply keeps_stderr_bind; [apply keeps_stderr_reading|intros base_lines].
  apply keeps_stderr_bind.
  { destruct (arg_base_seed a); [apply keeps_stderr_mret|apply keeps_stderr_now]. }
  intros base_seed. apply keeps_stderr_bind.
  { apply keeps_stderr_with_tmpdir. intros d.
    apply keeps_stderr_for_prog. intros s x. apply keeps_stderr_run_once. }
  intros all_values.
  apply keeps_stderr_bind; [apply keeps_stderr_report|intros _].
  apply keeps_stderr_mret.
Qed.

Lemma main_stderr_only_refusal_witness :
  let w := Sample.start Sample.project in
  ¬ refused (Sample.bench 2) w
  ∧ (@main Sample.whole_floats Sample.hanging (Sample.bench 2) w).1
    = Raise TimeoutExpired
  ∧ w_stderr (@main Sample.whole_floats Sample.hanging (Sample.bench 2) w).2 = [].
Proof.
  intros w.
  assert (¬ refused (Sample.bench 2) w) as Hok.
  { intros [Hexe | [Hcfg | Hruns]];
      [vm_compute in Hexe; discriminate
      | vm_compute in Hcfg; discriminate
      | simpl in Hruns; lia]. }
  split; [exact Hok|]. split; [by vm_compute|].
  exact (@main_stderr_only_refusal Sample.whole_floats Sample.hanging
           (Sample.bench 2) w Hok).
Defined.
